(** * Excel chatbot: ingestion, type inference and the query engine

    A shallow embedding of [src/utils/excelProcessor.ts] and
    [src/utils/queryProcessor.ts], together with the part of the
    JavaScript host (strings, IEEE-754 doubles, coercions, objects and
    regular expressions) that these two files rely on.

    Layout:
    - [JS]             the host primitives the TypeScript code calls;
    - [Types]          the records of [src/types.ts];
    - [ExcelProcessor] [inferType], [inferColumnTypes] and the body of
                       [processFile];
    - [QueryProcessor] every method of the class, over a state monad
                       that carries the [dataset] field;
    - [IntentClassifier], [Notions], [Samples]: the rule table of the
                       specification, the vocabulary of the statements
                       and the datasets of the examples;
    - [DataSummary]    [ExcelProcessor.getDataSummary];
    - [TableDisplay]   the cells of [src/components/TableDisplay.tsx];
    - [Tallies]        the counting and grouping loops of the charts,
                       named; [MoreSamples], one more dataset;
    - the facts, module by module, and the scenarios of the
                       specification run on the model. *)

From Stdlib Require Import ZArith List String Ascii Bool Lia PeanoNat.
From Stdlib Require Import SpecFloat DecimalString Permutation.
Import ListNotations.

Set Implicit Arguments.

(* ================================================================== *)
(** * The JavaScript host *)
(* ================================================================== *)

Module JS.

(** ** Strings

    JavaScript strings are sequences of UTF-16 code units; here they are
    sequences of bytes, so the model is exact on ASCII text.  Case
    conversion maps [A-Z] to [a-z] and leaves every other byte alone. *)

Local Open Scope string_scope.

Definition is_upper (c : ascii) : bool :=
  let n := nat_of_ascii c in (65 <=? n)%nat && (n <=? 90)%nat.

Definition lower_char (c : ascii) : ascii :=
  if is_upper c then ascii_of_nat (nat_of_ascii c + 32) else c.

(** [String.prototype.toLowerCase] *)
Fixpoint toLowerCase (s : string) : string :=
  match s with
  | EmptyString => EmptyString
  | String c s' => String (lower_char c) (toLowerCase s')
  end.

(** [String.prototype.startsWith] *)
Fixpoint startsWith (s t : string) {struct t} : bool :=
  match t, s with
  | EmptyString, _ => true
  | String _ _, EmptyString => false
  | String b t', String a s' => Ascii.eqb a b && startsWith s' t'
  end.

(** [String.prototype.includes]: [t] occurs somewhere inside [s]. *)
Fixpoint includes (s t : string) : bool :=
  startsWith s t ||
  match s with
  | EmptyString => false
  | String _ s' => includes s' t
  end.

(** [s.split(sep)] for a one-character separator: always at least one
    piece, empty pieces are kept. *)
Fixpoint split (sep : ascii) (s : string) : list string :=
  match s with
  | EmptyString => [EmptyString]
  | String c s' =>
      if Ascii.eqb c sep then EmptyString :: split sep s'
      else match split sep s' with
           | w :: ws => String c w :: ws
           | [] => [String c EmptyString]
           end
  end.

(** [Array.prototype.join] *)
Fixpoint join (sep : string) (l : list string) : string :=
  match l with
  | [] => ""
  | [x] => x
  | x :: rest => x ++ sep ++ join sep rest
  end.

(** [Array.prototype.indexOf] on an array of strings; [None] is [-1]. *)
Fixpoint indexOf (l : list string) (x : string) : option nat :=
  match l with
  | [] => None
  | y :: l' => if String.eqb y x then Some 0%nat
               else option_map S (indexOf l' x)
  end.

(** Decimal digits of a natural number, as a template literal prints an
    array length. *)
Definition digits_of_N (n : N) : string :=
  NilZero.string_of_uint (N.to_uint n).

Definition digits_of_nat (n : nat) : string := digits_of_N (N.of_nat n).

Fixpoint repeat_char (c : ascii) (n : nat) : string :=
  match n with
  | O => ""
  | S k => String c (repeat_char c k)
  end.

(** ** Numbers: IEEE-754 binary64

    The Number type is [spec_float] at precision 53 and maximal exponent
    1024; the arithmetic is the correctly rounded one of the standard
    library's [SpecFloat]. *)

Local Open Scope Z_scope.

Definition number := spec_float.
Definition prec : Z := 53.
Definition emax : Z := 1024.

Definition NaN : number := S754_nan.
Definition Infinity : number := S754_infinity false.
Definition NegInfinity : number := S754_infinity true.
Definition zero : number := S754_zero false.

Definition isNaN (x : number) : bool :=
  match x with S754_nan => true | _ => false end.

Definition add : number -> number -> number := SFadd prec emax.
Definition sub : number -> number -> number := SFsub prec emax.
Definition mul : number -> number -> number := SFmul prec emax.
Definition div : number -> number -> number := SFdiv prec emax.

(** [x < y], [x <= y], [x > y], [x >= y]; all false when a side is NaN. *)
Definition lt (x y : number) : bool := SFltb x y.
Definition le (x y : number) : bool := SFleb x y.
Definition gt (x y : number) : bool := SFltb y x.
Definition ge (x y : number) : bool := SFleb y x.

(** The double nearest to an integer. *)
Definition of_Z (z : Z) : number := binary_normalize prec emax z 0 false.
Definition of_nat (n : nat) : number := of_Z (Z.of_nat n).

(** The double nearest to the rational [p / q], with sign [s]. *)
Definition of_ratio (s : bool) (p q : positive) : number :=
  let '(mz, ez, lz) := SFdiv_core_binary prec emax (Zpos p) 0 (Zpos q) 0 in
  binary_round_aux prec emax s mz ez lz.

(** Decimal digits of a non-negative integer (how many it has). *)
Definition ndigits10 (n : Z) : Z :=
  Z.of_nat (String.length (digits_of_N (Z.to_N n))).

(** The double nearest to [n * 10^e], with sign [s] ([0 <= n]).  The two
    tests on the magnitude only avoid computing astronomically large
    powers: beyond them the result is an infinity or a zero anyway. *)
Definition of_decimal (s : bool) (n e : Z) : number :=
  match n with
  | Zpos p =>
      if 400 <? ndigits10 n + e then S754_infinity s
      else if ndigits10 n + e <? -400 then S754_zero s
      else if 0 <=? e then binary_round prec emax s (Z.to_pos (n * 10 ^ e)) 0
      else of_ratio s p (Z.to_pos (10 ^ (- e)))
  | _ => S754_zero s
  end.

(** [Math.floor] *)
Definition floor (x : number) : number :=
  match x with
  | S754_finite s m e =>
      if 0 <=? e then x
      else let v := if s then Zneg m else Zpos m in
           binary_normalize prec emax (Z.shiftr v (- e)) 0 s
  | _ => x
  end.

(** [Math.min] and [Math.max] of two numbers: NaN is contagious and
    [-0] is below [+0]. *)
Definition min2 (a b : number) : number :=
  if isNaN a || isNaN b then NaN
  else if lt b a then b
  else if lt a b then a
  else match a, b with
       | _, S754_zero true => b
       | _, _ => a
       end.

Definition max2 (a b : number) : number :=
  if isNaN a || isNaN b then NaN
  else if lt a b then b
  else if lt b a then a
  else match a, b with
       | _, S754_zero false => b
       | _, _ => a
       end.

(** [Math.min(...xs)] and [Math.max(...xs)] *)
Definition min_list (xs : list number) : number := fold_left min2 xs Infinity.
Definition max_list (xs : list number) : number := fold_left max2 xs NegInfinity.

(** *** Printing numbers *)

(** [x < 10^t] for the positive double [m * 2^e]. *)
Definition below_pow10 (m : positive) (e t : Z) : bool :=
  let lhs := Zpos m * 2 ^ (Z.max e 0) * 10 ^ (Z.max (- t) 0) in
  let rhs := 2 ^ (Z.max (- e) 0) * 10 ^ (Z.max t 0) in
  lhs <? rhs.

(** The decimal exponent [E] with [10^(E-1) <= m * 2^e < 10^E]. *)
Definition decimal_exponent (m : positive) (e : Z) : Z :=
  let b := Zpos (digits2_pos m) + e in
  let c := (b - 1) * 30103 / 100000 in
  if below_pow10 m e (c - 1) then c - 1
  else if below_pow10 m e c then c
  else if below_pow10 m e (c + 1) then c + 1
  else if below_pow10 m e (c + 2) then c + 2
  else c + 3.

(** [floor (m * 2^e / 10^t)] *)
Definition scaled_floor (m : positive) (e t : Z) : Z :=
  (Zpos m * 2 ^ (Z.max e 0) * 10 ^ (Z.max (- t) 0))
  / (2 ^ (Z.max (- e) 0) * 10 ^ (Z.max t 0)).

(** [|n * 10^t - m * 2^e|], scaled by the common denominator. *)
Definition scaled_distance (m : positive) (e t n : Z) : Z :=
  Z.abs (n * (2 ^ (Z.max (- e) 0) * 10 ^ (Z.max t 0))
         - Zpos m * 2 ^ (Z.max e 0) * 10 ^ (Z.max (- t) 0)).

(** Does the decimal [n * 10^t] read back as the double [m * 2^e]? *)
Definition reads_back (m : positive) (e : Z) (n t : Z) : bool :=
  SFeqb (of_decimal false n t) (S754_finite false m e).

(** The shortest digit string that reads back as the positive double
    [m * 2^e]: tries [k = 1, 2, ...] significant digits; [E] is the
    decimal exponent.  Yields the digits [n] and the exponent, adjusted
    when rounding up carried into a new digit. *)
Fixpoint shortest_digits (fuel : nat) (k : Z) (m : positive) (e E : Z)
  : Z * Z :=
  let t := E - k in
  let lo := scaled_floor m e t in
  let hi := lo + 1 in
  let ok_lo := (10 ^ (k - 1) <=? lo) && reads_back m e lo t in
  let ok_hi := reads_back m e hi t in
  let pick n := if n =? 10 ^ k then (10 ^ (k - 1), E + 1) else (n, E) in
  match fuel with
  | O => pick lo
  | S fuel' =>
      if ok_lo && ok_hi then
        match scaled_distance m e t lo ?= scaled_distance m e t hi with
        | Lt => pick lo
        | Gt => pick hi
        | Eq => if Z.even lo then pick lo else pick hi
        end
      else if ok_lo then pick lo
      else if ok_hi then pick hi
      else shortest_digits fuel' (k + 1) m e E
  end.

Definition strip_zeros_fuel := 400%nat.

(** Drops the trailing zeros of a digit string (the digits [n] are not
    divisible by 10 once [k] is minimal). *)
Fixpoint strip_trailing_zeros (fuel : nat) (n : Z) : Z :=
  match fuel with
  | O => n
  | S f => if (0 <? n) && (n mod 10 =? 0) then strip_trailing_zeros f (n / 10)
           else n
  end.

Definition digits_of_Z (n : Z) : string := digits_of_N (Z.to_N n).

(** [Number::toString] in radix 10 for the positive double [m * 2^e]. *)
Definition positive_toString (m : positive) (e : Z) : string :=
  let E0 := decimal_exponent m e in
  let '(n0, E) := shortest_digits 17 1 m e E0 in
  let n := strip_trailing_zeros strip_zeros_fuel n0 in
  let ds := digits_of_Z n in
  let k := Z.of_nat (String.length ds) in
  if (k <=? E) && (E <=? 21) then
    (ds ++ repeat_char "0" (Z.to_nat (E - k)))%string
  else if (0 <? E) && (E <=? 21) then
    (substring 0 (Z.to_nat E) ds ++ "."
       ++ substring (Z.to_nat E) (Z.to_nat (k - E)) ds)%string
  else if (-6 <? E) && (E <=? 0) then
    ("0." ++ repeat_char "0" (Z.to_nat (- E)) ++ ds)%string
  else
    let ex := E - 1 in
    let sg := if ex <? 0 then "-" else "+" in
    let exs := (sg ++ digits_of_Z (Z.abs ex))%string in
    if k =? 1 then (ds ++ "e" ++ exs)%string
    else (substring 0 1 ds ++ "." ++ substring 1 (Z.to_nat (k - 1)) ds
            ++ "e" ++ exs)%string.

(** [Number::toString]: [String(x)] and [`${x}`] for a number. *)
Definition number_toString (x : number) : string :=
  match x with
  | S754_nan => "NaN"
  | S754_zero _ => "0"
  | S754_infinity s => if s then "-Infinity" else "Infinity"
  | S754_finite s m e =>
      ((if s then "-" else "") ++ positive_toString m e)%string
  end.

(** The digits [n] printed with [f] of them after the point. *)
Definition fixed_digits (n : Z) (f : nat) : string :=
  let ds := digits_of_Z n in
  match f with
  | O => ds
  | _ =>
      let padded := (repeat_char "0" (S f - String.length ds) ++ ds)%string in
      let k := (String.length padded - f)%nat in
      (substring 0 k padded ++ "." ++ substring k f padded)%string
  end.

(** [Number.prototype.toFixed]: the integer [n] nearest to [x * 10^f],
    the larger one on a tie; magnitudes from [10^21] print as
    [toString] does. *)
Definition toFixed (x : number) (f : nat) : string :=
  match x with
  | S754_nan => "NaN"
  | S754_infinity s => if s then "-Infinity" else "Infinity"
  | S754_zero _ => fixed_digits 0 f
  | S754_finite s m e =>
      if negb (below_pow10 m e 21) then number_toString x
      else
        let num := Zpos m * 2 ^ (Z.max e 0) * 10 ^ Z.of_nat f in
        let den := 2 ^ (Z.max (- e) 0) in
        let n := (2 * num + den) / (2 * den) in
        ((if s then "-" else "") ++ fixed_digits n f)%string
  end.

(** *** Reading numbers: StringToNumber *)

(** WhiteSpace and LineTerminator code points below 128. *)
Definition is_space (c : ascii) : bool :=
  match nat_of_ascii c with
  | 9%nat | 10%nat | 11%nat | 12%nat | 13%nat | 32%nat => true
  | _ => false
  end.

Fixpoint trimStart (s : string) : string :=
  match s with
  | String c s' => if is_space c then trimStart s' else s
  | EmptyString => s
  end.

Fixpoint trimEnd (s : string) : string :=
  match s with
  | EmptyString => EmptyString
  | String c s' =>
      let r := trimEnd s' in
      if is_space c && String.eqb r EmptyString then EmptyString
      else String c r
  end.

Definition trim (s : string) : string := trimEnd (trimStart s).

(** The value of a digit in the given radix. *)
Definition digit_value (radix : Z) (c : ascii) : option Z :=
  let n := Z.of_nat (nat_of_ascii c) in
  let v := if (48 <=? n) && (n <=? 57) then n - 48
           else if (97 <=? n) && (n <=? 102) then n - 87
           else if (65 <=? n) && (n <=? 70) then n - 55
           else radix in
  if v <? radix then Some v else None.

(** Reads the longest run of digits: its value continuing [acc], how
    many digits were read, and what follows. *)
Fixpoint read_digits (radix : Z) (s : string) (acc : Z) (count : Z)
  : Z * Z * string :=
  match s with
  | EmptyString => (acc, count, s)
  | String c s' =>
      match digit_value radix c with
      | Some d => read_digits radix s' (acc * radix + d) (count + 1)
      | None => (acc, count, s)
      end
  end.

(** NonDecimalIntegerLiteral: the digits after [0x], [0o] or [0b]. *)
Definition parse_radix (radix : Z) (s : string) : number :=
  let '(v, count, rest) := read_digits radix s 0 0 in
  if (0 <? count) && String.eqb rest EmptyString then of_Z v else NaN.

(** ExponentPart, after its [e]: an optional sign and at least one
    digit, up to the end of the text. *)
Definition parse_exponent (s : string) : option Z :=
  let '(neg, body) :=
    match s with
    | String "+" r => (false, r)
    | String "-" r => (true, r)
    | _ => (false, s)
    end in
  let '(v, count, rest) := read_digits 10 body 0 0 in
  if (0 <? count) && String.eqb rest EmptyString
  then Some (if neg then - v else v) else None.

(** StrUnsignedDecimalLiteral with the sign already read. *)
Definition parse_unsigned (neg : bool) (s : string) : number :=
  if String.eqb s "Infinity" then S754_infinity neg
  else
    let '(i, ni, r1) := read_digits 10 s 0 0 in
    let '(n, nf, r2) :=
      match r1 with
      | String "." r => read_digits 10 r i 0
      | _ => (i, 0, r1)
      end in
    if ni + nf =? 0 then NaN
    else
      match r2 with
      | EmptyString => of_decimal neg n (- nf)
      | String c r =>
          if Ascii.eqb c "e" || Ascii.eqb c "E" then
            match parse_exponent r with
            | Some ex => of_decimal neg n (ex - nf)
            | None => NaN
            end
          else NaN
      end.

(** StringToNumber: [Number(s)] for a string. *)
Definition string_toNumber (s : string) : number :=
  let t := trim s in
  match t with
  | EmptyString => zero
  | String "0" (String "x" r) | String "0" (String "X" r) => parse_radix 16 r
  | String "0" (String "o" r) | String "0" (String "O" r) => parse_radix 8 r
  | String "0" (String "b" r) | String "0" (String "B" r) => parse_radix 2 r
  | String "+" r => parse_unsigned false r
  | String "-" r => parse_unsigned true r
  | _ => parse_unsigned false t
  end.

(** ** Values of type [any]: what a cell or a property holds *)

Inductive any : Type :=
| VUndefined
| VNull
| VBool (b : bool)
| VNum (n : number)
| VStr (s : string).

(** [Number(v)] *)
Definition Number (v : any) : number :=
  match v with
  | VUndefined => NaN
  | VNull => zero
  | VBool true => of_Z 1
  | VBool false => zero
  | VNum n => n
  | VStr s => string_toNumber s
  end.

(** [String(v)] *)
Definition ToString (v : any) : string :=
  match v with
  | VUndefined => "undefined"
  | VNull => "null"
  | VBool true => "true"
  | VBool false => "false"
  | VNum n => number_toString n
  | VStr s => s
  end.

(** ToBoolean: the falsy values are [undefined], [null], [false], [0],
    [-0], [NaN] and the empty string. *)
Definition truthy (v : any) : bool :=
  match v with
  | VUndefined | VNull => false
  | VBool b => b
  | VNum (S754_zero _) | VNum S754_nan => false
  | VNum _ => true
  | VStr EmptyString => false
  | VStr _ => true
  end.

(** [a || b] *)
Definition or_else (a b : any) : any := if truthy a then a else b.

(** [v != null] *)
Definition not_nullish (v : any) : bool :=
  match v with
  | VUndefined | VNull => false
  | _ => true
  end.

(** [v !== ''] *)
Definition is_empty_string (v : any) : bool :=
  match v with
  | VStr EmptyString => true
  | _ => false
  end.

(** [row[index]] on an array: [undefined] past the end. *)
Definition array_get (row : list any) (index : nat) : any :=
  nth index row VUndefined.

(** ** Objects used as records

    An object is its table of own properties, in the order
    [Object.entries] lists them: array-index names first, in ascending
    order, then the other names in the order they were first written.
    The prototype chain is outside the model: [get] and [set] treat
    [__proto__] and the other names inherited from [Object.prototype]
    as any other name.  They are exact on every name that is not
    inherited, and on an inherited name other than [__proto__] once it
    has been written; the statements that depend on it say so with
    [inherited]. *)

Definition object (V : Type) := list (string * V).

(** Is the property name a canonical array index (below [2^32 - 1])? *)
Definition array_index (k : string) : option Z :=
  let '(v, count, rest) := read_digits 10 k 0 0 in
  if (0 <? count) && String.eqb rest EmptyString
     && String.eqb (digits_of_Z v) k && (v <? 4294967295)
  then Some v else None.

(** [o[k]]: [None] is [undefined]. *)
Fixpoint get (V : Type) (k : string) (o : object V) : option V :=
  match o with
  | [] => None
  | (k', v) :: o' => if String.eqb k' k then Some v else get k o'
  end.

Definition has (V : Type) (k : string) (o : object V) : bool :=
  match get k o with Some _ => true | None => false end.

Fixpoint replace (V : Type) (k : string) (v : V) (o : object V) : object V :=
  match o with
  | [] => []
  | (k', v') :: o' =>
      if String.eqb k' k then (k', v) :: o' else (k', v') :: replace k v o'
  end.

(** Where a new array-index name goes: before the first name that is
    not an index or is a larger one. *)
Fixpoint insert_index (V : Type) (i : Z) (k : string) (v : V) (o : object V)
  : object V :=
  match o with
  | [] => [(k, v)]
  | (k', v') :: o' =>
      match array_index k' with
      | Some j => if j <? i then (k', v') :: insert_index i k v o'
                  else (k, v) :: o
      | None => (k, v) :: o
      end
  end.

(** [o[k] = v] *)
Definition set (V : Type) (k : string) (v : V) (o : object V) : object V :=
  if has k o then replace k v o
  else match array_index k with
       | Some i => insert_index i k v o
       | None => (o ++ [(k, v)])%list
       end.

(** [Object.keys(o)] *)
Definition keys (V : Type) (o : object V) : list string := map fst o.

(** The names that a plain object inherits from [Object.prototype]. *)
Definition Object_prototype_names : list string :=
  ["constructor"; "hasOwnProperty"; "isPrototypeOf"; "propertyIsEnumerable";
   "toLocaleString"; "toString"; "valueOf"; "__proto__";
   "__defineGetter__"; "__defineSetter__";
   "__lookupGetter__"; "__lookupSetter__"].

Definition inherited (k : string) : bool :=
  existsb (String.eqb k) Object_prototype_names.

(** ** Regular expressions

    A backtracking matcher for the fragment the program's patterns are
    written in: characters, classes, sequence, ordered alternation,
    greedy repetition and numbered capture groups. *)

Inductive regex : Type :=
| Eps
| Chr (c : ascii)
| Class (p : ascii -> bool)
| Seq (r1 r2 : regex)
| Alt (r1 r2 : regex)
| Star (r : regex)
| Group (i : nat) (r : regex).

(** [r+] and [r?] *)
Definition Plus (r : regex) : regex := Seq r (Star r).
Definition Opt (r : regex) : regex := Alt r Eps.

(** [\w] and [\s] *)
Definition word_char (c : ascii) : bool :=
  let n := nat_of_ascii c in
  ((48 <=? n) && (n <=? 57) || (65 <=? n) && (n <=? 90)
   || (97 <=? n) && (n <=? 122) || (n =? 95))%nat.

Definition captures := list (nat * string).

(** The text consumed between the suffix [s] and its own suffix [s1]. *)
Definition consumed (s s1 : string) : string :=
  substring 0 (String.length s - String.length s1) s.

(** A matcher takes the text, the captures so far and a continuation
    for what is left; a failing continuation makes it try its next
    choice. *)
Definition matcher (R : Type) : Type :=
  string -> captures -> (string -> captures -> option R) -> option R.

(** Greedy repetition of [step]: one more iteration first, the
    continuation [k] when that fails.  An iteration that consumes
    nothing is rejected, as the language's semantics does, so at most
    [String.length s] iterations take place and the initial [fuel] of
    that many is never used up early. *)
Fixpoint star_loop (R : Type) (step : matcher R)
  (k : string -> captures -> option R) (fuel : nat) (s : string)
  (caps : captures) {struct fuel} : option R :=
  match fuel with
  | O => k s caps
  | S fuel' =>
      match step s caps
              (fun s1 c1 =>
                 if (String.length s1 <? String.length s)%nat
                 then star_loop step k fuel' s1 c1 else None) with
      | Some x => Some x
      | None => k s caps
      end
  end.

(** Matches [r] at the start of [s], the longest repetition and the
    leftmost alternative first. *)
Fixpoint rmatch (R : Type) (r : regex) {struct r} : matcher R :=
  fun s caps k =>
  match r with
  | Eps => k s caps
  | Chr c =>
      match s with
      | String a s' => if Ascii.eqb a c then k s' caps else None
      | EmptyString => None
      end
  | Class p =>
      match s with
      | String a s' => if p a then k s' caps else None
      | EmptyString => None
      end
  | Seq r1 r2 => rmatch r1 s caps (fun s1 c1 => rmatch r2 s1 c1 k)
  | Alt r1 r2 =>
      match rmatch r1 s caps k with
      | Some x => Some x
      | None => rmatch r2 s caps k
      end
  | Star r1 => star_loop (rmatch r1) k (String.length s) s caps
  | Group i r1 =>
      rmatch r1 s caps (fun s1 c1 => k s1 ((i, consumed s s1) :: c1))
  end.

(** The least number of characters a match of [r] covers. *)
Fixpoint min_length (r : regex) : nat :=
  match r with
  | Eps => 0
  | Chr _ | Class _ => 1
  | Seq r1 r2 => min_length r1 + min_length r2
  | Alt r1 r2 => Nat.min (min_length r1) (min_length r2)
  | Star _ => 0
  | Group _ r1 => min_length r1
  end.

(** The groups that a match of [r] can fill. *)
Fixpoint group_ids (r : regex) : list nat :=
  match r with
  | Eps | Chr _ | Class _ => []
  | Seq r1 r2 | Alt r1 r2 => group_ids r1 ++ group_ids r2
  | Star r1 => group_ids r1
  | Group i r1 => i :: group_ids r1
  end.

(** A match: what each group captured, and how many characters the
    whole match covers. *)
Definition match_at (r : regex) (s : string) : option (captures * nat) :=
  rmatch r s []
         (fun s1 c => Some (c, (String.length s - String.length s1)%nat)).

(** [match[i]]: [None] is [undefined]. *)
Fixpoint group (i : nat) (caps : captures) : option string :=
  match caps with
  | [] => None
  | (j, t) :: caps' => if (j =? i)%nat then Some t else group i caps'
  end.

(** The loop [while ((match = pattern.exec(text)) !== null)] for a
    pattern with the [g] flag: each call searches from [lastIndex] for
    the leftmost match and moves [lastIndex] past it.  [skip] counts the
    characters still covered by the previous match.  (A pattern that
    can match the empty text would make the loop spin; the patterns of
    the program cover at least three characters, see
    [patterns_consume].) *)
Fixpoint exec_all (r : regex) (s : string) (skip : nat) : list captures :=
  match s with
  | EmptyString => []
  | String _ s' =>
      match skip with
      | S skip' => exec_all r s' skip'
      | O =>
          match match_at r s with
          | Some (caps, len) => caps :: exec_all r s' (len - 1)
          | None => exec_all r s' 0
          end
      end
  end.

(** [o[k]] read as a value: a missing property is [undefined]. *)
Definition prop (k : string) (o : object any) : any :=
  match get k o with Some v => v | None => VUndefined end.

(** SameValueZero, the equality of [Set]: NaN equals itself and the two
    zeros are equal. *)
Definition sameValueZero (a b : any) : bool :=
  match a, b with
  | VUndefined, VUndefined | VNull, VNull => true
  | VBool x, VBool y => Bool.eqb x y
  | VNum x, VNum y => isNaN x && isNaN y || SFeqb x y
  | VStr x, VStr y => String.eqb x y
  | _, _ => false
  end.

(** [[...new Set(xs)]]: the first occurrence of each value. *)
Fixpoint unique (xs : list any) (seen : list any) : list any :=
  match xs with
  | [] => []
  | x :: xs' =>
      if existsb (sameValueZero x) seen then unique xs' seen
      else x :: unique xs' (x :: seen)
  end.

(** An array paired with its indices, for callbacks that take
    [(element, index)]. *)
Definition indexed (A : Type) (l : list A) : list (nat * A) :=
  combine (seq 0 (List.length l)) l.

Definition newline : string := String (ascii_of_nat 10) EmptyString.

End JS.

(* ================================================================== *)
(** * [src/types.ts] *)
(* ================================================================== *)

Module Types.
Import JS.

Inductive ColumnType : Type := TNumber | TString | TBoolean | TDate.

Definition ColumnType_eqb (a b : ColumnType) : bool :=
  match a, b with
  | TNumber, TNumber | TString, TString
  | TBoolean, TBoolean | TDate, TDate => true
  | _, _ => false
  end.

Record DataColumn : Type := {
  name : string;
  type : ColumnType;
  values : list any
}.

(** A row-record, [Record<string, any>]. *)
Definition Row : Type := object any.

Record DataSet : Type := {
  columns : list DataColumn;
  rows : list Row;
  fileName : string
}.

Inductive ChartType : Type := bar | line | pie | area.

(** An element of [ChartData.data]: [{name, count, value}], with
    [average] as well in a grouped analysis.  Counters hold exact
    integers (an array has fewer than [2^32] elements), so [count] is a
    natural number. *)
Record ChartPoint : Type := {
  point_name : string;
  point_count : nat;
  point_average : option number;
  point_value : number
}.

Record ChartData : Type := {
  chart_type : ChartType;
  data : list ChartPoint;
  xKey : string;
  yKey : string;
  chart_title : string
}.

Record TableData : Type := {
  headers : list string;
  table_rows : list (list any);
  table_title : string
}.

Inductive ResultType : Type := text | chart | table.

Record QueryResult : Type := {
  result_type : ResultType;
  content : string;
  result_chart : option ChartData;
  result_table : option TableData
}.

(** The three shapes of object literal the handlers return. *)
Definition text_result (c : string) : QueryResult :=
  {| result_type := text; content := c;
     result_chart := None; result_table := None |}.

Definition chart_result (c : string) (ch : ChartData) : QueryResult :=
  {| result_type := chart; content := c;
     result_chart := Some ch; result_table := None |}.

Definition table_result (c : string) (t : TableData) : QueryResult :=
  {| result_type := table; content := c;
     result_chart := None; result_table := Some t |}.

End Types.

(* ================================================================== *)
(** * [src/utils/excelProcessor.ts] *)
(* ================================================================== *)

Module ExcelProcessor.
Import JS Types.
Local Open Scope string_scope.

(** [part > whole * 0.8] for two array lengths.  The product is a
    double.  The literal [0.8] is the double [0.8 * (1 + 2^-54)]; when
    [4 * whole / 5] is an integer the exact product exceeds it by less
    than half a unit in the last place and rounds to it, and otherwise
    the product stays at a distance of 0.2 or more from every integer.
    Hence, for every length an array can have, the comparison is the
    one between [5 * part] and [4 * whole].
    [threshold_agrees_with_doubles] and [threshold_at_large_lengths]
    check this against the double arithmetic. *)
Definition above_80_percent (part whole : nat) : bool :=
  (4 * whole <? 5 * part)%nat.

(** The same comparison carried out on doubles, as the source has it. *)
Definition point_eight : number := Eval vm_compute in string_toNumber "0.8".

Definition exceeds_point_eight (part whole : Z) : bool :=
  gt (of_Z part) (mul (of_Z whole) point_eight).

Definition above_80_percent_double (part whole : nat) : bool :=
  exceeds_point_eight (Z.of_nat part) (Z.of_nat whole).

(** [!isNaN(Number(val)) && val !== ''] *)
Definition isNumericValue (val : any) : bool :=
  negb (isNaN (Number val)) && negb (is_empty_string val).

(** [typeof val === 'boolean' || (typeof val === 'string' &&
    ['true','false','yes','no','1','0'].includes(val.toLowerCase()))] *)
Definition isBooleanValue (val : any) : bool :=
  match val with
  | VBool _ => true
  | VStr s =>
      existsb (String.eqb (toLowerCase s))
        ["true"; "false"; "yes"; "no"; "1"; "0"]
  | _ => false
  end.

(** What the promise of [processFile] settles to. *)
Inductive outcome (A : Type) : Type :=
| Resolved (a : A)
| Rejected (message : string).
Arguments Rejected {A} message.

Section Host.

(** [Date.parse]: which texts it accepts beyond the ISO format is left
    to the implementation, so the function is a parameter of the
    model. *)
Variable Date_parse : any -> number.

(** [!isNaN(Date.parse(val))] *)
Definition isDateValue (val : any) : bool :=
  negb (isNaN (Date_parse val)).

Definition inferType (values : list any) : ColumnType :=
  if (List.length values =? 0)%nat then TString
  else
    let numericValues := filter isNumericValue values in
    if above_80_percent (List.length numericValues) (List.length values)
    then TNumber
    else
      let booleanValues := filter isBooleanValue values in
      if above_80_percent (List.length booleanValues) (List.length values)
      then TBoolean
      else
        let dateValues := filter isDateValue values in
        if above_80_percent (List.length dateValues) (List.length values)
        then TDate
        else TString.

(** [rows.map(row => row[colIndex]).filter(val => val != null)] *)
Definition columnValues (rows : list (list any)) (colIndex : nat)
  : list any :=
  filter not_nullish (map (fun row => array_get row colIndex) rows).

Definition inferColumnTypes (headers : list string) (rows : list (list any))
  : list DataColumn :=
  map (fun '(colIndex, header) =>
         let values := columnValues rows colIndex in
         {| name := header; type := inferType values; values := values |})
      (indexed headers).

(** The row-record of one data row:
    [headers.forEach((header, index) => rowObj[header] = row[index] || null)] *)
Definition rowObject (headers : list string) (row : list any) : Row :=
  fold_left
    (fun rowObj '(index, header) =>
       set header (or_else (array_get row index) VNull) rowObj)
    (indexed headers) [].

(** The header cells, typed [string[]] by the cast [as string[]].  The
    cast converts nothing: the model is exact for a header row whose
    cells are all text, [map VStr headers], which the statements about
    column names and row keys take as their sheet. *)
Definition as_strings (cells : list any) : list string := map ToString cells.

(** The [onload] handler of [processFile], from the decoded sheet
    [jsonData] (what [XLSX.utils.sheet_to_json] with [header: 1]
    returned) on. *)
Definition processFile (fileName : string) (jsonData : list (list any))
  : outcome DataSet :=
  match jsonData with
  | [] => Rejected ("Failed to process Excel file: " ++ "Empty Excel file")
  | headerCells :: dataRows =>
      let headers := as_strings headerCells in
      let columns := inferColumnTypes headers dataRows in
      let rows := map (rowObject headers) dataRows in
      Resolved {| columns := columns; rows := rows; fileName := fileName |}
  end.

End Host.

End ExcelProcessor.

(* ================================================================== *)
(** * [src/utils/queryProcessor.ts] *)
(* ================================================================== *)

Module QueryProcessor.
Import JS Types.
Local Open Scope string_scope.

(** ** The object and its one field

    A [QueryProcessor] holds [this.dataset]; a method is a computation
    that may read and replace that field and returns a result. *)

Definition Method (A : Type) : Type := DataSet -> A * DataSet.

Definition ret (A : Type) (a : A) : Method A := fun ds => (a, ds).

Definition bind (A B : Type) (m : Method A) (k : A -> Method B) : Method B :=
  fun ds => let '(a, ds') := m ds in k a ds'.

(** [this.dataset] *)
Definition this_dataset : Method DataSet := fun ds => (ds, ds).

Notation "x <- m ;; k" := (bind m (fun x => k))
  (at level 61, m at next level, right associativity).

(** The value a call returns, and the field after the call. *)
Definition result_of (A : Type) (m : Method A) (ds : DataSet) : A := fst (m ds).
Definition dataset_after (A : Type) (m : Method A) (ds : DataSet) : DataSet :=
  snd (m ds).

(** ** Shared expressions *)

(** [col.values.map(v => Number(v)).filter(v => !isNaN(v))] *)
Definition coercible (vs : list any) : list number :=
  filter (fun v => negb (isNaN v)) (map Number vs).

(** [values.reduce((a, b) => a + b, 0)] *)
Definition sum (values : list number) : number := fold_left add values zero.

(** [values.reduce((a, b) => a + b, 0) / values.length] *)
Definition mean (values : list number) : number :=
  div (sum values) (of_nat (List.length values)).

(** [query.toLowerCase().includes(col.name.toLowerCase())] *)
Definition mentions (query : string) (col : DataColumn) : bool :=
  includes (toLowerCase query) (toLowerCase (name col)).

Definition is_number_column (col : DataColumn) : bool :=
  ColumnType_eqb (type col) TNumber.

Definition is_string_column (col : DataColumn) : bool :=
  ColumnType_eqb (type col) TString.

(** ** Conditions *)

Record Condition : Type := {
  column : string;
  operator : string;
  value : any
}.

Definition w : regex := Class word_char.
Definition sp : regex := Class is_space.

(** [/(\w+)\s*(>|<|=|>=|<=)\s*(\w+)/g] *)
Definition pattern_comparison : regex :=
  Seq (Group 1 (Plus w))
 (Seq (Star sp)
 (Seq (Group 2 (Alt (Chr ">") (Alt (Chr "<") (Alt (Chr "=")
                (Alt (Seq (Chr ">") (Chr "=")) (Seq (Chr "<") (Chr "=")))))))
 (Seq (Star sp)
      (Group 3 (Plus w))))).

(** [/(\w+)\s+is\s+(\w+)/g] *)
Definition pattern_is : regex :=
  Seq (Group 1 (Plus w))
 (Seq (Plus sp)
 (Seq (Chr "i") (Seq (Chr "s")
 (Seq (Plus sp)
      (Group 2 (Plus w)))))).

(** [/(\w+)\s+equals?\s+(\w+)/g] *)
Definition pattern_equals : regex :=
  Seq (Group 1 (Plus w))
 (Seq (Plus sp)
 (Seq (Chr "e") (Seq (Chr "q") (Seq (Chr "u") (Seq (Chr "a") (Seq (Chr "l")
 (Seq (Opt (Chr "s"))
 (Seq (Plus sp)
      (Group 2 (Plus w)))))))))).

Definition patterns : list regex :=
  [pattern_comparison; pattern_is; pattern_equals].

(** The body of the [while] loop for one match:
    [const [, column, operator, value] = match] takes the groups by
    position, whatever the pattern. *)
Definition condition_of_match (ds : DataSet) (caps : captures)
  : list Condition :=
  match group 1 caps with
  | None => []
  | Some column =>
      let operator := group 2 caps in
      let value := match group 3 caps with
                   | Some v => VStr v
                   | None => VUndefined
                   end in
      let matchingColumn :=
        find (fun col => includes (toLowerCase (name col)) column
                         || includes column (toLowerCase (name col)))
             (columns ds) in
      match matchingColumn with
      | Some col =>
          [{| column := name col;
              operator := match operator with
                          | Some (String c op) => String c op
                          | _ => "="
                          end;
              value := if is_number_column col then VNum (Number value)
                       else value |}]
      | None => []
      end
  end.

Definition extractConditions (query : string) : Method (list Condition) :=
  ds <- this_dataset ;;
  ret (flat_map
         (fun pattern =>
            flat_map (condition_of_match ds)
                     (exec_all pattern (toLowerCase query) 0))
         patterns).

(** The callback of [conditions.every] *)
Definition holds (row : Row) (condition : Condition) : bool :=
  let cellValue := prop (column condition) row in
  let filterValue := value condition in
  if String.eqb (operator condition) ">" then
    gt (Number cellValue) (Number filterValue)
  else if String.eqb (operator condition) "<" then
    lt (Number cellValue) (Number filterValue)
  else if String.eqb (operator condition) ">=" then
    ge (Number cellValue) (Number filterValue)
  else if String.eqb (operator condition) "<=" then
    le (Number cellValue) (Number filterValue)
  else
    includes (toLowerCase (ToString cellValue))
             (toLowerCase (ToString filterValue)).

Definition applyFilters (conditions : list Condition) : Method (list Row) :=
  ds <- this_dataset ;;
  ret (filter (fun row => forallb (holds row) conditions) (rows ds)).

(** ** Charts *)

(** [Object.entries(counts).map(([name, count]) =>
      ({name, count, value: count}))] *)
Definition count_points (counts : object nat) : list ChartPoint :=
  map (fun '(name, count) =>
         {| point_name := name; point_count := count;
            point_average := None; point_value := of_nat count |})
      counts.

(** [counts[key] = (counts[key] || 0) + 1] *)
Definition increment (key : string) (counts : object nat) : object nat :=
  set key (match get key counts with Some n => n | None => O end + 1)%nat
      counts.

Definition createDistributionChart (columnName : string)
  (chartType : ChartType) : Method QueryResult :=
  ds <- this_dataset ;;
  match find (fun col => String.eqb (name col) columnName) (columns ds) with
  | None => ret (text_result ("Column " ++ columnName ++ " not found."))
  | Some column =>
      let counts :=
        fold_left
          (fun counts value =>
             increment (ToString (or_else value (VStr "Unknown"))) counts)
          (values column) [] in
      ret (chart_result ("Distribution of " ++ columnName ++ ":")
             {| chart_type := chartType;
                data := count_points counts;
                xKey := "name";
                yKey := "count";
                chart_title := columnName ++ " Distribution" |})
  end.

Definition binCount : number := of_Z 10.

(** [Math.min(Math.floor((value - min) / binSize), binCount - 1)] *)
Definition binIndex (min binSize value : number) : number :=
  min2 (floor (div (sub value min) binSize)) (sub binCount (of_Z 1)).

(** The label of the bin a value falls in. *)
Definition binLabel (min binSize value : number) : string :=
  let binStart := add min (mul (binIndex min binSize value) binSize) in
  let binEnd := add binStart binSize in
  toFixed binStart 1 ++ "-" ++ toFixed binEnd 1.

(** The [bins] object once [values.forEach] has run. *)
Definition histogram (values : list number) : object nat :=
  let min := min_list values in
  let max := max_list values in
  let binSize := div (sub max min) binCount in
  fold_left (fun bins value => increment (binLabel min binSize value) bins)
            values [].

Definition createNumericChart (columnName : string) (chartType : ChartType)
  : Method QueryResult :=
  ds <- this_dataset ;;
  match find (fun col => String.eqb (name col) columnName) (columns ds) with
  | None => ret (text_result ("Column " ++ columnName ++ " not found."))
  | Some column =>
      let values := coercible (values column) in
      let bins := histogram values in
      ret (chart_result ("Distribution of " ++ columnName ++ ":")
             {| chart_type := chartType;
                data := count_points bins;
                xKey := "name";
                yKey := "count";
                chart_title := columnName ++ " Distribution" |})
  end.

(** [if (!groups[key]) groups[key] = []; groups[key].push(row)] *)
Definition push_group (key : string) (row : Row) (groups : object (list Row))
  : object (list Row) :=
  match get key groups with
  | Some members => set key (members ++ [row])%list groups
  | None => set key [row] groups
  end.

Definition createGroupedAnalysis (groupByColumn : string)
  : Method QueryResult :=
  ds <- this_dataset ;;
  match find (fun col => String.eqb (name col) groupByColumn) (columns ds) with
  | None => ret (text_result ("Column " ++ groupByColumn ++ " not found."))
  | Some _ =>
      let groups :=
        fold_left
          (fun groups row =>
             push_group
               (ToString (or_else (prop groupByColumn row) (VStr "Unknown")))
               row groups)
          (rows ds) [] in
      let numericColumn :=
        find (fun col => is_number_column col
                         && negb (String.eqb (name col) groupByColumn))
             (columns ds) in
      match numericColumn with
      | Some numericColumn =>
          let data :=
            map (fun '(group, rows) =>
                   let values :=
                     coercible (map (prop (name numericColumn)) rows) in
                   let avg := if (0 <? List.length values)%nat
                              then mean values else zero in
                   {| point_name := group;
                      point_count := List.length rows;
                      point_average := Some avg;
                      point_value := avg |})
                groups in
          ret (chart_result ("Analysis by " ++ groupByColumn ++ ":")
                 {| chart_type := bar;
                    data := data;
                    xKey := "name";
                    yKey := "average";
                    chart_title := "Average " ++ name numericColumn
                                   ++ " by " ++ groupByColumn |})
      | None =>
          let data :=
            map (fun '(group, rows) =>
                   {| point_name := group;
                      point_count := List.length rows;
                      point_average := None;
                      point_value := of_nat (List.length rows) |})
                groups in
          ret (chart_result ("Count by " ++ groupByColumn ++ ":")
                 {| chart_type := bar;
                    data := data;
                    xKey := "name";
                    yKey := "count";
                    chart_title := "Count by " ++ groupByColumn |})
      end
  end.

(** ** The handlers *)

Definition handleAverageQuery (query : string) : Method QueryResult :=
  ds <- this_dataset ;;
  let numericColumns := filter is_number_column (columns ds) in
  if (List.length numericColumns =? 0)%nat then
    ret (text_result "No numeric columns found for calculating averages.")
  else
    match find (mentions query) numericColumns with
    | Some mentionedColumn =>
        let values := coercible (values mentionedColumn) in
        let average := mean values in
        ret (text_result ("The average " ++ name mentionedColumn ++ " is "
                            ++ toFixed average 2 ++ "."))
    | None =>
        let averages :=
          map (fun col =>
                 let values := coercible (values col) in
                 let avg := mean values in
                 name col ++ ": " ++ toFixed avg 2)
              numericColumns in
        ret (text_result ("Average values:" ++ newline
                            ++ join newline averages))
    end.

Definition handleCountQuery (query : string) : Method QueryResult :=
  ds <- this_dataset ;;
  let totalRows := List.length (rows ds) in
  conditions <- extractConditions query ;;
  if (0 <? List.length conditions)%nat then
    filteredRows <- applyFilters conditions ;;
    ret (text_result ("Found " ++ digits_of_nat (List.length filteredRows)
                        ++ " rows matching your criteria out of "
                        ++ digits_of_nat totalRows ++ " total rows."))
  else
    ret (text_result ("Total number of records: " ++ digits_of_nat totalRows)).

Definition handleMaxQuery (query : string) : Method QueryResult :=
  ds <- this_dataset ;;
  let numericColumns := filter is_number_column (columns ds) in
  match find (mentions query) numericColumns with
  | Some mentionedColumn =>
      let values := coercible (values mentionedColumn) in
      let max := max_list values in
      ret (text_result ("The maximum " ++ name mentionedColumn ++ " is "
                          ++ number_toString max ++ "."))
  | None =>
      ret (text_result
             "Please specify which column you want to find the maximum for.")
  end.

Definition handleMinQuery (query : string) : Method QueryResult :=
  ds <- this_dataset ;;
  let numericColumns := filter is_number_column (columns ds) in
  match find (mentions query) numericColumns with
  | Some mentionedColumn =>
      let values := coercible (values mentionedColumn) in
      let min := min_list values in
      ret (text_result ("The minimum " ++ name mentionedColumn ++ " is "
                          ++ number_toString min ++ "."))
  | None =>
      ret (text_result
             "Please specify which column you want to find the minimum for.")
  end.

Definition handleChartQuery (query : string) : Method QueryResult :=
  ds <- this_dataset ;;
  let lowerQuery := toLowerCase query in
  let chartType :=
    if includes lowerQuery "line" then line
    else if includes lowerQuery "pie" then pie
    else if includes lowerQuery "area" then area
    else bar in
  let unable :=
    ret (text_result
           "Unable to determine what to chart. Please specify a column name.")
  in
  match find (mentions query) (columns ds) with
  | None =>
      match find is_string_column (columns ds) with
      | Some categoricalCol =>
          createDistributionChart (name categoricalCol) chartType
      | None => unable
      end
  | Some xColumn =>
      if is_string_column xColumn then
        createDistributionChart (name xColumn) chartType
      else if is_number_column xColumn then
        createNumericChart (name xColumn) chartType
      else unable
  end.

Definition handleComparisonQuery (query : string) : Method QueryResult :=
  ds <- this_dataset ;;
  let words := split " " (toLowerCase query) in
  match indexOf words "by" with
  | None =>
      ret (text_result
             "Please specify what you want to compare and by which column.")
  | Some byIndex =>
      let groupByColumn :=
        find (fun col =>
                existsb (fun word => includes (toLowerCase (name col)) word)
                        (skipn (byIndex + 1) words))
             (columns ds) in
      match groupByColumn with
      | None => ret (text_result "Could not identify the column to group by.")
      | Some groupByColumn => createGroupedAnalysis (name groupByColumn)
      end
  end.

(** [headers.map(header => row[header] || '')] *)
Definition table_row (headers : list string) (row : Row) : list any :=
  map (fun header => or_else (prop header row) (VStr "")) headers.

Definition handleFilterQuery (query : string) : Method QueryResult :=
  conditions <- extractConditions query ;;
  filteredRows <- applyFilters conditions ;;
  ds <- this_dataset ;;
  if (List.length filteredRows =? 0)%nat then
    ret (text_result "No records match your filter criteria.")
  else
    let headers := map name (columns ds) in
    let rows := map (table_row headers) (firstn 10 filteredRows) in
    ret (table_result
           ("Found " ++ digits_of_nat (List.length filteredRows)
              ++ " matching records:")
           {| headers := headers;
              table_rows := rows;
              table_title := "Filtered Results" |}).

Definition handleSummaryQuery : Method QueryResult :=
  ds <- this_dataset ;;
  let summary :=
    map (fun col =>
           if is_number_column col then
             let values := coercible (values col) in
             let avg := mean values in
             let min := min_list values in
             let max := max_list values in
             name col ++ ": Average " ++ toFixed avg 2 ++ ", Range "
               ++ number_toString min ++ "-" ++ number_toString max
           else
             let uniqueCount := List.length (unique (values col) []) in
             name col ++ ": " ++ digits_of_nat uniqueCount ++ " unique values")
        (columns ds) in
  ret (text_result ("Data Summary for " ++ fileName ds ++ ":"
                      ++ newline ++ newline ++ join newline summary)).

(** ** The entry point *)

Definition processQuery (query : string) : Method QueryResult :=
  let lowerQuery := toLowerCase query in
  if includes lowerQuery "average" || includes lowerQuery "mean" then
    handleAverageQuery query
  else if includes lowerQuery "count" || includes lowerQuery "how many" then
    handleCountQuery query
  else if includes lowerQuery "maximum" || includes lowerQuery "max"
          || includes lowerQuery "highest" then
    handleMaxQuery query
  else if includes lowerQuery "minimum" || includes lowerQuery "min"
          || includes lowerQuery "lowest" then
    handleMinQuery query
  else if includes lowerQuery "chart" || includes lowerQuery "graph"
          || includes lowerQuery "plot" || includes lowerQuery "show" then
    handleChartQuery query
  else if includes lowerQuery "compare" || includes lowerQuery "by" then
    handleComparisonQuery query
  else if includes lowerQuery "where" || includes lowerQuery "filter" then
    handleFilterQuery query
  else
    handleSummaryQuery.

End QueryProcessor.

(* ================================================================== *)
(** * The intent table of the specification *)
(* ================================================================== *)

Module IntentClassifier.
Import JS Types QueryProcessor.
Local Open Scope string_scope.

Inductive Intent : Type :=
| Average | Count | Max | Min | Chart | Comparison | Filter | Summary.

(** The ordered rule list as the specification words it: the keywords
    of each rule and the intent it selects.  [processQuery] above is
    the program's chain of conditionals; the two are compared below. *)
Definition intent_rules : list (list string * Intent) :=
  [ (["average"; "mean"], Average);
    (["count"; "how many"], Count);
    (["maximum"; "max"; "highest"], Max);
    (["minimum"; "min"; "lowest"], Min);
    (["chart"; "graph"; "plot"; "show"], Chart);
    (["compare"; "by"], Comparison);
    (["where"; "filter"], Filter) ].

(** A rule matches a lower-cased text that contains one of its words. *)
Definition rule_matches (lowerQuery : string) (rule : list string * Intent)
  : bool :=
  existsb (includes lowerQuery) (fst rule).

(** The first rule that matches decides; [Summary] when none does. *)
Definition classify (lowerQuery : string) : Intent :=
  match find (rule_matches lowerQuery) intent_rules with
  | Some rule => snd rule
  | None => Summary
  end.

(** The handler an intent stands for. *)
Definition handler (intent : Intent) (query : string) : Method QueryResult :=
  match intent with
  | Average => handleAverageQuery query
  | Count => handleCountQuery query
  | Max => handleMaxQuery query
  | Min => handleMinQuery query
  | Chart => handleChartQuery query
  | Comparison => handleComparisonQuery query
  | Filter => handleFilterQuery query
  | Summary => handleSummaryQuery
  end.

End IntentClassifier.

(* ================================================================== *)
(** * Notions the statements use *)
(* ================================================================== *)

Module Notions.
Import JS Types ExcelProcessor QueryProcessor.
Local Open Scope string_scope.

(** A method that leaves [this.dataset] as it found it. *)
Definition read_only (A : Type) (m : Method A) : Prop :=
  forall ds, dataset_after m ds = ds.

(** The last position at which a header occurs. *)
Fixpoint last_position (header : string) (l : list (nat * string))
  : option nat :=
  match l with
  | [] => None
  | (index, h) :: l' =>
      match last_position header l' with
      | Some j => Some j
      | None => if String.eqb h header then Some index else None
      end
  end.

(** Strictly more than 80% of the values satisfy [p]. *)
Definition more_than_80_percent (p : any -> bool) (values : list any) : Prop :=
  (4 * List.length values < 5 * List.length (filter p values))%nat.

(** At least 80% of the values satisfy [p]. *)
Definition at_least_80_percent (p : any -> bool) (values : list any) : Prop :=
  (4 * List.length values <= 5 * List.length (filter p values))%nat.

(** The sum of the counters of a [counts] or [bins] object. *)
Definition total (counts : object nat) : nat := list_sum (map snd counts).

(** What a matcher that covers at least [n] characters guarantees: a
    successful result is one of its continuation, on a text shorter by
    [n] at least. *)
Definition covers (R : Type) (n : nat) (m : matcher R) : Prop :=
  forall s caps k x,
    m s caps k = Some x ->
    exists s1 c1, k s1 c1 = Some x
                  /\ (String.length s1 + n <= String.length s)%nat.

(** What a matcher that fills only the groups [ids] guarantees: the
    other groups reach its continuation as they were. *)
Definition keeps (R : Type) (ids : list nat) (m : matcher R) : Prop :=
  forall s caps k x,
    m s caps k = Some x ->
    exists s1 c1, k s1 c1 = Some x
                  /\ forall i, ~ In i ids -> group i c1 = group i caps.

(** A cell as a row-record keeps it: [cell || null]. *)
Definition or_null (cell : any) : any := or_else cell VNull.

End Notions.

(* ================================================================== *)
(** * Sample datasets *)
(* ================================================================== *)

Module Samples.
Import JS Types ExcelProcessor.
Local Open Scope string_scope.

(** A dataset whose number-typed column holds no value that coerces. *)
Definition uncoercible_sales : DataSet :=
  {| columns := [{| name := "sales"; type := TNumber;
                    values := [VStr "n/a"] |}];
     rows := [[("sales", VStr "n/a")]];
     fileName := "sales.xlsx" |}.

(** The dataset of a sheet with a text column and a number column. *)
Definition staff : DataSet :=
  {| columns :=
       [{| name := "status"; type := TString;
           values := [VStr "active"; VStr "inactive"] |};
        {| name := "age"; type := TNumber;
           values := [VNum (of_Z 30); VNum (of_Z 41)] |}];
     rows := [[("status", VStr "active"); ("age", VNum (of_Z 30))];
              [("status", VStr "inactive"); ("age", VNum (of_Z 41))]];
     fileName := "staff.xlsx" |}.

(** The dataset of a sheet whose one column holds the same number
    twice. *)
Definition flat_prices : DataSet :=
  {| columns := [{| name := "price"; type := TNumber;
                    values := [VNum (of_Z 5); VNum (of_Z 5)] |}];
     rows := [[("price", VNum (of_Z 5))]; [("price", VNum (of_Z 5))]];
     fileName := "prices.xlsx" |}.

(** Ingestion on a host whose [Date.parse] accepts nothing; no cell
    below looks like a date. *)
Definition ingest (fileName : string) (sheet : list (list any)) : DataSet :=
  match processFile (fun _ => NaN) fileName sheet with
  | Resolved ds => ds
  | Rejected _ => {| columns := []; rows := []; fileName := fileName |}
  end.

Definition num (z : Z) : any := VNum (of_Z z).

Definition sales : DataSet :=
  ingest "sales.xlsx" [[VStr "sales"]; [num 10]; [num 20]; [num 30]].

Definition regions : DataSet :=
  ingest "regions.xlsx"
    [[VStr "region"]; [VStr "east"]; [VStr "east"]; [VStr "west"]].

Definition payroll : DataSet :=
  ingest "payroll.xlsx"
    [[VStr "dept"; VStr "salary"];
     [VStr "ops"; num 100]; [VStr "ops"; num 300]; [VStr "dev"; num 250]].

Definition people : DataSet :=
  ingest "people.xlsx"
    [[VStr "name"; VStr "age"];
     [VStr "ann"; num 25]; [VStr "bob"; num 31]; [VStr "cyd"; num 30];
     [VStr "dee"; num 47]; [VStr "eli"; num 19]].

End Samples.

(* ================================================================== *)
(** * [ExcelProcessor.getDataSummary] *)
(* ================================================================== *)

Module DataSummary.
Import JS Types QueryProcessor.
Local Open Scope string_scope.

(** The column type as the template literal prints it. *)
Definition ColumnType_toString (t : ColumnType) : string :=
  match t with
  | TNumber => "number"
  | TString => "string"
  | TBoolean => "boolean"
  | TDate => "date"
  end.

(** [getDataSummary]: the template literal at the end, over the
    per-column lines joined by a line feed.  The number branch uses the
    same three expressions as [handleSummaryQuery]. *)
Definition getDataSummary (dataset : DataSet) : string :=
  let numRows := List.length (rows dataset) in
  let numCols := List.length (columns dataset) in
  let columnSummary :=
    join newline
      (map (fun col =>
              let type := type col in
              let name := name col in
              if ColumnType_eqb type TNumber then
                let numValues := coercible (values col) in
                let avg := mean numValues in
                let min := min_list numValues in
                let max := max_list numValues in
                name ++ " (" ++ ColumnType_toString type ++ "): avg="
                  ++ toFixed avg 2 ++ ", min=" ++ number_toString min
                  ++ ", max=" ++ number_toString max
              else
                let uniqueValues := List.length (unique (values col) []) in
                name ++ " (" ++ ColumnType_toString type ++ "): "
                  ++ digits_of_nat uniqueValues ++ " unique values")
           (columns dataset)) in
  "Dataset Summary:" ++ newline
    ++ "- Rows: " ++ digits_of_nat numRows ++ newline
    ++ "- Columns: " ++ digits_of_nat numCols ++ newline
    ++ "- Column Details:" ++ newline
    ++ columnSummary.

End DataSummary.

(* ================================================================== *)
(** * [src/components/TableDisplay.tsx] *)
(* ================================================================== *)

Module TableDisplay.
Import JS Types.
Local Open Scope string_scope.

(** [cell !== null && cell !== undefined ? String(cell) : '-'] *)
Definition displayCell (cell : any) : string :=
  match cell with
  | VNull | VUndefined => "-"
  | _ => ToString cell
  end.

(** The text of the table body, row by row. *)
Definition displayRows (table : TableData) : list (list string) :=
  map (map displayCell) (table_rows table).

(** [rows.length === 0 && ...]: whether the notice "No data to display"
    is rendered. *)
Definition showsNoData (table : TableData) : bool :=
  (List.length (table_rows table) =? 0)%nat.

End TableDisplay.

(* ================================================================== *)
(** * Tallies and groups *)
(* ================================================================== *)

Module Tallies.
Import JS Types QueryProcessor.
Local Open Scope string_scope.

(** The elements of [xs] that carry the label [k]. *)
Definition labelled (A : Type) (label : A -> string) (k : string)
  (xs : list A) : list A :=
  filter (fun x => String.eqb (label x) k) xs.

(** The [counts] object after
    [xs.forEach(x => counts[label(x)] = (counts[label(x)] || 0) + 1)]. *)
Definition tally (A : Type) (label : A -> string) (xs : list A)
  : object nat :=
  fold_left (fun counts x => increment (label x) counts) xs [].

(** The [groups] object after the grouping loop. *)
Definition grouping (key : Row -> string) (rows : list Row)
  : object (list Row) :=
  fold_left (fun groups row => push_group (key row) row groups) rows [].

(** The sizes of the groups, added up. *)
Definition members_total (groups : object (list Row)) : nat :=
  list_sum (map (fun g => List.length (snd g)) groups).

(** The label of a cell in a distribution: [String(value || 'Unknown')]. *)
Definition category (value : any) : string :=
  ToString (or_else value (VStr "Unknown")).

(** The key of a row in a grouped analysis:
    [String(row[groupByColumn] || 'Unknown')]. *)
Definition group_key (groupByColumn : string) (row : Row) : string :=
  category (prop groupByColumn row).

(** The average of a group: the mean of the cells that coerce, 0 when
    none does. *)
Definition group_average (column : string) (members : list Row) : number :=
  let values := coercible (map (prop column) members) in
  if (0 <? List.length values)%nat then mean values else zero.

End Tallies.

(* ================================================================== *)
(** * Further sample datasets *)
(* ================================================================== *)

Module MoreSamples.
Import JS Types ExcelProcessor Samples.
Local Open Scope string_scope.

(** A sheet with a text column and a column of yes and no. *)
Definition tasks : DataSet :=
  ingest "tasks.xlsx"
    [[VStr "task"; VStr "done"];
     [VStr "write"; VStr "yes"]; [VStr "review"; VStr "no"]].

End MoreSamples.

(* ================================================================== *)
(** * Properties of the host primitives *)
(* ================================================================== *)

Module JSFacts.
Import JS.
Local Open Scope string_scope.

Lemma startsWith_spec (s t : string) :
  startsWith s t = true <-> exists q, s = t ++ q.
Proof.
  revert s; induction t as [|b t IH]; intros s; simpl.
  - split; [intros _; now exists s | reflexivity].
  - destruct s as [|a s].
    + split; [discriminate | intros [q Hq]; discriminate].
    + rewrite andb_true_iff, Ascii.eqb_eq, IH. split.
      * intros [-> [q ->]]. now exists q.
      * intros [q Hq]. injection Hq as -> ->. split; [reflexivity | now exists q].
Qed.

(** [includes] finds exactly the occurrences of [t] as a contiguous
    part of [s]. *)
Lemma includes_spec (s t : string) :
  includes s t = true <-> exists p q, s = p ++ t ++ q.
Proof.
  induction s as [|a s IH].
  - simpl. rewrite orb_false_r, startsWith_spec. split.
    + intros [q Hq]. exists "", q. exact Hq.
    + intros [p [q Hq]]. destruct p; [now exists q | discriminate].
  - cbn [includes]. rewrite orb_true_iff, startsWith_spec, IH. split.
    + intros [[q Hq] | [p [q Hq]]].
      * exists "", q. exact Hq.
      * exists (String a p), q. simpl. now rewrite Hq.
    + intros [p [q Hq]]. destruct p as [|b p].
      * left. now exists q.
      * right. simpl in Hq. injection Hq as _ Hq. now exists p, q.
Qed.

Lemma includes_empty (s : string) : includes s "" = true.
Proof. destruct s; reflexivity. Qed.

Lemma find_first (A : Type) (p : A -> bool) (l : list A) (x : A) :
  find p l = Some x ->
  exists earlier later,
    l = (earlier ++ x :: later)%list /\ p x = true
    /\ forall y, In y earlier -> p y = false.
Proof.
  induction l as [|a l IH]; simpl; [discriminate|].
  destruct (p a) eqn:Ha.
  - intros [= <-]. exists [], l. repeat split; [assumption | intros y []].
  - intros H. destruct (IH H) as (e & t & -> & Hx & He).
    exists (a :: e), t. repeat split; [assumption |].
    intros y [<- | Hy]; [assumption | now apply He].
Qed.

End JSFacts.

(* ================================================================== *)
(** * Matches are never empty *)
(* ================================================================== *)

Module RegexFacts.
Import JS QueryProcessor Notions.
Local Open Scope nat_scope.

Section Matcher.
Variable R : Type.

Lemma star_loop_covers (step : matcher R) (n : nat) :
  covers n step ->
  forall fuel, covers 0 (fun s caps k => star_loop step k fuel s caps).
Proof.
  intros Hstep fuel. unfold covers.
  induction fuel as [|fuel IH]; intros s caps k x; simpl.
  - intros H. exists s, caps. split; [exact H | lia].
  - destruct (step s caps _) as [y|] eqn:Hs.
    + intros [= ->]. apply Hstep in Hs. destruct Hs as (s1 & c1 & Hk & Hlen).
      destruct (String.length s1 <? String.length s) eqn:Hlt; [|discriminate].
      apply IH in Hk. destruct Hk as (s2 & c2 & Hk & Hlen2).
      exists s2, c2. split; [exact Hk | lia].
    + intros H. exists s, caps. split; [exact H | lia].
Qed.

Lemma rmatch_covers (r : regex) : covers (min_length r) (@rmatch R r).
Proof.
  induction r as [|c|p|r1 IH1 r2 IH2|r1 IH1 r2 IH2|r1 IH1|i r1 IH1];
    intros s caps k x; simpl.
  - intros H. exists s, caps. split; [exact H | lia].
  - destruct s as [|a s']; [discriminate|].
    destruct (Ascii.eqb a c); [|discriminate].
    intros H. exists s', caps. split; [exact H | simpl; lia].
  - destruct s as [|a s']; [discriminate|].
    destruct (p a); [|discriminate].
    intros H. exists s', caps. split; [exact H | simpl; lia].
  - intros H. apply IH1 in H. destruct H as (s1 & c1 & H & Hlen1).
    apply IH2 in H. destruct H as (s2 & c2 & H & Hlen2).
    exists s2, c2. split; [exact H | lia].
  - destruct (rmatch r1 s caps k) as [y|] eqn:H1.
    + intros [= ->]. apply IH1 in H1. destruct H1 as (s1 & c1 & H & Hlen).
      exists s1, c1. split; [exact H | lia].
    + intros H. apply IH2 in H. destruct H as (s1 & c1 & H & Hlen).
      exists s1, c1. split; [exact H | lia].
  - intros H.
    exact (star_loop_covers IH1 (String.length s) s caps k H).
  - intros H. apply IH1 in H. destruct H as (s1 & c1 & H & Hlen).
    exists s1, ((i, consumed s s1) :: c1). split; [exact H | exact Hlen].
Qed.

Lemma star_loop_keeps (step : matcher R) (ids : list nat) :
  keeps ids step ->
  forall fuel, keeps ids (fun s caps k => star_loop step k fuel s caps).
Proof.
  intros Hstep fuel. unfold keeps.
  induction fuel as [|fuel IH]; intros s caps k x; simpl.
  - intros H. exists s, caps. split; [exact H | reflexivity].
  - destruct (step s caps _) as [y|] eqn:Hs.
    + intros [= ->]. apply Hstep in Hs. destruct Hs as (s1 & c1 & Hk & Hc).
      destruct (String.length s1 <? String.length s)%nat; [|discriminate].
      apply IH in Hk. destruct Hk as (s2 & c2 & Hk & Hc2).
      exists s2, c2. split; [exact Hk|].
      intros i Hi. now rewrite Hc2, Hc.
    + intros H. exists s, caps. split; [exact H | reflexivity].
Qed.

Lemma rmatch_keeps (r : regex) : keeps (group_ids r) (@rmatch R r).
Proof.
  induction r as [|c|p|r1 IH1 r2 IH2|r1 IH1 r2 IH2|r1 IH1|j r1 IH1];
    intros s caps k x; simpl.
  - intros H. exists s, caps. split; [exact H | reflexivity].
  - destruct s as [|a s']; [discriminate|].
    destruct (Ascii.eqb a c); [|discriminate].
    intros H. exists s', caps. split; [exact H | reflexivity].
  - destruct s as [|a s']; [discriminate|].
    destruct (p a); [|discriminate].
    intros H. exists s', caps. split; [exact H | reflexivity].
  - intros H. apply IH1 in H. destruct H as (s1 & c1 & H & Hc1).
    apply IH2 in H. destruct H as (s2 & c2 & H & Hc2).
    exists s2, c2. split; [exact H|].
    intros i Hi. rewrite Hc2, Hc1; [reflexivity | |];
      intros Hin; apply Hi, in_or_app; auto.
  - destruct (rmatch r1 s caps k) as [y|] eqn:H1.
    + intros [= ->]. apply IH1 in H1. destruct H1 as (s1 & c1 & H & Hc).
      exists s1, c1. split; [exact H|].
      intros i Hi. apply Hc. intros Hin; apply Hi, in_or_app; auto.
    + intros H. apply IH2 in H. destruct H as (s1 & c1 & H & Hc).
      exists s1, c1. split; [exact H|].
      intros i Hi. apply Hc. intros Hin; apply Hi, in_or_app; auto.
  - intros H. exact (star_loop_keeps IH1 (String.length s) s caps k H).
  - intros H. apply IH1 in H. destruct H as (s1 & c1 & H & Hc).
    exists s1, ((j, consumed s s1) :: c1). split; [exact H|].
    intros i Hi. cbn [group].
    destruct (Nat.eqb_spec j i) as [-> | Hne]; [destruct Hi; now left|].
    apply Hc. intros Hin. apply Hi. now right.
Qed.

End Matcher.

Lemma match_at_length (r : regex) (s : string) (caps : captures) (len : nat) :
  match_at r s = Some (caps, len) -> min_length r <= len.
Proof.
  unfold match_at. intros H. apply rmatch_covers in H.
  destruct H as (s1 & c1 & [= _ <-] & Hlen). lia.
Qed.

(** No match of the three patterns of [extractConditions] is empty:
    each covers three characters at least, so each call of [exec]
    moves [lastIndex] forward and the loop ends. *)
Lemma patterns_consume (pattern : regex) (s : string) (caps : captures)
  (len : nat) :
  In pattern patterns -> match_at pattern s = Some (caps, len) -> 3 <= len.
Proof.
  intros Hin H. apply match_at_length in H.
  destruct Hin as [<- | [<- | [<- | []]]]; simpl in H; lia.
Qed.

(** A group outside the pattern is [undefined] in every match. *)
Lemma match_at_groups (r : regex) (s : string) (caps : captures) (len : nat)
  (i : nat) :
  match_at r s = Some (caps, len) -> ~ In i (group_ids r) ->
  group i caps = None.
Proof.
  unfold match_at. intros H Hi. apply rmatch_keeps in H.
  destruct H as (s1 & c1 & [= <- _] & Hc). now rewrite (Hc i Hi).
Qed.

(** Every element of the loop's output is a match somewhere. *)
Lemma exec_all_In (r : regex) (s : string) (skip : nat) (caps : captures) :
  In caps (exec_all r s skip) ->
  exists s' len, match_at r s' = Some (caps, len).
Proof.
  revert skip; induction s as [|a s IH]; intros skip; simpl; [intros []|].
  destruct skip as [|skip]; [|apply IH].
  destruct (match_at r (String a s)) as [[c len]|] eqn:Hm; [|apply IH].
  intros [<- | Hin]; [now exists (String a s), len | exact (IH _ Hin)].
Qed.

End RegexFacts.

(* ================================================================== *)
(** * The intent classifier *)
(* ================================================================== *)

Module IntentFacts.
Import JS Types QueryProcessor IntentClassifier JSFacts.
Local Open Scope string_scope.

Lemma no_rule_selects_Summary (rule : list string * Intent) :
  In rule intent_rules -> snd rule <> Summary.
Proof.
  unfold intent_rules. simpl.
  intros H; repeat (destruct H as [<- | H]; [discriminate|]). destruct H.
Qed.

Lemma classify_Summary_iff (lowerQuery : string) :
  classify lowerQuery = Summary <->
  forall rule, In rule intent_rules -> rule_matches lowerQuery rule = false.
Proof.
  unfold classify. split.
  - destruct (find _ _) as [rule|] eqn:Hf.
    + intros Hs. apply find_some in Hf.
      destruct (no_rule_selects_Summary (proj1 Hf) Hs).
    + intros _ rule Hin. exact (find_none _ _ Hf rule Hin).
  - intros Hnone. destruct (find _ _) as [rule|] eqn:Hf; [|reflexivity].
    apply find_some in Hf. destruct Hf as [Hin Hm].
    rewrite (Hnone rule Hin) in Hm. discriminate.
Qed.

Lemma classify_first_match (lowerQuery : string) :
  (exists earlier words later,
      intent_rules = (earlier ++ (words, classify lowerQuery) :: later)%list
      /\ rule_matches lowerQuery (words, classify lowerQuery) = true
      /\ forall rule, In rule earlier -> rule_matches lowerQuery rule = false)
  \/ (classify lowerQuery = Summary
      /\ forall rule, In rule intent_rules ->
                      rule_matches lowerQuery rule = false).
Proof.
  unfold classify at 1 2 3.
  destruct (find (rule_matches lowerQuery) intent_rules) as [[words i]|] eqn:Hf.
  - left. destruct (find_first _ _ Hf) as (e & t & Hl & Hm & He).
    exists e, words, t. simpl. auto.
  - right. split; [reflexivity|]. intros rule Hin. exact (find_none _ _ Hf rule Hin).
Qed.

Lemma processQuery_dispatch (query : string) :
  processQuery query = handler (classify (toLowerCase query)) query.
Proof.
  unfold processQuery, classify, intent_rules, rule_matches.
  cbn [find existsb fst snd].
  rewrite ?orb_false_r, ?orb_assoc.
  repeat match goal with
         | |- context [if ?b then _ else _] => destruct b; [reflexivity|]
         end.
  reflexivity.
Qed.

(** C4. Every question is routed to exactly one intent, the one of the
    first rule, in the order Average, Count, Max, Min, Chart,
    Comparison, Filter, whose keyword occurs in the lower-cased text,
    and to Summary exactly when no rule matches; "show average sales"
    is an Average question although the Chart rule matches it too. *)
Theorem intent_by_first_matching_rule : forall query : string,
  let lowerQuery := toLowerCase query in
  processQuery query = handler (classify lowerQuery) query
  /\ ((exists earlier words later,
          intent_rules = (earlier ++ (words, classify lowerQuery) :: later)%list
          /\ rule_matches lowerQuery (words, classify lowerQuery) = true
          /\ forall rule, In rule earlier ->
                          rule_matches lowerQuery rule = false)
      \/ classify lowerQuery = Summary)
  /\ (classify lowerQuery = Summary <->
      forall rule, In rule intent_rules ->
                   rule_matches lowerQuery rule = false)
  /\ map snd intent_rules
     = [Average; Count; Max; Min; Chart; Comparison; Filter]
  /\ classify (toLowerCase "show average sales") = Average
  /\ rule_matches (toLowerCase "show average sales")
       (["chart"; "graph"; "plot"; "show"], Chart) = true
  /\ processQuery "show average sales" = handleAverageQuery "show average sales".
Proof.
  intros query lowerQuery. split; [apply processQuery_dispatch|].
  split.
  { destruct (classify_first_match lowerQuery) as [H | [H _]]; [left | right]; assumption. }
  split; [apply classify_Summary_iff|].
  repeat split; reflexivity.
Qed.

End IntentFacts.

(* ================================================================== *)
(** * Filtering *)
(* ================================================================== *)

Module FilterFacts.
Import JS Types QueryProcessor JSFacts.
Local Open Scope string_scope.

Lemma applyFilters_result (conditions : list Condition) (ds : DataSet) :
  result_of (applyFilters conditions) ds
  = filter (fun row => forallb (holds row) conditions) (rows ds).
Proof. reflexivity. Qed.

Lemma applyFilters_In (conditions : list Condition) (ds : DataSet) (row : Row) :
  In row (result_of (applyFilters conditions) ds) <->
  In row (rows ds) /\ forall c, In c conditions -> holds row c = true.
Proof.
  rewrite applyFilters_result, filter_In, forallb_forall. reflexivity.
Qed.

Lemma holds_equality (row : Row) (col : string) (v : any) :
  holds row {| column := col; operator := "="; value := v |} = true <->
  exists before after,
    toLowerCase (ToString (prop col row))
    = before ++ toLowerCase (ToString v) ++ after.
Proof. unfold holds. cbn. apply includes_spec. Qed.

(** C6. A row passes a condition list when it passes every condition;
    [>], [<], [>=] and [<=] compare the cell and the filter value after
    coercing both to numbers; [=] holds exactly when the lower-cased
    text of the filter value occurs inside the lower-cased text of the
    cell; the empty list lets every row through.  The rows that pass
    keep their order. *)
Theorem filters_are_conjunctions : forall (conditions : list Condition)
                                          (ds : DataSet),
  let matching := result_of (applyFilters conditions) ds in
  (forall row, In row matching <->
               In row (rows ds)
               /\ forall c, In c conditions -> holds row c = true)
  /\ matching = filter (fun row => forallb (holds row) conditions) (rows ds)
  /\ (forall row col v,
        holds row {| column := col; operator := ">"; value := v |}
        = gt (Number (prop col row)) (Number v))
  /\ (forall row col v,
        holds row {| column := col; operator := "<"; value := v |}
        = lt (Number (prop col row)) (Number v))
  /\ (forall row col v,
        holds row {| column := col; operator := ">="; value := v |}
        = ge (Number (prop col row)) (Number v))
  /\ (forall row col v,
        holds row {| column := col; operator := "<="; value := v |}
        = le (Number (prop col row)) (Number v))
  /\ (forall row col v,
        holds row {| column := col; operator := "="; value := v |} = true <->
        exists before after,
          toLowerCase (ToString (prop col row))
          = before ++ toLowerCase (ToString v) ++ after)
  /\ result_of (applyFilters []) ds = rows ds.
Proof.
  intros conditions ds matching.
  split; [intros row; apply applyFilters_In|].
  split; [reflexivity|].
  do 4 (split; [reflexivity|]).
  split; [intros row col v; apply holds_equality|].
  rewrite applyFilters_result. simpl.
  induction (rows ds) as [|r l IH]; simpl; [reflexivity | now rewrite IH].
Qed.

Lemma firstn_10_bounds (A : Type) (l : list A) :
  l <> [] ->
  (1 <= List.length (firstn 10 l) <= 10)%nat
  /\ List.length (firstn 10 l) = Nat.min 10 (List.length l).
Proof.
  intros Hl. rewrite length_firstn.
  destruct l as [|a l]; [contradiction|]. simpl List.length. lia.
Qed.

Lemma handleFilterQuery_result (query : string) (ds : DataSet) :
  result_of (handleFilterQuery query) ds
  = let matching :=
      result_of (applyFilters (result_of (extractConditions query) ds)) ds in
    if (List.length matching =? 0)%nat
    then text_result "No records match your filter criteria."
    else table_result
           ("Found " ++ digits_of_nat (List.length matching)
              ++ " matching records:")
           {| headers := map name (columns ds);
              table_rows :=
                map (table_row (map name (columns ds))) (firstn 10 matching);
              table_title := "Filtered Results" |}.
Proof.
  cbv beta iota zeta
      delta [handleFilterQuery result_of bind ret this_dataset applyFilters
             extractConditions fst].
  match goal with |- context [if ?b then _ else _] => destruct b end;
    reflexivity.
Qed.

Lemma Forall2_over_map (A B : Type) (R : A -> B -> Prop) (f : A -> B)
  (l : list A) :
  (forall a, In a l -> R a (f a)) -> Forall2 R l (map f l).
Proof.
  induction l as [|a l IH]; intros H; simpl; constructor.
  - apply H. now left.
  - apply IH. intros b Hb. apply H. now right.
Qed.

(** The cells of the table rows: [row[header] || ''] under every header
    that is not a name inherited from [Object.prototype]. *)
Lemma table_cells_by_header (hs : list string) (shown : list Row) :
  Forall2 (fun row cells =>
             Forall2 (fun header cell =>
                        inherited header = false ->
                        cell = or_else (prop header row) (VStr ""))
                     hs cells)
          shown (map (table_row hs) shown).
Proof.
  apply Forall2_over_map. intros row _. unfold table_row.
  apply Forall2_over_map. intros h _ _. reflexivity.
Qed.

(** C7. A Filter question with at least one matching row yields a
    Table: its headers are all the column names, its rows are the
    first ten matching rows at most, in their original order, each
    with one cell per header, [row[header] || ''] under every header
    that is not a name inherited from [Object.prototype]; its lead-in
    states how many rows matched in all; with no matching row the
    result is a Text, and no result carries a Table without rows. *)
Theorem filter_query_table_or_text : forall (query : string) (ds : DataSet),
  let conditions := result_of (extractConditions query) ds in
  let matching := filter (fun row => forallb (holds row) conditions) (rows ds) in
  let r := result_of (handleFilterQuery query) ds in
  match matching with
  | [] =>
      r = text_result "No records match your filter criteria."
  | _ :: _ =>
      result_type r = table
      /\ content r = "Found " ++ digits_of_nat (List.length matching)
                       ++ " matching records:"
      /\ exists t,
          result_table r = Some t
          /\ headers t = map name (columns ds)
          /\ Forall2 (fun row cells =>
                        Forall2 (fun header cell =>
                                   inherited header = false ->
                                   cell = or_else (prop header row) (VStr ""))
                                (headers t) cells)
                     (firstn 10 matching) (table_rows t)
          /\ (1 <= List.length (table_rows t) <= 10)%nat
          /\ List.length (table_rows t) = Nat.min 10 (List.length matching)
          /\ table_title t = "Filtered Results"
  end
  /\ (forall t, result_table r = Some t -> table_rows t <> []).
Proof.
  intros query ds conditions matching r.
  assert (Hmain :
    match matching with
    | [] => r = text_result "No records match your filter criteria."
    | _ :: _ =>
        result_type r = table
        /\ content r = "Found " ++ digits_of_nat (List.length matching)
                         ++ " matching records:"
        /\ exists t,
            result_table r = Some t
            /\ headers t = map name (columns ds)
            /\ Forall2 (fun row cells =>
                          Forall2 (fun header cell =>
                                   inherited header = false ->
                                   cell = or_else (prop header row) (VStr ""))
                                (headers t) cells)
                       (firstn 10 matching) (table_rows t)
            /\ (1 <= List.length (table_rows t) <= 10)%nat
            /\ List.length (table_rows t) = Nat.min 10 (List.length matching)
            /\ table_title t = "Filtered Results"
    end);
  [| split; [exact Hmain|];
     intros t Ht; destruct matching as [|row rest];
     [ rewrite Hmain in Ht; discriminate Ht
     | destruct Hmain as (_ & _ & t' & Ht' & _ & _ & _ & Hlen & _);
       rewrite Ht in Ht'; injection Ht' as <-;
       intros Hnil; rewrite Hnil in Hlen; simpl in Hlen; lia ] ].
  assert (Hr := handleFilterQuery_result query ds).
  rewrite applyFilters_result in Hr. fold conditions matching r in Hr.
  cbv zeta in Hr.
  destruct matching as [|row rest] eqn:Hm; [exact Hr|].
  rewrite Hr. cbn [List.length Nat.eqb].
  split; [reflexivity|]. split; [reflexivity|].
  eexists. split; [reflexivity|]. cbn [headers table_rows table_title].
  split; [reflexivity|]. split; [apply table_cells_by_header|].
  rewrite length_map.
  assert (Hne : row :: rest <> []) by discriminate.
  destruct (firstn_10_bounds Hne) as [Hb He].
  repeat split; try apply Hb; exact He.
Qed.

End FilterFacts.

(* ================================================================== *)
(** * The dataset is only read *)
(* ================================================================== *)

Module FrameFacts.
Import JS Types QueryProcessor Notions.

Lemma read_only_ret (A : Type) (a : A) : read_only (ret a).
Proof. intros ds. reflexivity. Qed.

Lemma read_only_this_dataset : read_only this_dataset.
Proof. intros ds. reflexivity. Qed.

Lemma read_only_bind (A B : Type) (m : Method A) (k : A -> Method B) :
  read_only m -> (forall a, read_only (k a)) -> read_only (bind m k).
Proof.
  intros Hm Hk ds. unfold dataset_after, bind.
  specialize (Hm ds). unfold dataset_after in Hm.
  destruct (m ds) as [a ds']. simpl in Hm. subst ds'. apply Hk.
Qed.

Create HintDb frame.

#[local] Hint Resolve read_only_ret read_only_this_dataset : frame.

Ltac frame_step :=
  match goal with
  | |- read_only (bind _ _) => apply read_only_bind; [|intros ?]
  | |- read_only (ret _) => apply read_only_ret
  | |- read_only this_dataset => apply read_only_this_dataset
  | |- read_only (let x := _ in _) => cbv zeta
  | |- read_only (match ?x with _ => _ end) => destruct x
  | |- read_only (if ?b then _ else _) => destruct b
  end.

Ltac frame := repeat frame_step; auto with frame.

Lemma read_only_extractConditions (query : string) :
  read_only (extractConditions query).
Proof. unfold extractConditions. frame. Qed.

Lemma read_only_applyFilters (conditions : list Condition) :
  read_only (applyFilters conditions).
Proof. unfold applyFilters. frame. Qed.

Lemma read_only_createDistributionChart (columnName : string) (t : ChartType) :
  read_only (createDistributionChart columnName t).
Proof. unfold createDistributionChart. frame. Qed.

Lemma read_only_createNumericChart (columnName : string) (t : ChartType) :
  read_only (createNumericChart columnName t).
Proof. unfold createNumericChart. frame. Qed.

Lemma read_only_createGroupedAnalysis (groupByColumn : string) :
  read_only (createGroupedAnalysis groupByColumn).
Proof. unfold createGroupedAnalysis. frame. Qed.

#[local] Hint Resolve read_only_extractConditions read_only_applyFilters
  read_only_createDistributionChart read_only_createNumericChart
  read_only_createGroupedAnalysis : frame.

Lemma read_only_handleAverageQuery (query : string) :
  read_only (handleAverageQuery query).
Proof. unfold handleAverageQuery. frame. Qed.

Lemma read_only_handleCountQuery (query : string) :
  read_only (handleCountQuery query).
Proof. unfold handleCountQuery. frame. Qed.

Lemma read_only_handleMaxQuery (query : string) :
  read_only (handleMaxQuery query).
Proof. unfold handleMaxQuery. frame. Qed.

Lemma read_only_handleMinQuery (query : string) :
  read_only (handleMinQuery query).
Proof. unfold handleMinQuery. frame. Qed.

Lemma read_only_handleChartQuery (query : string) :
  read_only (handleChartQuery query).
Proof. unfold handleChartQuery. frame. Qed.

Lemma read_only_handleComparisonQuery (query : string) :
  read_only (handleComparisonQuery query).
Proof. unfold handleComparisonQuery. frame. Qed.

Lemma read_only_handleFilterQuery (query : string) :
  read_only (handleFilterQuery query).
Proof. unfold handleFilterQuery. frame. Qed.

Lemma read_only_handleSummaryQuery : read_only handleSummaryQuery.
Proof. unfold handleSummaryQuery. frame. Qed.

#[local] Hint Resolve read_only_handleAverageQuery read_only_handleCountQuery
  read_only_handleMaxQuery read_only_handleMinQuery
  read_only_handleChartQuery read_only_handleComparisonQuery
  read_only_handleFilterQuery read_only_handleSummaryQuery : frame.

(** C9. Answering a question leaves the dataset as it was: whatever the
    question and whichever handler runs, the columns (names, types,
    values), the rows and the file name held by the processor after
    the call are those held before it; the same holds for condition
    extraction and for filtering. *)
Theorem processQuery_leaves_dataset_unchanged :
  forall (query : string) (ds : DataSet),
    dataset_after (processQuery query) ds = ds
    /\ columns (dataset_after (processQuery query) ds) = columns ds
    /\ rows (dataset_after (processQuery query) ds) = rows ds
    /\ fileName (dataset_after (processQuery query) ds) = fileName ds
    /\ (forall conditions, dataset_after (applyFilters conditions) ds = ds)
    /\ dataset_after (extractConditions query) ds = ds.
Proof.
  intros query ds.
  assert (H : read_only (processQuery query)).
  { unfold processQuery. frame. }
  rewrite (H ds). do 4 (split; [reflexivity|]). split.
  - intros conditions. apply read_only_applyFilters.
  - apply read_only_extractConditions.
Qed.

End FrameFacts.

(* ================================================================== *)
(** * Objects as property tables *)
(* ================================================================== *)

Module ObjectFacts.
Import JS.
Local Open Scope string_scope.

Section Table.
Variable V : Type.
Implicit Types (o : object V) (k : string) (v : V).

Lemma get_In_keys o k : get k o <> None <-> In k (keys o).
Proof.
  induction o as [|[k1 v1] o IH]; simpl.
  - split; [intros H; now destruct H | intros []].
  - destruct (String.eqb_spec k1 k) as [-> | Hne].
    + split; [intros _; now left | discriminate].
    + rewrite IH. split; [now right | intros [H | H]; [contradiction | exact H]].
Qed.

Lemma get_replace o k v k' :
  get k o <> None ->
  get k' (replace k v o) = if String.eqb k k' then Some v else get k' o.
Proof.
  induction o as [|[k1 v1] o IH]; simpl; [intros H; now destruct H|].
  destruct (String.eqb_spec k1 k) as [-> | Hne]; simpl.
  - intros _. destruct (String.eqb k k'); reflexivity.
  - intros H. rewrite (IH H).
    destruct (String.eqb_spec k1 k') as [-> | Hne'].
    + destruct (String.eqb_spec k k') as [-> | _]; [contradiction | reflexivity].
    + reflexivity.
Qed.

Lemma get_insert_index o i k v k' :
  get k o = None ->
  get k' (insert_index i k v o) = if String.eqb k k' then Some v else get k' o.
Proof.
  induction o as [|[k1 v1] o IH]; simpl; [reflexivity|].
  destruct (String.eqb_spec k1 k) as [-> | Hne]; [discriminate|].
  intros H. destruct (array_index k1) as [j|]; [destruct (Z.ltb j i)|]; simpl;
    try reflexivity.
  rewrite (IH H).
  destruct (String.eqb_spec k1 k') as [-> | Hne'].
  - destruct (String.eqb_spec k k') as [-> | _]; [contradiction | reflexivity].
  - reflexivity.
Qed.

Lemma get_append o k v k' :
  get k o = None ->
  get k' (o ++ [(k, v)])%list = if String.eqb k k' then Some v else get k' o.
Proof.
  induction o as [|[k1 v1] o IH]; simpl; [reflexivity|].
  destruct (String.eqb_spec k1 k) as [-> | Hne]; [discriminate|].
  intros H. rewrite (IH H).
  destruct (String.eqb_spec k1 k') as [-> | Hne'].
  - destruct (String.eqb_spec k k') as [-> | _]; [contradiction | reflexivity].
  - reflexivity.
Qed.

(** Reading a property after a write. *)
Lemma get_set o k v k' :
  get k' (set k v o) = if String.eqb k k' then Some v else get k' o.
Proof.
  unfold set, has. destruct (get k o) as [v0|] eqn:Hg.
  - apply get_replace. rewrite Hg. discriminate.
  - destruct (array_index k); [apply get_insert_index | apply get_append];
      exact Hg.
Qed.

Lemma keys_set o k v k' :
  In k' (keys (set k v o)) <-> k' = k \/ In k' (keys o).
Proof.
  rewrite <- !get_In_keys, get_set.
  destruct (String.eqb_spec k k') as [-> | Hne].
  - split; [now left | discriminate].
  - split; [now right | intros [H | H]; [now symmetry in H | exact H]].
Qed.

Lemma keys_replace o k v : keys (replace k v o) = keys o.
Proof.
  induction o as [|[k1 v1] o IH]; simpl; [reflexivity|].
  destruct (String.eqb k1 k); simpl; [reflexivity | now rewrite IH].
Qed.

Lemma In_keys_insert_index o i k v k' :
  In k' (keys (insert_index i k v o)) <-> k' = k \/ In k' (keys o).
Proof.
  induction o as [|[k1 v1] o IH]; simpl.
  - intuition.
  - destruct (array_index k1) as [j|]; [destruct (Z.ltb j i)|]; simpl;
      rewrite ?IH; intuition.
Qed.

Lemma NoDup_keys_insert_index o i k v :
  ~ In k (keys o) -> NoDup (keys o) -> NoDup (keys (insert_index i k v o)).
Proof.
  induction o as [|[k1 v1] o IH]; simpl; intros Hk Hn.
  - constructor; [intros [] | constructor].
  - inversion Hn as [|? ? Hk1 Hn']; subst.
    destruct (array_index k1) as [j|]; [destruct (Z.ltb j i)|]; simpl.
    + constructor.
      * rewrite In_keys_insert_index. intros [-> | H]; [apply Hk; now left | contradiction].
      * apply IH; [intros H; apply Hk; now right | assumption].
    + constructor; assumption.
    + constructor; assumption.
Qed.

Lemma NoDup_keys_set o k v : NoDup (keys o) -> NoDup (keys (set k v o)).
Proof.
  intros Hn. unfold set, has. destruct (get k o) as [v0|] eqn:Hg.
  - now rewrite keys_replace.
  - assert (Hk : ~ In k (keys o)).
    { rewrite <- get_In_keys, Hg. intros H; now apply H. }
    destruct (array_index k).
    + now apply NoDup_keys_insert_index.
    + unfold keys. rewrite map_app. simpl.
      apply NoDup_app; [exact Hn | constructor; [intros [] | constructor] |].
      intros x Hx [<- | []]. contradiction.
Qed.

End Table.

End ObjectFacts.

(* ================================================================== *)
(** * Ingestion *)
(* ================================================================== *)

Module IngestionFacts.
Import JS Types ExcelProcessor QueryProcessor Notions ObjectFacts.
Local Open Scope string_scope.

Lemma nth_error_combine_seq (A : Type) (l : list A) (start i : nat) (x : A) :
  nth_error l i = Some x ->
  nth_error (combine (seq start (List.length l)) l) i = Some (start + i, x)%nat.
Proof.
  revert start i; induction l as [|a l IH]; intros start [|i]; simpl;
    try discriminate.
  - intros [= ->]. now rewrite Nat.add_0_r.
  - intros H. rewrite (IH (S start) i H). f_equal. f_equal. lia.
Qed.

Lemma nth_error_indexed (A : Type) (l : list A) (i : nat) (x : A) :
  nth_error l i = Some x -> nth_error (indexed l) i = Some (i, x).
Proof. intros H. unfold indexed. now rewrite (@nth_error_combine_seq _ _ 0 _ _ H). Qed.

Lemma In_indexed (A : Type) (l : list A) (i : nat) (x : A) :
  In (i, x) (indexed l) -> In x l.
Proof. unfold indexed. apply in_combine_r. Qed.

Lemma map_snd_indexed (A : Type) (l : list A) : map snd (indexed l) = l.
Proof.
  unfold indexed. generalize 0%nat.
  induction l as [|a l IH]; intros start; simpl; [reflexivity | now rewrite IH].
Qed.

Lemma last_position_combine_seq (header : string) (l : list string)
  (start i : nat) :
  nth_error l i = Some header ->
  (forall j, (i < j)%nat -> nth_error l j <> Some header) ->
  last_position header (combine (seq start (List.length l)) l)
  = Some (start + i)%nat.
Proof.
  revert start i; induction l as [|a l IH]; intros start [|i]; simpl;
    try discriminate.
  - intros [= ->] Hlast.
    assert (Hnone : last_position header (combine (seq (S start) (List.length l)) l) = None).
    { clear IH. assert (H : forall j, nth_error l j <> Some header).
      { intros j. apply (Hlast (S j)). lia. }
      clear Hlast. revert start. induction l as [|b l IHl]; intros start; simpl;
        [reflexivity|].
      rewrite IHl by (intros j; apply (H (S j))).
      destruct (String.eqb_spec b header) as [-> | _]; [|reflexivity].
      destruct (H 0%nat). reflexivity. }
    rewrite Hnone, String.eqb_refl. now rewrite Nat.add_0_r.
  - intros Hi Hlast. rewrite (IH (S start) i Hi).
    + f_equal. lia.
    + intros j Hj. apply (Hlast (S j)). lia.
Qed.

Lemma get_fold_set (row : list any) (header : string)
  (l : list (nat * string)) (o : Row) :
  get header
    (fold_left (fun rowObj '(index, h) =>
                  set h (or_else (array_get row index) VNull) rowObj) l o)
  = match last_position header l with
    | Some index => Some (or_else (array_get row index) VNull)
    | None => get header o
    end.
Proof.
  revert o; induction l as [|[index h] l IH]; intros o; simpl; [reflexivity|].
  rewrite IH. destruct (last_position header l); [reflexivity|].
  rewrite get_set. destruct (String.eqb h header); reflexivity.
Qed.

(** What a row-record holds under a header: the cell of the last column
    with that header, or [null] when that cell is falsy. *)
Lemma get_rowObject (headers : list string) (row : list any)
  (index : nat) (header : string) :
  nth_error headers index = Some header ->
  (forall j, (index < j)%nat -> nth_error headers j <> Some header) ->
  get header (rowObject headers row)
  = Some (or_else (array_get row index) VNull).
Proof.
  intros Hi Hlast. unfold rowObject, indexed.
  rewrite get_fold_set, (@last_position_combine_seq _ _ 0 _ Hi Hlast).
  reflexivity.
Qed.

Lemma keys_fold_set (row : list any) (l : list (nat * string)) (o : Row)
  (k : string) :
  In k (keys (fold_left (fun rowObj '(index, h) =>
                           set h (or_else (array_get row index) VNull) rowObj)
                        l o))
  <-> In k (map snd l) \/ In k (keys o).
Proof.
  revert o; induction l as [|[index h] l IH]; intros o; simpl.
  - intuition.
  - rewrite IH, keys_set. intuition.
Qed.

Lemma NoDup_keys_fold_set (row : list any) (l : list (nat * string)) (o : Row) :
  NoDup (keys o) ->
  NoDup (keys (fold_left (fun rowObj '(index, h) =>
                            set h (or_else (array_get row index) VNull) rowObj)
                         l o)).
Proof.
  revert o; induction l as [|[index h] l IH]; intros o Hn; simpl;
    [exact Hn | apply IH, NoDup_keys_set, Hn].
Qed.

Lemma keys_rowObject (headers : list string) (row : list any) (k : string) :
  In k (keys (rowObject headers row)) <-> In k headers.
Proof.
  unfold rowObject. rewrite keys_fold_set, map_snd_indexed. simpl. intuition.
Qed.

Lemma NoDup_keys_rowObject (headers : list string) (row : list any) :
  NoDup (keys (rowObject headers row)).
Proof. apply NoDup_keys_fold_set. constructor. Qed.

Section Host.
Variable Date_parse : any -> number.

Lemma names_inferColumnTypes (headers : list string) (rows : list (list any)) :
  map name (inferColumnTypes Date_parse headers rows) = headers.
Proof.
  unfold inferColumnTypes. rewrite map_map.
  rewrite <- (map_snd_indexed headers) at 2.
  apply map_ext. intros [i h]. reflexivity.
Qed.

Lemma nth_error_inferColumnTypes (headers : list string)
  (rows : list (list any)) (i : nat) (col : DataColumn) :
  nth_error (inferColumnTypes Date_parse headers rows) i = Some col ->
  values col = columnValues rows i
  /\ type col = inferType Date_parse (columnValues rows i)
  /\ nth_error headers i = Some (name col).
Proof.
  unfold inferColumnTypes. rewrite nth_error_map.
  destruct (nth_error (indexed headers) i) as [[j h]|] eqn:Hn; simpl;
    [|discriminate].
  intros [= <-]. simpl.
  assert (Hh : nth_error headers i = Some h).
  { rewrite <- (map_snd_indexed headers), nth_error_map, Hn. reflexivity. }
  rewrite (nth_error_indexed _ _ Hh) in Hn. injection Hn as ->.
  repeat split. exact Hh.
Qed.

Lemma length_filter_le (A : Type) (p : A -> bool) (l : list A) :
  (List.length (filter p l) <= List.length l)%nat.
Proof. induction l as [|a l IH]; simpl; [lia | destruct (p a); simpl; lia]. Qed.

Lemma length_filter_all (A : Type) (p : A -> bool) (l : list A) :
  List.length (filter p l) = List.length l <-> forall x, In x l -> p x = true.
Proof.
  induction l as [|a l IH]; simpl.
  - split; [intros _ x [] | reflexivity].
  - destruct (p a) eqn:Ha; simpl.
    + split.
      * intros H x [<- | Hx]; [exact Ha | apply IH; [lia | exact Hx]].
      * intros H. f_equal. apply IH. intros x Hx. apply H. now right.
    + pose proof (length_filter_le p l) as Hle. split; [lia|].
      intros H. rewrite (H a) in Ha by now left. discriminate.
Qed.

Lemma processFile_resolves (fileName : string) (headerCells : list any)
  (dataRows : list (list any)) :
  processFile Date_parse fileName (headerCells :: dataRows)
  = Resolved
      {| columns := inferColumnTypes Date_parse (as_strings headerCells) dataRows;
         rows := map (rowObject (as_strings headerCells)) dataRows;
         fileName := fileName |}.
Proof. reflexivity. Qed.

End Host.

(** C1 as stated fails: a data row with a missing cell is a row of the
    dataset, but the column of that cell holds no value for it.  Here
    the second data row has no "age" cell: two rows, one age. *)
Lemma values_can_be_fewer_than_rows :
  ~ (forall (Date_parse : any -> number) (fileName : string)
            (jsonData : list (list any)) (ds : DataSet),
        processFile Date_parse fileName jsonData = Resolved ds ->
        forall col, In col (columns ds) ->
                    List.length (rows ds) = List.length (values col)).
Proof.
  intros H.
  pose (sheet := [[VStr "name"; VStr "age"];
                  [VStr "ann"; VNum (of_Z 31)];
                  [VStr "bob"]]).
  specialize (H (fun _ => NaN) "people.xlsx" sheet _ eq_refl
                {| name := "age"; type := TNumber;
                   values := [VNum (of_Z 31)] |}).
  simpl in H. specialize (H (or_intror (or_introl eq_refl))). discriminate.
Qed.

(** The header cells of a sheet whose headers are all text are the
    headers themselves. *)
Lemma as_strings_text (headers : list string) :
  as_strings (map VStr headers) = headers.
Proof.
  unfold as_strings. induction headers as [|h l IH];
    simpl; [reflexivity | now rewrite IH].
Qed.

(** C1, amended. In every dataset that ingestion produces from a sheet
    whose header cells are text, none of them [__proto__], the columns
    are named by the headers in order; a column holds at most as many
    values as there are rows, and exactly as many when no cell of that
    column is null or missing (the values keep only the non-null
    cells); every row-record has exactly the column names as its keys,
    each once. *)
Theorem ingested_dataset_shape :
  forall (Date_parse : any -> number) (fileName : string)
         (headers : list string) (dataRows : list (list any)) (ds : DataSet),
    processFile Date_parse fileName (map VStr headers :: dataRows)
    = Resolved ds ->
    ~ In "__proto__" headers ->
    map name (columns ds) = headers
    /\ (forall i col,
          nth_error (columns ds) i = Some col ->
          (List.length (values col) <= List.length (rows ds))%nat
          /\ (List.length (values col) = List.length (rows ds) <->
              forall row, In row dataRows ->
                          not_nullish (array_get row i) = true))
    /\ (forall rowObj,
          In rowObj (rows ds) ->
          NoDup (keys rowObj)
          /\ forall k, In k (keys rowObj) <-> In k (map name (columns ds))).
Proof.
  intros Date_parse fileName headers dataRows ds.
  rewrite processFile_resolves, as_strings_text. intros [= <-] _.
  cbn [columns rows]. split; [apply names_inferColumnTypes|]. split.
  - intros i col Hcol.
    destruct (nth_error_inferColumnTypes _ _ _ _ Hcol) as (-> & _ & _).
    unfold columnValues. rewrite length_map.
    rewrite <- (length_map (fun row => array_get row i) dataRows). split.
    + apply length_filter_le.
    + rewrite length_filter_all. split.
      * intros H row Hrow.
        apply H, (in_map (fun row => array_get row i)), Hrow.
      * intros H x Hx. apply in_map_iff in Hx. destruct Hx as (row & <- & Hrow).
        now apply H.
  - intros rowObj Hin. apply in_map_iff in Hin. destruct Hin as (row & <- & _).
    split; [apply NoDup_keys_rowObject|].
    intros k. rewrite keys_rowObject, names_inferColumnTypes. reflexivity.
Qed.

(** The amended C1 on a sheet with a missing cell. *)
Lemma ingested_dataset_shape_witness :
  let headers := ["name"; "age"] in
  let dataRows := [[VStr "ann"; VNum (of_Z 31)]; [VStr "bob"]] in
  exists ds,
    processFile (fun _ => NaN) "people.xlsx" (map VStr headers :: dataRows)
    = Resolved ds
    /\ map name (columns ds) = headers
    /\ (forall i col,
          nth_error (columns ds) i = Some col ->
          (List.length (values col) <= List.length (rows ds))%nat
          /\ (List.length (values col) = List.length (rows ds) <->
              forall row, In row dataRows ->
                          not_nullish (array_get row i) = true))
    /\ (forall rowObj,
          In rowObj (rows ds) ->
          NoDup (keys rowObj)
          /\ forall k, In k (keys rowObj) <-> In k (map name (columns ds))).
Proof.
  intros headers dataRows. eexists. split; [reflexivity|].
  apply (@ingested_dataset_shape (fun _ => NaN) "people.xlsx"
           headers dataRows).
  - reflexivity.
  - intros [H|[H|[]]]; discriminate H.
Defined.

Lemma or_null_array_get_map (row : list any) (index : nat) :
  or_null (array_get (map or_null row) index) = or_null (array_get row index).
Proof.
  unfold array_get. revert index.
  induction row as [|cell row IH]; intros [|index]; simpl;
    try reflexivity; [|apply IH].
  unfold or_null, or_else. destruct (truthy cell) eqn:Ht; [now rewrite Ht|].
  reflexivity.
Qed.

(** A row-record cannot tell a falsy cell from a missing one. *)
Lemma rowObject_or_null (headers : list string) (row : list any) :
  rowObject headers (map or_null row) = rowObject headers row.
Proof.
  unfold rowObject. generalize (indexed headers) as l.
  generalize (@nil (string * any)) as o. intros o l. revert o.
  induction l as [|[index h] l IH]; intros o; simpl; [reflexivity|].
  fold (or_null (array_get (map or_null row) index)).
  fold (or_null (array_get row index)).
  rewrite or_null_array_get_map. apply IH.
Qed.

(** How a condition reads a property that holds [null]: as the number 0
    under the four comparisons, as the text "null" under [=]. *)
Lemma holds_on_null (record : Row) (header : string) (v : any) :
  prop header record = VNull ->
  holds record {| column := header; operator := ">"; value := v |}
  = gt zero (Number v)
  /\ holds record {| column := header; operator := "<"; value := v |}
     = lt zero (Number v)
  /\ holds record {| column := header; operator := ">="; value := v |}
     = ge zero (Number v)
  /\ holds record {| column := header; operator := "<="; value := v |}
     = le zero (Number v)
  /\ holds record {| column := header; operator := "="; value := v |}
     = includes "null" (toLowerCase (ToString v)).
Proof.
  intros Hp. unfold holds. cbn [column operator value]. rewrite Hp.
  repeat split; reflexivity.
Qed.

(** C10 as stated fails twice.  On a sheet whose header [qty] is
    repeated, the row-record holds the cell of the last [qty] column,
    5, although the cell of the first one is the falsy 0.  And the
    [null] that stands for a 0 is not invisible to queries: read as a
    number it is 0, so the row passes [qty < 1] and is counted. *)
Lemma falsy_cells_are_not_always_null :
  (exists ds rowObj col,
      processFile (fun _ => NaN) "stock.xlsx"
        [[VStr "qty"; VStr "qty"]; [VNum zero; VNum (of_Z 5)]]
      = Resolved ds
      /\ nth_error (columns ds) 0 = Some col
      /\ name col = "qty"
      /\ values col = [VNum zero]
      /\ nth_error (rows ds) 0 = Some rowObj
      /\ get "qty" rowObj = Some (VNum (of_Z 5)))
  /\ (exists ds rowObj,
        processFile (fun _ => NaN) "stock.xlsx"
          [[VStr "qty"]; [VNum zero]; [VNum (of_Z 3)]; [VNum (of_Z 4)]]
        = Resolved ds
        /\ nth_error (rows ds) 0 = Some rowObj
        /\ get "qty" rowObj = Some VNull
        /\ result_of (applyFilters
                        [{| column := "qty"; operator := "<";
                            value := VNum (of_Z 1) |}]) ds
           = [rowObj]
        /\ result_of (processQuery "count the rows where qty < 1") ds
           = text_result
               "Found 1 rows matching your criteria out of 3 total rows.").
Proof.
  split.
  - eexists. eexists. eexists. split; [reflexivity|].
    split; [reflexivity|]. split; [reflexivity|]. split; [reflexivity|].
    split; reflexivity.
  - eexists. eexists. split; [reflexivity|]. split; [reflexivity|].
    split; [reflexivity|]. split; vm_compute; reflexivity.
Qed.

(** C10, amended. For a sheet whose header cells are text, and a
    column whose header is not repeated further right and is not
    [__proto__], the row-record of a data row holds [null] under the
    column name whenever the cell is falsy, not only when it is
    missing: a cell holding 0, the empty string or [false] reads as
    [null] in the row-record, although the cell itself is kept in the
    values of its column.  Queries see this [null]: the conditions
    [>], [<], [>=] and [<=] compare 0 with the filter value, and [=]
    looks for the filter text inside "null".  The row-records are
    those of the sheet with every falsy cell replaced by [null]. *)
Theorem falsy_cells_are_null_in_row_records :
  forall (Date_parse : any -> number) (fileName : string)
         (headers : list string) (dataRows : list (list any))
         (r : nat) (row : list any) (index : nat) (header : string),
    nth_error dataRows r = Some row ->
    nth_error headers index = Some header ->
    (forall j, (index < j)%nat -> nth_error headers j <> Some header) ->
    header <> "__proto__" ->
    let cell := array_get row index in
    exists ds rowObj col,
      processFile Date_parse fileName (map VStr headers :: dataRows)
      = Resolved ds
      /\ nth_error (rows ds) r = Some rowObj
      /\ nth_error (columns ds) index = Some col
      /\ name col = header
      /\ get header rowObj = Some (if truthy cell then cell else VNull)
      /\ (not_nullish cell = true -> In cell (values col))
      /\ (forall s, cell = VNum (S754_zero s) ->
                    get header rowObj = Some VNull /\ In cell (values col))
      /\ (cell = VStr "" ->
          get header rowObj = Some VNull /\ In cell (values col))
      /\ (cell = VBool false ->
          get header rowObj = Some VNull /\ In cell (values col))
      /\ (truthy cell = false ->
          forall v,
            holds rowObj {| column := header; operator := ">"; value := v |}
            = gt zero (Number v)
            /\ holds rowObj {| column := header; operator := "<"; value := v |}
               = lt zero (Number v)
            /\ holds rowObj {| column := header; operator := ">="; value := v |}
               = ge zero (Number v)
            /\ holds rowObj {| column := header; operator := "<="; value := v |}
               = le zero (Number v)
            /\ holds rowObj {| column := header; operator := "="; value := v |}
               = includes "null" (toLowerCase (ToString v)))
      /\ rows ds = map (rowObject headers) (map (map or_null) dataRows).
Proof.
  intros Date_parse fileName headers dataRows r row index header
         Hrow Hheader Hlast _ cell.
  assert (Hidx := nth_error_indexed _ _ Hheader).
  exists {| columns := inferColumnTypes Date_parse headers dataRows;
            rows := map (rowObject headers) dataRows;
            fileName := fileName |},
         (rowObject headers row),
         {| name := header;
            type := inferType Date_parse (columnValues dataRows index);
            values := columnValues dataRows index |}.
  cbn [columns rows name values].
  assert (Hget : get header (rowObject headers row)
                 = Some (if truthy cell then cell else VNull))
    by (apply get_rowObject; assumption).
  assert (Hin : not_nullish cell = true -> In cell (columnValues dataRows index)).
  { intros Hnn. unfold columnValues. apply filter_In. split; [|exact Hnn].
    apply (in_map (fun row => array_get row index)).
    eapply nth_error_In; eassumption. }
  split; [rewrite processFile_resolves, as_strings_text; reflexivity|].
  split; [now rewrite nth_error_map, Hrow|].
  split.
  { unfold inferColumnTypes. now rewrite nth_error_map, Hidx. }
  split; [reflexivity|].
  split; [exact Hget|].
  split; [exact Hin|].
  split; [|split; [|split; [|split]]].
  - intros s Hc. rewrite Hc in *. split; [exact Hget | now apply Hin].
  - intros Hc. rewrite Hc in *. split; [exact Hget | now apply Hin].
  - intros Hc. rewrite Hc in *. split; [exact Hget | now apply Hin].
  - intros Hf v. apply holds_on_null. unfold prop. rewrite Hget, Hf.
    reflexivity.
  - rewrite map_map. apply map_ext. intros row0.
    symmetry. apply rowObject_or_null.
Qed.

(** The amended C10 on a sheet whose quantity column holds a 0: the
    column is typed number and keeps the 0, the row-record holds
    [null], and the row passes [qty < 1]. *)
Lemma falsy_cells_are_null_witness :
  let sheet_rows := [[VNum zero]; [VNum (of_Z 3)]; [VNum (of_Z 4)]] in
  exists ds rowObj col,
    processFile (fun _ => NaN) "stock.xlsx" ([VStr "qty"] :: sheet_rows)
    = Resolved ds
    /\ nth_error (rows ds) 0 = Some rowObj
    /\ nth_error (columns ds) 0 = Some col
    /\ type col = TNumber
    /\ get "qty" rowObj = Some VNull
    /\ In (VNum zero) (values col)
    /\ holds rowObj {| column := "qty"; operator := "<";
                       value := VNum (of_Z 1) |} = true.
Proof.
  intros sheet_rows.
  destruct (@falsy_cells_are_null_in_row_records
              (fun _ => NaN) "stock.xlsx" ["qty"] sheet_rows
              0%nat [VNum zero] 0%nat "qty" eq_refl eq_refl)
    as (ds & rowObj & col & Hds & Hrow & Hcol & _ & _ & _ & Hzero & _ & _
        & Hcmp & _).
  { intros [|[|j]] Hj; [inversion Hj | discriminate | discriminate]. }
  { discriminate. }
  exists ds, rowObj, col.
  destruct (Hzero false eq_refl) as [Hnull Hin].
  destruct (Hcmp eq_refl (VNum (of_Z 1))) as (_ & Hlt & _).
  injection Hds as <-.
  split; [reflexivity|]. split; [exact Hrow|]. split; [exact Hcol|].
  split; [injection Hcol as <-; reflexivity|].
  split; [exact Hnull|]. split; [exact Hin|].
  rewrite Hlt. reflexivity.
Defined.

End IngestionFacts.

(* ================================================================== *)
(** * Type inference *)
(* ================================================================== *)

Module TypeInferenceFacts.
Import JS Types ExcelProcessor Notions.
Local Open Scope string_scope.

Lemma above_80_percent_iff (p : any -> bool) (values : list any) :
  above_80_percent (List.length (filter p values)) (List.length values) = true
  <-> more_than_80_percent p values.
Proof. unfold above_80_percent, more_than_80_percent. apply Nat.ltb_lt. Qed.

(** [<] on doubles is transitive. *)
Lemma SFltb_trans (a b c : number) :
  SFltb a b = true -> SFltb b c = true -> SFltb a c = true.
Proof.
  unfold SFltb.
  destruct a as [[]|[]| |[] ma ea], b as [[]|[]| |[] mb eb],
           c as [[]|[]| |[] mc ec];
    simpl; try discriminate; try reflexivity; intros H1 H2;
    change (Pos.compare_cont Eq) with Pos.compare in *;
    destruct (Z.compare_spec ea eb), (Z.compare_spec eb ec),
             (Z.compare_spec ea ec);
    subst; try discriminate; try reflexivity; try lia;
    destruct (Pos.compare_spec ma mb), (Pos.compare_spec mb mc),
             (Pos.compare_spec ma mc);
    subst; simpl in *; try discriminate; try reflexivity; lia.
Qed.

Local Open Scope Z_scope.

(** The lengths on which the double comparison is checked. *)
Definition checked_lengths : Z := 4096.

(** The integers [start, start + 1, ...], [count] of them. *)
Fixpoint zrange (count : nat) (start : Z) : list Z :=
  match count with
  | O => []
  | S count' => start :: zrange count' (start + 1)
  end.

Lemma In_zrange (count : nat) (start z : Z) :
  In z (zrange count start) <-> start <= z < start + Z.of_nat count.
Proof.
  revert start; induction count as [|count IH]; intros start.
  - simpl. lia.
  - cbn [zrange In]. rewrite IH. lia.
Qed.

(** Consecutive integers are consecutive doubles, in order. *)
Lemma successor_table :
  forallb (fun i => lt (of_Z i) (of_Z (i + 1)))
          (zrange (Z.to_nat checked_lengths) 0)
  = true.
Proof. vm_compute. reflexivity. Qed.

(** Around [4 * whole / 5] the double comparison switches from false to
    true. *)
Lemma boundary_table :
  forallb (fun whole =>
             let below := 4 * whole / 5 in
             negb (exceeds_point_eight below whole)
             && exceeds_point_eight (below + 1) whole)
          (zrange (S (Z.to_nat checked_lengths)) 0)
  = true.
Proof. vm_compute. reflexivity. Qed.

Lemma of_Z_increasing (i : Z) (n : nat) :
  0 <= i -> i + Z.of_nat (S n) <= checked_lengths ->
  lt (of_Z i) (of_Z (i + Z.of_nat (S n))) = true.
Proof.
  intros Hi. pose proof successor_table as Ht. rewrite forallb_forall in Ht.
  induction n as [|n IH]; intros Hj.
  - replace (i + Z.of_nat 1) with (i + 1) by lia.
    apply Ht, In_zrange. unfold checked_lengths in *. lia.
  - apply SFltb_trans with (b := of_Z (i + Z.of_nat (S n))); [apply IH; lia|].
    replace (i + Z.of_nat (S (S n))) with (i + Z.of_nat (S n) + 1) by lia.
    apply Ht, In_zrange. unfold checked_lengths in *. lia.
Qed.

Lemma of_Z_lt (i j : Z) :
  0 <= i < j -> j <= checked_lengths -> lt (of_Z i) (of_Z j) = true.
Proof.
  intros Hij Hj.
  replace j with (i + Z.of_nat (S (Z.to_nat (j - i - 1)))) by lia.
  apply of_Z_increasing; lia.
Qed.

(** The integer comparison is the comparison of doubles that the source
    writes, [part > whole * 0.8], on every pair of lengths up to 4096. *)
Lemma threshold_agrees_with_doubles (part whole : nat) :
  (part <= whole)%nat -> Z.of_nat whole <= checked_lengths ->
  above_80_percent part whole = above_80_percent_double part whole.
Proof.
  intros Hp Hw. pose proof boundary_table as Ht.
  rewrite forallb_forall in Ht.
  assert (Hin : In (Z.of_nat whole) (zrange (S (Z.to_nat checked_lengths)) 0))
    by (apply In_zrange; unfold checked_lengths in *; lia).
  specialize (Ht _ Hin). cbv zeta in Ht.
  apply andb_true_iff in Ht. destruct Ht as [Hbelow Habove].
  apply negb_true_iff in Hbelow.
  set (below := 4 * Z.of_nat whole / 5) in *.
  assert (Hdiv : 5 * below <= 4 * Z.of_nat whole < 5 * (below + 1))
    by (unfold below;
        pose proof (Z.mul_div_le (4 * Z.of_nat whole) 5 eq_refl);
        pose proof (Z.mul_succ_div_gt (4 * Z.of_nat whole) 5 eq_refl); lia).
  unfold above_80_percent, above_80_percent_double.
  unfold exceeds_point_eight, gt in *.
  set (x := mul (of_Z (Z.of_nat whole)) point_eight) in *.
  destruct (Z.le_gt_cases (Z.of_nat part) below) as [Hle | Hgt].
  - replace (4 * whole <? 5 * part)%nat with false
      by (symmetry; apply Nat.ltb_ge; lia).
    symmetry. destruct (SFltb x (of_Z (Z.of_nat part))) eqn:Hx; [|reflexivity].
    destruct (Z.eq_dec (Z.of_nat part) below) as [He | Hne]; [congruence|].
    rewrite <- Hbelow. symmetry.
    apply SFltb_trans with (b := of_Z (Z.of_nat part)); [exact Hx|].
    apply of_Z_lt; lia.
  - replace (4 * whole <? 5 * part)%nat with true
      by (symmetry; apply Nat.ltb_lt; lia).
    symmetry. destruct (Z.eq_dec (Z.of_nat part) (below + 1)) as [-> | Hne];
      [exact Habove|].
    apply SFltb_trans with (b := of_Z (below + 1)); [exact Habove|].
    apply of_Z_lt; lia.
Qed.

(** The same agreement at the two parts around the threshold, for
    lengths up to the row limit of a worksheet and the length limit of
    an array. *)
Lemma threshold_at_large_lengths :
  forallb (fun whole =>
             let below := (4 * whole / 5)%Z in
             negb (4 * whole <? 5 * below)%Z
             && negb (exceeds_point_eight below whole)
             && (4 * whole <? 5 * (below + 1))%Z
             && exceeds_point_eight (below + 1) whole)
          [1000; 1024; 4095; 65535; 65536; 99999; 1048575; 1048576;
           1048577; 16777215; 4294967295]%Z
  = true.
Proof. vm_compute. reflexivity. Qed.

Local Close Scope Z_scope.

(** A column that ingestion types as number has a value that coerces. *)
Lemma number_column_has_coercible_value (Date_parse : any -> number)
  (values : list any) :
  inferType Date_parse values = TNumber ->
  exists v, In v values /\ isNaN (Number v) = false.
Proof.
  unfold inferType.
  destruct (List.length values =? 0)%nat; [intros Hc; discriminate Hc|].
  destruct (above_80_percent _ _) eqn:Hn.
  - intros _. apply Nat.ltb_lt in Hn.
    destruct (filter isNumericValue values) as [|v l] eqn:Hf;
      [simpl in Hn; lia|].
    assert (Hv : In v (filter isNumericValue values)) by (rewrite Hf; now left).
    apply filter_In in Hv. destruct Hv as [Hin Hnum].
    exists v. split; [exact Hin|].
    unfold isNumericValue in Hnum. apply andb_true_iff in Hnum.
    destruct Hnum as [Hnum _]. now apply negb_true_iff in Hnum.
  - clear Hn.
    destruct (above_80_percent _ _); [intros Hc; discriminate Hc|].
    destruct (above_80_percent _ _); intros Hc; discriminate Hc.
Qed.

(** C3 as stated fails: with exactly 80% numeric values the column is
    not typed number.  Four of these five values are numeric. *)
Lemma exactly_80_percent_is_not_number :
  ~ (forall (Date_parse : any -> number) (values : list any),
        values <> [] ->
        at_least_80_percent isNumericValue values ->
        inferType Date_parse values = TNumber).
Proof.
  intros H.
  specialize (H (fun _ => NaN)
                [VStr "1"; VStr "2"; VStr "3"; VStr "4"; VStr "x"]).
  assert (Hne : [VStr "1"; VStr "2"; VStr "3"; VStr "4"; VStr "x"] <> [])
    by discriminate.
  specialize (H Hne).
  assert (Hshare : at_least_80_percent isNumericValue
                     [VStr "1"; VStr "2"; VStr "3"; VStr "4"; VStr "x"])
    by (unfold at_least_80_percent; vm_compute; lia).
  specialize (H Hshare). vm_compute in H. discriminate H.
Qed.

(** C3, amended. The type of a column is decided by the number, boolean
    and date tests, in this order, each passed when strictly more than
    80% of the values qualify, with string as the fallback: a column is
    typed number exactly when more than 80% of its values are numeric,
    whatever boolean-like or date-like values it holds; boolean exactly
    when the number test fails and more than 80% are boolean-like; date
    exactly when both fail and more than 80% parse as dates; string
    otherwise.  The column ["1","0","1"] is typed number although all
    its values are boolean-like, and a column without values is typed
    string. *)
Theorem inferType_by_priority :
  forall (Date_parse : any -> number) (values : list any),
    let numeric := more_than_80_percent isNumericValue values in
    let boolean := more_than_80_percent isBooleanValue values in
    let date := more_than_80_percent (isDateValue Date_parse) values in
    (inferType Date_parse values = TNumber <-> numeric)
    /\ (inferType Date_parse values = TBoolean <-> ~ numeric /\ boolean)
    /\ (inferType Date_parse values = TDate <->
        ~ numeric /\ ~ boolean /\ date)
    /\ (inferType Date_parse values = TString <->
        ~ numeric /\ ~ boolean /\ ~ date)
    /\ inferType Date_parse [] = TString
    /\ inferType Date_parse [VStr "1"; VStr "0"; VStr "1"] = TNumber
    /\ forallb isBooleanValue [VStr "1"; VStr "0"; VStr "1"] = true.
Proof.
  intros Date_parse values numeric boolean date.
  assert (Hn := above_80_percent_iff isNumericValue values).
  assert (Hb := above_80_percent_iff isBooleanValue values).
  assert (Hd := above_80_percent_iff (isDateValue Date_parse) values).
  fold numeric in Hn. fold boolean in Hb. fold date in Hd.
  assert (Hempty : List.length values = 0%nat -> ~ numeric /\ ~ boolean /\ ~ date).
  { intros H0. unfold numeric, boolean, date, more_than_80_percent.
    destruct values; [simpl; lia | discriminate]. }
  unfold inferType.
  destruct (Nat.eqb_spec (List.length values) 0) as [H0 | H0].
  - destruct (Hempty H0) as (Nn & Nb & Nd).
    repeat split; try discriminate; try tauto; reflexivity.
  - clear Hempty.
    destruct (above_80_percent (List.length (filter isNumericValue values)) _).
    { assert numeric by now apply Hn.
      repeat split; try discriminate; try tauto; reflexivity. }
    assert (~ numeric) by (intros Hc; apply Hn in Hc; discriminate).
    destruct (above_80_percent (List.length (filter isBooleanValue values)) _).
    { assert boolean by now apply Hb.
      repeat split; try discriminate; try tauto; reflexivity. }
    assert (~ boolean) by (intros Hc; apply Hb in Hc; discriminate).
    destruct (above_80_percent _ _).
    { assert date by now apply Hd.
      repeat split; try discriminate; try tauto; reflexivity. }
    assert (~ date) by (intros Hc; apply Hd in Hc; discriminate).
    repeat split; try discriminate; try tauto; reflexivity.
Qed.

End TypeInferenceFacts.

(* ================================================================== *)
(** * Aggregates *)
(* ================================================================== *)

Module AverageFacts.
Import JS Types ExcelProcessor QueryProcessor Samples.
Import IngestionFacts TypeInferenceFacts.
Local Open Scope string_scope.

Lemma mean_of_nothing : mean [] = NaN.
Proof. reflexivity. Qed.

(** The mean of a mentioned column without coercible values is printed
    as it comes out of the division of zero by zero. *)
Lemma handleAverageQuery_no_coercible_value (query : string) (ds : DataSet)
  (col : DataColumn) :
  find (mentions query) (filter is_number_column (columns ds)) = Some col ->
  coercible (values col) = [] ->
  result_of (handleAverageQuery query) ds
  = text_result ("The average " ++ name col ++ " is NaN.").
Proof.
  intros Hfind Hnone.
  cbv beta iota zeta delta [handleAverageQuery result_of bind ret this_dataset fst].
  destruct (filter is_number_column (columns ds)) as [|c l] eqn:Hf;
    [discriminate|].
  cbn [List.length Nat.eqb]. rewrite Hfind, Hnone. reflexivity.
Qed.

(** C2 as stated fails: the Average handler divides by the number of
    coercible values without a guard, so on a number-typed column
    without any it answers with a mean of NaN instead of an
    explanation. *)
Theorem average_without_coercible_values_is_NaN :
  result_of (processQuery "what is the average sales") uncoercible_sales
  = text_result "The average sales is NaN."
  /\ result_of (processQuery "average") uncoercible_sales
     = text_result ("Average values:" ++ newline ++ "sales: NaN").
Proof. split; reflexivity. Qed.

(** What the Average handler answers for a mentioned number column. *)
Lemma handleAverageQuery_mentioned (query : string) (ds : DataSet)
  (col : DataColumn) :
  find (mentions query) (filter is_number_column (columns ds)) = Some col ->
  result_of (handleAverageQuery query) ds
  = text_result ("The average " ++ name col ++ " is "
                   ++ toFixed (mean (coercible (values col))) 2 ++ ".").
Proof.
  intros Hfind.
  cbv beta iota zeta delta [handleAverageQuery result_of bind ret this_dataset fst].
  destruct (filter is_number_column (columns ds)) as [|c l] eqn:Hf;
    [discriminate|].
  cbn [List.length Nat.eqb]. rewrite Hfind. reflexivity.
Qed.

(** A number column that comes out of ingestion has a value that
    coerces. *)
Lemma ingested_number_column_coerces (Date_parse : any -> number)
  (fileName : string) (jsonData : list (list any)) (ds : DataSet)
  (col : DataColumn) :
  processFile Date_parse fileName jsonData = Resolved ds ->
  In col (columns ds) ->
  type col = TNumber ->
  (1 <= List.length (coercible (values col)))%nat.
Proof.
  destruct jsonData as [|headerCells dataRows]; [discriminate|].
  rewrite processFile_resolves. intros [= <-]. cbn [columns].
  intros Hin Htype. apply In_nth_error in Hin. destruct Hin as [i Hi].
  destruct (nth_error_inferColumnTypes _ _ _ _ Hi) as (Hv & Ht & _).
  rewrite Htype in Ht. symmetry in Ht.
  destruct (number_column_has_coercible_value _ _ Ht) as (v & Hvin & Hnan).
  rewrite <- Hv in Hvin.
  assert (Hc : In (Number v) (coercible (values col))).
  { unfold coercible. apply filter_In. split; [now apply in_map|].
    now rewrite Hnan. }
  destruct (coercible (values col)); [destruct Hc | simpl; lia].
Qed.

(** C2, amended. For an Average question that targets a number-typed
    column, the handler divides the sum of the values that coerce by
    their number, without a guard, and answers with the Text "The
    average <column> is <mean>."; it never fails.  When no value
    coerces the mean is NaN and the Text reads "The average <column> is
    NaN.", not an explanation.  In a dataset that ingestion produced,
    a number-typed column has a value that coerces, so that the
    divisor is at least 1. *)
Theorem average_divides_without_a_guard :
  forall (query : string) (ds : DataSet) (col : DataColumn),
    find (mentions query) (filter is_number_column (columns ds)) = Some col ->
    let r := result_of (handleAverageQuery query) ds in
    r = text_result ("The average " ++ name col ++ " is "
                       ++ toFixed (mean (coercible (values col))) 2 ++ ".")
    /\ (coercible (values col) = [] ->
        r = text_result ("The average " ++ name col ++ " is NaN."))
    /\ (forall Date_parse fileName jsonData,
          processFile Date_parse fileName jsonData = Resolved ds ->
          (1 <= List.length (coercible (values col)))%nat).
Proof.
  intros query ds col Hfind r. subst r.
  split; [now apply handleAverageQuery_mentioned|].
  split; [now apply handleAverageQuery_no_coercible_value|].
  intros Date_parse fileName jsonData Hds.
  apply find_some in Hfind. destruct Hfind as [Hin _].
  apply filter_In in Hin. destruct Hin as [Hin Hnum].
  eapply ingested_number_column_coerces; [exact Hds | exact Hin |].
  unfold is_number_column in Hnum. destruct (type col); now try discriminate.
Qed.

(** The amended C2 on the ingested sales sheet. *)
Lemma average_divides_without_a_guard_witness :
  result_of (handleAverageQuery "what is the average sales") sales
  = text_result "The average sales is 20.00."
  /\ (1 <= List.length
             (coercible [VNum (of_Z 10); VNum (of_Z 20); VNum (of_Z 30)]))%nat.
Proof.
  destruct (@average_divides_without_a_guard "what is the average sales" sales
              {| name := "sales"; type := TNumber;
                 values := [VNum (of_Z 10); VNum (of_Z 20); VNum (of_Z 30)] |}
              eq_refl) as (Hr & _ & Hing).
  split.
  - rewrite Hr. vm_compute. reflexivity.
  - apply (Hing (fun _ => NaN) "sales.xlsx"
             [[VStr "sales"]; [num 10]; [num 20]; [num 30]]).
    reflexivity.
Defined.

End AverageFacts.

(* ================================================================== *)
(** * Condition extraction *)
(* ================================================================== *)

Module ConditionFacts.
Import JS Types ExcelProcessor QueryProcessor Samples RegexFacts.
Local Open Scope string_scope.

Lemma staff_is_ingested :
  processFile (fun _ => NaN) "staff.xlsx"
    [[VStr "status"; VStr "age"];
     [VStr "active"; VNum (of_Z 30)];
     [VStr "inactive"; VNum (of_Z 41)]]
  = Resolved staff.
Proof. reflexivity. Qed.

(** Whatever the question, a condition read off a match of a pattern
    without a third group has no value: [undefined], or NaN on a number
    column. *)
Lemma two_group_match_loses_value (pattern : regex) (ds : DataSet)
  (s : string) (skip : nat) (caps : captures) (c : Condition) :
  ~ In 3%nat (group_ids pattern) ->
  In caps (exec_all pattern s skip) ->
  In c (condition_of_match ds caps) ->
  value c = VUndefined \/ value c = VNum NaN.
Proof.
  intros H3 Hcaps Hc. apply exec_all_In in Hcaps.
  destruct Hcaps as (s' & len & Hm).
  pose proof (@match_at_groups _ _ _ _ 3%nat Hm H3) as Hg.
  unfold condition_of_match in Hc. rewrite Hg in Hc.
  destruct (group 1 caps); [|destruct Hc].
  destruct (find _ _) as [col|]; [|destruct Hc].
  destruct Hc as [<- | []]. simpl.
  destruct (is_number_column col); [right | left]; reflexivity.
Qed.

Lemma is_and_equals_never_carry_a_value (query : string) (ds : DataSet)
  (c : Condition) :
  In c (flat_map (condition_of_match ds)
                 (exec_all pattern_is (toLowerCase query) 0))
  \/ In c (flat_map (condition_of_match ds)
                    (exec_all pattern_equals (toLowerCase query) 0)) ->
  value c = VUndefined \/ value c = VNum NaN.
Proof.
  intros [H | H]; apply in_flat_map in H; destruct H as (caps & Hcaps & Hc);
    (eapply two_group_match_loses_value; [|exact Hcaps|exact Hc]);
    simpl; intros Hin; repeat (destruct Hin as [Hin | Hin]; [discriminate|]);
    exact Hin.
Qed.

(** C5, the code at failing inputs: for the patterns with two groups
    the destructuring [[, column, operator, value]] puts the second
    token in [operator] and leaves [value] undefined, so the condition
    has the token as its operator and [undefined] (NaN on a number
    column) as its value; the pattern with three groups is read as
    meant.  A filter on "status is active" then matches no row. *)
Theorem is_and_equals_lose_their_value :
  result_of (extractConditions "status is active") staff
  = [{| column := "status"; operator := "active"; value := VUndefined |}]
  /\ result_of (extractConditions "age equals 30") staff
     = [{| column := "age"; operator := "30"; value := VNum NaN |}]
  /\ result_of (extractConditions "age = 30") staff
     = [{| column := "age"; operator := "="; value := VNum (of_Z 30) |}]
  /\ result_of (processQuery "filter where status is active") staff
     = text_result "No records match your filter criteria.".
Proof. repeat split; vm_compute; reflexivity. Qed.

End ConditionFacts.

(* ================================================================== *)
(** * Histograms *)
(* ================================================================== *)

Module HistogramFacts.
Import JS Types ExcelProcessor QueryProcessor Notions Samples ObjectFacts.
Local Open Scope string_scope.

Lemma total_replace (o : object nat) (k : string) (n v : nat) :
  get k o = Some n -> (total (replace k v o) + n = total o + v)%nat.
Proof.
  unfold total. induction o as [|[k1 v1] o IH]; simpl; [discriminate|].
  destruct (String.eqb k1 k); simpl.
  - intros [= ->]. lia.
  - intros H. specialize (IH H). lia.
Qed.

Lemma total_insert_index (o : object nat) (i : Z) (k : string) (v : nat) :
  total (insert_index i k v o) = (v + total o)%nat.
Proof.
  unfold total. induction o as [|[k1 v1] o IH]; simpl; [reflexivity|].
  destruct (array_index k1) as [j|]; [destruct (Z.ltb j i)|]; simpl;
    rewrite ?IH; lia.
Qed.

Lemma total_increment (o : object nat) (k : string) :
  total (increment k o) = S (total o).
Proof.
  unfold increment, set, has. destruct (get k o) as [n|] eqn:Hg.
  - pose proof (@total_replace o k n (n + 1) Hg). lia.
  - destruct (array_index k).
    + rewrite total_insert_index. simpl. reflexivity.
    + unfold total. rewrite map_app, list_sum_app. simpl. lia.
Qed.

Lemma total_fold_increment (A : Type) (label : A -> string) (xs : list A)
  (o : object nat) :
  total (fold_left (fun bins x => increment (label x) bins) xs o)
  = (List.length xs + total o)%nat.
Proof.
  revert o; induction xs as [|x xs IH]; intros o; simpl; [reflexivity|].
  rewrite IH, total_increment. lia.
Qed.

(** Every coercible value is counted in exactly one bin. *)
Lemma histogram_counts_every_value (values : list number) :
  total (histogram values) = List.length values.
Proof.
  unfold histogram. rewrite total_fold_increment. unfold total. simpl. lia.
Qed.

(** The bin index is never above 9: there is no eleventh bin. *)
Lemma binIndex_not_above_9 (min binSize value : number) :
  gt (binIndex min binSize value) (of_Z 9) = false.
Proof.
  unfold binIndex. generalize (floor (div (sub value min) binSize)) as x.
  intros x.
  replace (sub binCount (of_Z 1)) with (of_Z 9) by (vm_compute; reflexivity).
  unfold min2, gt, lt.
  destruct (isNaN x) eqn:Hx; [reflexivity|].
  cbn [isNaN orb].
  change (isNaN (of_Z 9)) with false. cbv iota.
  destruct (SFltb (of_Z 9) x) eqn:H1; [vm_compute; reflexivity|].
  destruct (SFltb x (of_Z 9)) eqn:H2; [exact H1|].
  replace (match of_Z 9 with S754_zero true => of_Z 9 | _ => x end) with x
    by (vm_compute; reflexivity).
  exact H1.
Qed.

Lemma flat_prices_is_ingested :
  processFile (fun _ => NaN) "prices.xlsx"
    [[VStr "price"]; [VNum (of_Z 5)]; [VNum (of_Z 5)]]
  = Resolved flat_prices.
Proof. reflexivity. Qed.

Lemma lt_irrefl (x : number) : lt x x = false.
Proof.
  unfold lt, SFltb. destruct x as [[]|[]| |[] m e]; simpl; try reflexivity;
    rewrite Z.compare_refl; change (Pos.compare_cont Eq m m) with (Pos.compare m m);
    rewrite Pos.compare_refl; reflexivity.
Qed.

Lemma sub_self (x : number) :
  sub x x = zero \/ sub x x = NaN.
Proof.
  destruct x as [[]|[]| |s m e]; simpl; auto.
  left. unfold sub, SFsub. rewrite Z.min_id.
  replace (fst (shl_align m e e)) with m.
  - rewrite Z.sub_diag. reflexivity.
  - unfold shl_align. rewrite Z.sub_diag. reflexivity.
Qed.

(** With a bin width of 0 the index of the value that is the minimum
    is NaN. *)
Lemma binIndex_zero_width (x : number) :
  binIndex x (div (sub x x) binCount) x = NaN.
Proof.
  unfold binIndex. destruct (sub_self x) as [-> | ->]; reflexivity.
Qed.

Lemma add_NaN_r (x : number) : add x NaN = NaN.
Proof. destruct x as [[]|[]| |[] m e]; reflexivity. Qed.

Lemma binLabel_zero_width (x : number) :
  binLabel x (div (sub x x) binCount) x = "NaN-NaN".
Proof.
  unfold binLabel. rewrite binIndex_zero_width.
  change (mul NaN (div (sub x x) binCount)) with NaN.
  rewrite add_NaN_r. reflexivity.
Qed.

Lemma min2_self (x : number) : isNaN x = false -> min2 x x = x.
Proof.
  intros Hx. unfold min2. rewrite Hx, lt_irrefl. simpl.
  destruct x as [[]|[]| |[] m e]; reflexivity.
Qed.

Lemma max2_self (x : number) : isNaN x = false -> max2 x x = x.
Proof.
  intros Hx. unfold max2. rewrite Hx, lt_irrefl. simpl.
  destruct x as [[]|[]| |[] m e]; reflexivity.
Qed.

Lemma min_list_repeat (x : number) (n : nat) :
  isNaN x = false -> min_list (repeat x (S n)) = x.
Proof.
  intros Hx. unfold min_list. simpl.
  assert (H0 : min2 Infinity x = x)
    by (destruct x as [[]|[]| |[] m e]; try reflexivity; discriminate).
  rewrite H0. induction n as [|n IH]; simpl; [reflexivity|].
  now rewrite min2_self.
Qed.

Lemma max_list_repeat (x : number) (n : nat) :
  isNaN x = false -> max_list (repeat x (S n)) = x.
Proof.
  intros Hx. unfold max_list. simpl.
  assert (H0 : max2 NegInfinity x = x)
    by (destruct x as [[]|[]| |[] m e]; try reflexivity; discriminate).
  rewrite H0. induction n as [|n IH]; simpl; [reflexivity|].
  now rewrite max2_self.
Qed.

Lemma increment_same (k : string) (n : nat) :
  increment k [(k, n)] = [(k, S n)].
Proof.
  unfold increment, set, has. cbn [get]. rewrite String.eqb_refl.
  cbn [replace]. rewrite String.eqb_refl. now rewrite Nat.add_1_r.
Qed.

Lemma fold_increment_same (A : Type) (xs : list A) (label : A -> string)
  (k : string) (n : nat) :
  (forall x, In x xs -> label x = k) ->
  fold_left (fun bins x => increment (label x) bins) xs [(k, n)]
  = [(k, (n + List.length xs)%nat)].
Proof.
  revert n; induction xs as [|x xs IH]; intros n Hl; simpl.
  - now rewrite Nat.add_0_r.
  - rewrite (Hl x) by now left. rewrite increment_same.
    rewrite IH by (intros y Hy; apply Hl; now right).
    f_equal. f_equal. lia.
Qed.

(** Whatever the number and however often it occurs, a column whose
    coercible values are all equal has the single bin "NaN-NaN". *)
Lemma histogram_of_equal_values (x : number) (n : nat) :
  isNaN x = false ->
  histogram (repeat x (S n)) = [("NaN-NaN", S n)].
Proof.
  intros Hx. unfold histogram.
  rewrite min_list_repeat, max_list_repeat by exact Hx.
  cbn [repeat fold_left]. rewrite binLabel_zero_width.
  change (increment "NaN-NaN" []) with [("NaN-NaN", 1%nat)].
  rewrite fold_increment_same.
  - rewrite repeat_length. reflexivity.
  - intros y Hy. apply repeat_spec in Hy. subst y. apply binLabel_zero_width.
Qed.

(** With distinct values the clamp does its work: the maximum of
    25, 35, 45 has index 9. *)
Lemma spread_column_maximum_in_last_bin :
  let values := [of_Z 25; of_Z 35; of_Z 45] in
  let min := min_list values in
  let binSize := div (sub (max_list values) min) binCount in
  map (binIndex min binSize) values = [zero; of_Z 5; of_Z 9]
  /\ histogram values
     = [("25.0-27.0", 1); ("35.0-37.0", 1); ("43.0-45.0", 1)]%nat.
Proof. split; vm_compute; reflexivity. Qed.

(** C8, the code at a failing input: when all coercible values are
    equal the bin width is 0, the index of every value, the maximum
    included, is NaN rather than 9, and the histogram has the single
    bin "NaN-NaN" instead of a tenth bin holding the maximum. *)
Theorem constant_column_lands_in_NaN_bin :
  let five := of_Z 5 in
  min_list [five; five] = five
  /\ max_list [five; five] = five
  /\ div (sub five five) binCount = zero
  /\ binIndex five zero five = NaN
  /\ histogram [five; five] = [("NaN-NaN", 2%nat)]
  /\ result_of (processQuery "plot the price") flat_prices
     = chart_result "Distribution of price:"
         {| chart_type := bar;
            data := [{| point_name := "NaN-NaN"; point_count := 2;
                        point_average := None; point_value := of_Z 2 |}];
            xKey := "name";
            yKey := "count";
            chart_title := "price Distribution" |}.
Proof. repeat split; vm_compute; reflexivity. Qed.

End HistogramFacts.

(* ================================================================== *)
(** * The maximum and the minimum of a column *)
(* ================================================================== *)

Module ExtremaFacts.
Import JS Types ExcelProcessor QueryProcessor Notions.
Local Open Scope string_scope.

Lemma SFcompare_antisym (a b : number) :
  SFcompare b a = option_map CompOpp (SFcompare a b).
Proof.
  destruct a as [[]|[]| |[] ma ea], b as [[]|[]| |[] mb eb];
    simpl; try reflexivity;
    rewrite (Z.compare_antisym ea eb);
    change (Pos.compare_cont Eq) with Pos.compare;
    rewrite (Pos.compare_antisym ma mb);
    destruct (ea ?= eb)%Z; simpl; try reflexivity;
    destruct (ma ?= mb)%positive; reflexivity.
Qed.

Lemma SFcompare_defined (a b : number) :
  isNaN a = false -> isNaN b = false -> exists c, SFcompare a b = Some c.
Proof.
  destruct a as [[]|[]| |[] ma ea], b as [[]|[]| |[] mb eb];
    simpl; try discriminate; intros _ _; eexists; reflexivity.
Qed.

Lemma le_of_not_lt (a b : number) :
  isNaN a = false -> isNaN b = false -> lt b a = false -> le a b = true.
Proof.
  intros Ha Hb. unfold lt, le, SFltb, SFleb.
  rewrite (SFcompare_antisym a b).
  destruct (SFcompare_defined a b Ha Hb) as [c ->]. destruct c; simpl; congruence.
Qed.

Lemma le_of_lt (a b : number) : lt a b = true -> le a b = true.
Proof.
  unfold lt, le, SFltb, SFleb. destruct (SFcompare a b) as [[]|]; congruence.
Qed.

Lemma le_refl (a : number) : isNaN a = false -> le a a = true.
Proof.
  intros Ha. unfold le, SFleb.
  destruct a as [[]|[]| |[] m e]; simpl; try reflexivity; try discriminate;
    rewrite Z.compare_refl; change (Pos.compare_cont Eq m m) with (Pos.compare m m);
    rewrite Pos.compare_refl; reflexivity.
Qed.

Lemma SFleb_trans (a b c : number) :
  SFleb a b = true -> SFleb b c = true -> SFleb a c = true.
Proof.
  unfold SFleb.
  destruct a as [[]|[]| |[] ma ea], b as [[]|[]| |[] mb eb],
           c as [[]|[]| |[] mc ec];
    simpl; try discriminate; try reflexivity; intros H1 H2;
    change (Pos.compare_cont Eq) with Pos.compare in *;
    destruct (Z.compare_spec ea eb), (Z.compare_spec eb ec),
             (Z.compare_spec ea ec);
    subst; try discriminate; try reflexivity; try lia;
    destruct (Pos.compare_spec ma mb), (Pos.compare_spec mb mc),
             (Pos.compare_spec ma mc);
    subst; simpl in *; try discriminate; try reflexivity; lia.
Qed.

Lemma max2_spec (a b : number) :
  isNaN a = false -> isNaN b = false ->
  (max2 a b = a \/ max2 a b = b)
  /\ le a (max2 a b) = true /\ le b (max2 a b) = true.
Proof.
  intros Ha Hb. unfold max2. rewrite Ha, Hb. cbn [orb].
  destruct (lt a b) eqn:Hab.
  - repeat split; [now right | now apply le_of_lt | now apply le_refl].
  - destruct (lt b a) eqn:Hba.
    + repeat split; [now left | now apply le_refl | now apply le_of_lt].
    + assert (H1 : le a b = true) by now apply le_of_not_lt.
      assert (H2 : le b a = true) by now apply le_of_not_lt.
      destruct b as [[]|[]| |[] mb eb];
        repeat split; auto using le_refl.
Qed.

Lemma min2_spec (a b : number) :
  isNaN a = false -> isNaN b = false ->
  (min2 a b = a \/ min2 a b = b)
  /\ le (min2 a b) a = true /\ le (min2 a b) b = true.
Proof.
  intros Ha Hb. unfold min2. rewrite Ha, Hb. cbn [orb].
  destruct (lt b a) eqn:Hba.
  - repeat split; [now right | now apply le_of_lt | now apply le_refl].
  - destruct (lt a b) eqn:Hab.
    + repeat split; [now left | now apply le_refl | now apply le_of_lt].
    + assert (H1 : le a b = true) by now apply le_of_not_lt.
      assert (H2 : le b a = true) by now apply le_of_not_lt.
      destruct b as [[]|[]| |[] mb eb];
        repeat split; auto using le_refl.
Qed.

Lemma isNaN_pick (a b r : number) :
  isNaN a = false -> isNaN b = false -> r = a \/ r = b -> isNaN r = false.
Proof. intros Ha Hb [-> | ->]; assumption. Qed.

Lemma fold_max2_spec (xs : list number) (acc : number) :
  isNaN acc = false -> (forall x, In x xs -> isNaN x = false) ->
  let r := fold_left max2 xs acc in
  isNaN r = false /\ (r = acc \/ In r xs)
  /\ le acc r = true /\ forall x, In x xs -> le x r = true.
Proof.
  revert acc; induction xs as [|y xs IH]; intros acc Hacc Hxs; cbn [fold_left].
  - repeat split; [exact Hacc | now left | now apply le_refl | intros x []].
  - assert (Hy : isNaN y = false) by (apply Hxs; now left).
    destruct (max2_spec acc y Hacc Hy) as (Hpick & Hla & Hly).
    assert (Hm : isNaN (max2 acc y) = false)
      by exact (@isNaN_pick acc y _ Hacc Hy Hpick).
    destruct (IH (max2 acc y) Hm (fun x Hx => Hxs x (or_intror Hx)))
      as (Hr & Hin & Hle & Hall).
    repeat split.
    + exact Hr.
    + destruct Hin as [Hin | Hin]; [|right; now right].
      destruct Hpick as [Hp | Hp]; rewrite Hin, Hp; [now left | right; now left].
    + unfold le in *. eapply SFleb_trans; eassumption.
    + intros x [<- | Hx]; [|now apply Hall].
      unfold le in *. eapply SFleb_trans; eassumption.
Qed.

Lemma fold_min2_spec (xs : list number) (acc : number) :
  isNaN acc = false -> (forall x, In x xs -> isNaN x = false) ->
  let r := fold_left min2 xs acc in
  isNaN r = false /\ (r = acc \/ In r xs)
  /\ le r acc = true /\ forall x, In x xs -> le r x = true.
Proof.
  revert acc; induction xs as [|y xs IH]; intros acc Hacc Hxs; cbn [fold_left].
  - repeat split; [exact Hacc | now left | now apply le_refl | intros x []].
  - assert (Hy : isNaN y = false) by (apply Hxs; now left).
    destruct (min2_spec acc y Hacc Hy) as (Hpick & Hla & Hly).
    assert (Hm : isNaN (min2 acc y) = false)
      by exact (@isNaN_pick acc y _ Hacc Hy Hpick).
    destruct (IH (min2 acc y) Hm (fun x Hx => Hxs x (or_intror Hx)))
      as (Hr & Hin & Hle & Hall).
    repeat split.
    + exact Hr.
    + destruct Hin as [Hin | Hin]; [|right; now right].
      destruct Hpick as [Hp | Hp]; rewrite Hin, Hp; [now left | right; now left].
    + unfold le in *. eapply SFleb_trans; eassumption.
    + intros x [<- | Hx]; [|now apply Hall].
      unfold le in *. eapply SFleb_trans; eassumption.
Qed.

Lemma coercible_not_NaN (vs : list any) (x : number) :
  In x (coercible vs) -> isNaN x = false.
Proof.
  unfold coercible. intros H. apply filter_In in H.
  destruct H as [_ H]. now apply negb_true_iff in H.
Qed.

Lemma le_NegInfinity (x : number) :
  isNaN x = false -> le x NegInfinity = true -> x = NegInfinity.
Proof.
  destruct x as [[]|[]| |[] m e]; simpl; try discriminate; reflexivity.
Qed.

Lemma Infinity_le (x : number) :
  isNaN x = false -> le Infinity x = true -> x = Infinity.
Proof.
  destruct x as [[]|[]| |[] m e]; simpl; try discriminate; reflexivity.
Qed.

Lemma max_list_spec (xs : list number) :
  (forall x, In x xs -> isNaN x = false) ->
  (xs = [] -> max_list xs = NegInfinity)
  /\ (xs <> [] -> In (max_list xs) xs)
  /\ forall x, In x xs -> le x (max_list xs) = true.
Proof.
  intros Hxs. unfold max_list.
  destruct (@fold_max2_spec xs NegInfinity eq_refl Hxs) as (Hr & Hin & _ & Hall).
  split; [intros ->; reflexivity|]. split; [|exact Hall].
  intros Hne. destruct Hin as [Hin | Hin]; [|exact Hin].
  destruct xs as [|y xs]; [contradiction|].
  assert (Hy : y = NegInfinity).
  { apply le_NegInfinity; [apply Hxs; now left|].
    rewrite <- Hin. apply Hall. now left. }
  rewrite Hin, <- Hy. now left.
Qed.

Lemma min_list_spec (xs : list number) :
  (forall x, In x xs -> isNaN x = false) ->
  (xs = [] -> min_list xs = Infinity)
  /\ (xs <> [] -> In (min_list xs) xs)
  /\ forall x, In x xs -> le (min_list xs) x = true.
Proof.
  intros Hxs. unfold min_list.
  destruct (@fold_min2_spec xs Infinity eq_refl Hxs) as (Hr & Hin & _ & Hall).
  split; [intros ->; reflexivity|]. split; [|exact Hall].
  intros Hne. destruct Hin as [Hin | Hin]; [|exact Hin].
  destruct xs as [|y xs]; [contradiction|].
  assert (Hy : y = Infinity).
  { apply Infinity_le; [apply Hxs; now left|].
    rewrite <- Hin. apply Hall. now left. }
  rewrite Hin, <- Hy. now left.
Qed.

Lemma handleMaxQuery_result (query : string) (ds : DataSet) :
  result_of (handleMaxQuery query) ds
  = match find (mentions query) (filter is_number_column (columns ds)) with
    | Some col =>
        text_result ("The maximum " ++ name col ++ " is "
                       ++ number_toString (max_list (coercible (values col)))
                       ++ ".")
    | None =>
        text_result
          "Please specify which column you want to find the maximum for."
    end.
Proof.
  cbv beta iota zeta delta [handleMaxQuery result_of bind ret this_dataset fst].
  destruct (find _ _); reflexivity.
Qed.

Lemma handleMinQuery_result (query : string) (ds : DataSet) :
  result_of (handleMinQuery query) ds
  = match find (mentions query) (filter is_number_column (columns ds)) with
    | Some col =>
        text_result ("The minimum " ++ name col ++ " is "
                       ++ number_toString (min_list (coercible (values col)))
                       ++ ".")
    | None =>
        text_result
          "Please specify which column you want to find the minimum for."
    end.
Proof.
  cbv beta iota zeta delta [handleMinQuery result_of bind ret this_dataset fst].
  destruct (find _ _); reflexivity.
Qed.

(** X8. The maximum query answers for the first number column the
    question mentions: the reported number is at least every coercible
    value of the column and is one of them, or [-Infinity] when the
    column has none; when no number column is mentioned it asks for
    one. *)
Theorem maximum_is_greatest_coercible_value :
  forall (query : string) (ds : DataSet),
    let r := result_of (handleMaxQuery query) ds in
    match find (mentions query) (filter is_number_column (columns ds)) with
    | None =>
        r = text_result
              "Please specify which column you want to find the maximum for."
    | Some col =>
        let values := coercible (values col) in
        r = text_result ("The maximum " ++ name col ++ " is "
                           ++ number_toString (max_list values) ++ ".")
        /\ In col (columns ds) /\ type col = TNumber
        /\ (forall v, In v values -> le v (max_list values) = true)
        /\ match values with
           | [] => max_list values = NegInfinity
           | _ :: _ => In (max_list values) values
           end
    end.
Proof.
  intros query ds r. subst r. rewrite handleMaxQuery_result.
  destruct (find _ _) as [col|] eqn:Hf; [|reflexivity].
  apply find_some in Hf. destruct Hf as [Hin _]. apply filter_In in Hin.
  destruct Hin as [Hin Hnum].
  destruct (max_list_spec (coercible (values col))
              (coercible_not_NaN (values col))) as (Hempty & Hmem & Hle).
  split; [reflexivity|]. split; [exact Hin|]. split.
  { unfold is_number_column in Hnum. destruct (type col); now try discriminate. }
  split; [exact Hle|].
  destruct (coercible (values col)) as [|v l] eqn:Hv;
    [now apply Hempty | apply Hmem; discriminate].
Qed.

(** X9. The minimum query answers for the first number column the
    question mentions: the reported number is at most every coercible
    value of the column and is one of them, or [Infinity] when the
    column has none; when no number column is mentioned it asks for
    one. *)
Theorem minimum_is_least_coercible_value :
  forall (query : string) (ds : DataSet),
    let r := result_of (handleMinQuery query) ds in
    match find (mentions query) (filter is_number_column (columns ds)) with
    | None =>
        r = text_result
              "Please specify which column you want to find the minimum for."
    | Some col =>
        let values := coercible (values col) in
        r = text_result ("The minimum " ++ name col ++ " is "
                           ++ number_toString (min_list values) ++ ".")
        /\ In col (columns ds) /\ type col = TNumber
        /\ (forall v, In v values -> le (min_list values) v = true)
        /\ match values with
           | [] => min_list values = Infinity
           | _ :: _ => In (min_list values) values
           end
    end.
Proof.
  intros query ds r. subst r. rewrite handleMinQuery_result.
  destruct (find _ _) as [col|] eqn:Hf; [|reflexivity].
  apply find_some in Hf. destruct Hf as [Hin _]. apply filter_In in Hin.
  destruct Hin as [Hin Hnum].
  destruct (min_list_spec (coercible (values col))
              (coercible_not_NaN (values col))) as (Hempty & Hmem & Hle).
  split; [reflexivity|]. split; [exact Hin|]. split.
  { unfold is_number_column in Hnum. destruct (type col); now try discriminate. }
  split; [exact Hle|].
  destruct (coercible (values col)) as [|v l] eqn:Hv;
    [now apply Hempty | apply Hmem; discriminate].
Qed.

End ExtremaFacts.

(* ================================================================== *)
(** * Counting by label and grouping by key *)
(* ================================================================== *)

Module TallyFacts.
Import JS Types ExcelProcessor QueryProcessor Notions Tallies.
Import ObjectFacts HistogramFacts.
Local Open Scope string_scope.

Section Tally.
Variables (A : Type) (label : A -> string).

Lemma get_increment (o : object nat) (k k' : string) :
  get k' (increment k o)
  = if String.eqb k k'
    then Some (match get k o with Some n => n | None => O end + 1)%nat
    else get k' o.
Proof. unfold increment. apply get_set. Qed.

Lemma get_fold_increment (xs : list A) (o : object nat) (k : string) :
  get k (fold_left (fun counts x => increment (label x) counts) xs o)
  = match get k o, List.length (labelled label k xs) with
    | Some m, n => Some (m + n)%nat
    | None, O => None
    | None, n => Some n
    end.
Proof.
  revert o; induction xs as [|x xs IH]; intros o; cbn [fold_left].
  - simpl. destruct (get k o); [now rewrite Nat.add_0_r | reflexivity].
  - rewrite IH, get_increment. unfold labelled. cbn [filter].
    destruct (String.eqb_spec (label x) k) as [-> | Hne]; cbn [List.length].
    + destruct (get k o) as [m|]; [f_equal; lia|].
      simpl. reflexivity.
    + reflexivity.
Qed.

Lemma NoDup_keys_fold_increment (xs : list A) (o : object nat) :
  NoDup (keys o) ->
  NoDup (keys (fold_left (fun counts x => increment (label x) counts) xs o)).
Proof.
  revert o; induction xs as [|x xs IH]; intros o Hn; cbn [fold_left];
    [exact Hn | apply IH, NoDup_keys_set, Hn].
Qed.

Lemma get_tally (xs : list A) (k : string) :
  get k (tally label xs)
  = match List.length (labelled label k xs) with
    | O => None
    | n => Some n
    end.
Proof. unfold tally. rewrite get_fold_increment. reflexivity. Qed.

Lemma NoDup_keys_tally (xs : list A) : NoDup (keys (tally label xs)).
Proof. apply NoDup_keys_fold_increment. constructor. Qed.

Lemma total_tally (xs : list A) : total (tally label xs) = List.length xs.
Proof. unfold tally. rewrite total_fold_increment. unfold total. simpl. lia. Qed.

End Tally.

Section Table.
Variable V : Type.

Lemma In_get (o : object V) (k : string) (v : V) :
  NoDup (keys o) -> (In (k, v) o <-> get k o = Some v).
Proof.
  induction o as [|[k1 v1] o IH]; simpl; intros Hn.
  - split; [intros [] | discriminate].
  - inversion Hn as [|? ? Hk1 Hn']; subst.
    destruct (String.eqb_spec k1 k) as [-> | Hne].
    + split.
      * intros [[= ->] | Hin]; [reflexivity|].
        destruct Hk1. apply (in_map fst) in Hin. exact Hin.
      * intros [= ->]. now left.
    + rewrite <- (IH Hn'). split; [intros [[= H _] | H]; [contradiction | exact H] | now right].
Qed.

End Table.

Section Points.
Variables (A : Type) (label : A -> string) (xs : list A).

(** What the points of a chart built from a tally say. *)
Lemma count_points_tally :
  let points := count_points (tally label xs) in
  NoDup (map point_name points)
  /\ (forall p, In p points ->
        point_count p = List.length (labelled label (point_name p) xs)
        /\ (1 <= point_count p)%nat
        /\ point_average p = None
        /\ point_value p = of_nat (point_count p))
  /\ (forall x, In x xs -> In (label x) (map point_name points))
  /\ list_sum (map point_count points) = List.length xs.
Proof.
  cbv zeta. unfold count_points.
  assert (Hnames : map point_name
                       (map (fun '(name, count) =>
                               {| point_name := name; point_count := count;
                                  point_average := None;
                                  point_value := of_nat count |})
                            (tally label xs))
                   = keys (tally label xs)).
  { rewrite map_map. unfold keys. apply map_ext. intros [k n]. reflexivity. }
  assert (Hcounts : map point_count
                       (map (fun '(name, count) =>
                               {| point_name := name; point_count := count;
                                  point_average := None;
                                  point_value := of_nat count |})
                            (tally label xs))
                   = map snd (tally label xs)).
  { rewrite map_map. apply map_ext. intros [k n]. reflexivity. }
  rewrite Hnames, Hcounts.
  split; [apply NoDup_keys_tally|]. split; [|split].
  - intros p Hp. apply in_map_iff in Hp. destruct Hp as ([k n] & <- & Hin).
    cbn [point_name point_count point_average point_value].
    apply In_get in Hin; [|apply NoDup_keys_tally].
    rewrite get_tally in Hin.
    destruct (List.length (labelled label k xs)) as [|m]; [discriminate|].
    injection Hin as <-. repeat split. lia.
  - intros x Hx. apply get_In_keys. rewrite get_tally.
    assert (Hin : In x (labelled label (label x) xs)).
    { unfold labelled. apply filter_In. split; [exact Hx | apply String.eqb_refl]. }
    destruct (labelled label (label x) xs); [destruct Hin | discriminate].
  - apply (total_tally label xs).
Qed.

End Points.

Section Grouping.
Variable key : Row -> string.

Lemma get_push_group (o : object (list Row)) (k k' : string) (row : Row) :
  get k' (push_group k row o)
  = if String.eqb k k'
    then Some (match get k o with Some m => m | None => [] end ++ [row])%list
    else get k' o.
Proof.
  unfold push_group. destruct (get k o) as [m|]; rewrite get_set; reflexivity.
Qed.

Lemma keys_push_group_NoDup (o : object (list Row)) (k : string) (row : Row) :
  NoDup (keys o) -> NoDup (keys (push_group k row o)).
Proof.
  unfold push_group. destruct (get k o); apply NoDup_keys_set.
Qed.

Lemma get_fold_push_group (rows : list Row) (o : object (list Row))
  (k : string) :
  get k (fold_left (fun groups row => push_group (key row) row groups) rows o)
  = match get k o, labelled key k rows with
    | Some m, l => Some (m ++ l)%list
    | None, [] => None
    | None, l => Some l
    end.
Proof.
  revert o; induction rows as [|row rows IH]; intros o; cbn [fold_left].
  - simpl. destruct (get k o); [now rewrite app_nil_r | reflexivity].
  - rewrite IH, get_push_group. unfold labelled. cbn [filter].
    destruct (String.eqb_spec (key row) k) as [-> | Hne].
    + destruct (get k o) as [m|]; [now rewrite <- app_assoc | reflexivity].
    + reflexivity.
Qed.

Lemma get_grouping (rows : list Row) (k : string) :
  get k (grouping key rows)
  = match labelled key k rows with
    | [] => None
    | l => Some l
    end.
Proof. unfold grouping. rewrite get_fold_push_group. reflexivity. Qed.

Lemma NoDup_keys_grouping (rows : list Row) : NoDup (keys (grouping key rows)).
Proof.
  unfold grouping.
  assert (H : forall o : object (list Row),
             NoDup (keys o) ->
             NoDup (keys (fold_left
                            (fun groups row => push_group (key row) row groups)
                            rows o))).
  { induction rows as [|row rows IH]; intros o Hn; cbn [fold_left];
      [exact Hn | apply IH, keys_push_group_NoDup, Hn]. }
  apply H. constructor.
Qed.

(** The members of a group: the rows with its key, in their order, and
    at least one. *)
Lemma In_grouping (rows : list Row) (k : string) (members : list Row) :
  In (k, members) (grouping key rows) ->
  members = labelled key k rows /\ members <> [].
Proof.
  intros Hin. apply In_get in Hin; [|apply NoDup_keys_grouping].
  rewrite get_grouping in Hin.
  destruct (labelled key k rows) as [|r l]; [discriminate|].
  injection Hin as <-. split; [reflexivity | discriminate].
Qed.

Lemma key_in_grouping (rows : list Row) (row : Row) :
  In row rows -> In (key row) (keys (grouping key rows)).
Proof.
  intros Hin. apply get_In_keys. rewrite get_grouping.
  assert (H : In row (labelled key (key row) rows)).
  { unfold labelled. apply filter_In. split; [exact Hin | apply String.eqb_refl]. }
  destruct (labelled key (key row) rows); [destruct H | discriminate].
Qed.

Lemma members_total_replace (o : object (list Row)) (k : string)
  (m v : list Row) :
  get k o = Some m ->
  (members_total (replace k v o) + List.length m
   = members_total o + List.length v)%nat.
Proof.
  unfold members_total. induction o as [|[k1 v1] o IH]; simpl; [discriminate|].
  destruct (String.eqb k1 k); simpl.
  - intros [= ->]. lia.
  - intros H. specialize (IH H). lia.
Qed.

Lemma members_total_insert_index (o : object (list Row)) (i : Z) (k : string)
  (v : list Row) :
  members_total (insert_index i k v o) = (List.length v + members_total o)%nat.
Proof.
  unfold members_total. induction o as [|[k1 v1] o IH]; simpl; [reflexivity|].
  destruct (array_index k1) as [j|]; [destruct (Z.ltb j i)|]; simpl;
    rewrite ?IH; lia.
Qed.

Lemma members_total_push_group (o : object (list Row)) (k : string) (row : Row) :
  members_total (push_group k row o) = S (members_total o).
Proof.
  unfold push_group. destruct (get k o) as [m|] eqn:Hg; unfold set, has;
    rewrite Hg.
  - pose proof (@members_total_replace o k m (m ++ [row]) Hg) as H.
    rewrite length_app in H. simpl in H. lia.
  - destruct (array_index k).
    + rewrite members_total_insert_index. reflexivity.
    + unfold members_total. rewrite map_app, list_sum_app. simpl. lia.
Qed.

Lemma members_total_grouping (rows : list Row) :
  members_total (grouping key rows) = List.length rows.
Proof.
  unfold grouping.
  assert (H : forall o,
             members_total
               (fold_left (fun groups row => push_group (key row) row groups)
                          rows o)
             = (List.length rows + members_total o)%nat).
  { induction rows as [|row rows IH]; intros o; cbn [fold_left];
      [reflexivity|].
    rewrite IH, members_total_push_group. simpl. lia. }
  rewrite H. unfold members_total. simpl. lia.
Qed.

End Grouping.

End TallyFacts.

(* ================================================================== *)
(** * Conditions, filters and counts *)
(* ================================================================== *)

Module SelectionFacts.
Import JS Types ExcelProcessor QueryProcessor Notions.
Import ObjectFacts HistogramFacts FilterFacts RegexFacts.
Local Open Scope string_scope.

Lemma filter_filter (A : Type) (p q : A -> bool) (l : list A) :
  filter q (filter p l) = filter (fun x => p x && q x) l.
Proof.
  induction l as [|a l IH]; simpl; [reflexivity|].
  destruct (p a); simpl; [destruct (q a); now rewrite IH | exact IH].
Qed.

(** X1. Filtering by two condition lists at once is filtering by the
    first and then by the second; the order of the two lists does not
    matter and repeating a list changes nothing; each further list can
    only remove rows. *)
Theorem applyFilters_composes :
  forall (ds : DataSet) (first second : list Condition),
    result_of (applyFilters (first ++ second)) ds
    = filter (fun row => forallb (holds row) second)
             (result_of (applyFilters first) ds)
    /\ result_of (applyFilters (first ++ second)) ds
       = result_of (applyFilters (second ++ first)) ds
    /\ result_of (applyFilters (first ++ first)) ds
       = result_of (applyFilters first) ds
    /\ (List.length (result_of (applyFilters (first ++ second)) ds)
        <= List.length (result_of (applyFilters first) ds)
        <= List.length (rows ds))%nat
    /\ (forall row, In row (result_of (applyFilters (first ++ second)) ds) ->
                    In row (result_of (applyFilters first) ds)).
Proof.
  intros ds first second. rewrite !applyFilters_result.
  assert (Hcomp : filter (fun row => forallb (holds row) (first ++ second))
                         (rows ds)
                  = filter (fun row => forallb (holds row) second)
                           (filter (fun row => forallb (holds row) first)
                                   (rows ds))).
  { rewrite filter_filter. apply filter_ext. intros row. apply forallb_app. }
  split; [exact Hcomp|]. split; [|split; [|split]].
  - apply filter_ext. intros row. rewrite !forallb_app. apply andb_comm.
  - apply filter_ext. intros row. rewrite forallb_app. apply andb_diag.
  - rewrite Hcomp. split; apply IngestionFacts.length_filter_le.
  - intros row. rewrite Hcomp, filter_In. tauto.
Qed.

(** ** [handleCountQuery] *)

Lemma handleCountQuery_result (query : string) (ds : DataSet) :
  result_of (handleCountQuery query) ds
  = let conditions := result_of (extractConditions query) ds in
    let totalRows := List.length (rows ds) in
    if (0 <? List.length conditions)%nat
    then text_result
           ("Found "
              ++ digits_of_nat
                   (List.length (result_of (applyFilters conditions) ds))
              ++ " rows matching your criteria out of "
              ++ digits_of_nat totalRows ++ " total rows.")
    else text_result ("Total number of records: " ++ digits_of_nat totalRows).
Proof.
  cbv beta iota zeta
      delta [handleCountQuery result_of bind ret this_dataset applyFilters
             extractConditions fst].
  match goal with |- context [if ?b then _ else _] => destruct b end;
    reflexivity.
Qed.

(** X2. A count query never reports more matching rows than the dataset
    has; when no condition is extracted from the question it answers
    with the number of rows alone, otherwise with the number of rows
    that pass the extracted conditions next to the number of rows. *)
Theorem count_query_reports :
  forall (query : string) (ds : DataSet),
    let conditions := result_of (extractConditions query) ds in
    let matching := result_of (applyFilters conditions) ds in
    let total := List.length (rows ds) in
    (List.length matching <= total)%nat
    /\ match conditions with
       | [] =>
           result_of (handleCountQuery query) ds
           = text_result ("Total number of records: " ++ digits_of_nat total)
       | _ :: _ =>
           result_of (handleCountQuery query) ds
           = text_result
               ("Found " ++ digits_of_nat (List.length matching)
                  ++ " rows matching your criteria out of "
                  ++ digits_of_nat total ++ " total rows.")
       end.
Proof.
  intros query ds conditions matching total. split.
  - unfold matching. rewrite applyFilters_result.
    apply IngestionFacts.length_filter_le.
  - rewrite handleCountQuery_result. fold conditions. cbv zeta.
    fold matching total. destruct conditions; reflexivity.
Qed.

(** ** What [extractConditions] returns *)

Lemma condition_of_match_exact (ds : DataSet) (caps : captures)
  (c : Condition) :
  In c (condition_of_match ds caps) ->
  exists token col,
    group 1 caps = Some token
    /\ find (fun col => includes (toLowerCase (name col)) token
                        || includes token (toLowerCase (name col)))
            (columns ds) = Some col
    /\ column c = name col
    /\ operator c = match group 2 caps with
                    | Some (String a op) => String a op
                    | _ => "="
                    end
    /\ value c = (let captured := match group 3 caps with
                                  | Some v => VStr v
                                  | None => VUndefined
                                  end in
                  match type col with
                  | TNumber => VNum (Number captured)
                  | _ => captured
                  end).
Proof.
  unfold condition_of_match.
  destruct (group 1 caps) as [token|]; [|intros []].
  destruct (find _ _) as [col|] eqn:Hf; [|intros []].
  intros [<- | []]. exists token, col. cbn [column operator value].
  split; [reflexivity|]. split; [exact Hf|]. split; [reflexivity|].
  split; [reflexivity|].
  unfold is_number_column. destruct (type col); reflexivity.
Qed.

(** X3. Every extracted condition comes from a match of one of the
    three patterns in the lower-cased question.  Its column is the name
    of the first column of the dataset whose lower-cased name contains
    the first captured word or is contained in it; its operator is the
    second capture, or [=] when that is absent or empty; its value is
    the third capture, [undefined] when there is none, converted with
    [Number] when the column is typed number. *)
Theorem extracted_conditions_name_columns :
  forall (query : string) (ds : DataSet) (c : Condition),
    In c (result_of (extractConditions query) ds) ->
    exists pattern caps token col,
      In pattern patterns
      /\ In caps (exec_all pattern (toLowerCase query) 0)
      /\ group 1 caps = Some token
      /\ find (fun col => includes (toLowerCase (name col)) token
                          || includes token (toLowerCase (name col)))
              (columns ds) = Some col
      /\ In col (columns ds)
      /\ column c = name col
      /\ operator c = match group 2 caps with
                      | Some (String a op) => String a op
                      | _ => "="
                      end
      /\ operator c <> ""
      /\ value c = (let captured := match group 3 caps with
                                    | Some v => VStr v
                                    | None => VUndefined
                                    end in
                    match type col with
                    | TNumber => VNum (Number captured)
                    | _ => captured
                    end).
Proof.
  intros query ds c Hin.
  change (result_of (extractConditions query) ds)
    with (flat_map (fun pattern =>
                      flat_map (condition_of_match ds)
                               (exec_all pattern (toLowerCase query) 0))
                   patterns) in Hin.
  apply in_flat_map in Hin. destruct Hin as (pattern & Hpat & Hin).
  apply in_flat_map in Hin. destruct Hin as (caps & Hcaps & Hin).
  apply condition_of_match_exact in Hin.
  destruct Hin as (token & col & Htok & Hfind & Hname & Hop & Hval).
  exists pattern, caps, token, col.
  split; [exact Hpat|]. split; [exact Hcaps|]. split; [exact Htok|].
  split; [exact Hfind|].
  split; [apply find_some in Hfind; tauto|].
  split; [exact Hname|]. split; [exact Hop|].
  split; [|exact Hval].
  rewrite Hop. destruct (group 2 caps) as [[|a op]|]; discriminate.
Qed.

Lemma extracted_conditions_name_columns_witness :
  exists col,
    In col (columns Samples.people)
    /\ name col = "age" /\ type col = TNumber.
Proof.
  destruct (@extracted_conditions_name_columns "people with age > 30"
              Samples.people
              {| column := "age"; operator := ">"; value := VNum (of_Z 30) |})
    as (pattern & caps & token & col & _ & _ & _ & _ & Hin & Hname & _ & _ & _).
  - vm_compute. left. reflexivity.
  - exists col. split; [exact Hin|]. cbn [column] in Hname.
    destruct Hin as [<-|[<-|[]]]; [discriminate Hname|].
    split; reflexivity.
Defined.

(** ** The loop of [extractConditions] ends *)

Lemma match_at_within (r : regex) (s : string) (caps : captures) (len : nat) :
  match_at r s = Some (caps, len) -> (len <= String.length s)%nat.
Proof.
  unfold match_at. intros H. apply rmatch_covers in H.
  destruct H as (s1 & c1 & [= _ <-] & _). lia.
Qed.

Lemma exec_all_bound (r : regex) (n : nat) :
  (1 <= n)%nat ->
  (forall s caps len, match_at r s = Some (caps, len) -> (n <= len)%nat) ->
  forall s skip,
    (n * List.length (exec_all r s skip) <= String.length s - skip)%nat.
Proof.
  intros Hn Hmin. induction s as [|a s IH]; intros skip; cbn [exec_all].
  - simpl. lia.
  - destruct skip as [|skip].
    + destruct (match_at r (String a s)) as [[caps len]|] eqn:Hm.
      * pose proof (Hmin _ _ _ Hm) as H1.
        pose proof (match_at_within _ _ Hm) as H2.
        specialize (IH (len - 1)%nat). cbn [List.length String.length] in *.
        lia.
      * specialize (IH 0%nat). cbn [String.length]. lia.
    + specialize (IH skip). cbn [String.length]. lia.
Qed.

Lemma length_toLowerCase (s : string) :
  String.length (toLowerCase s) = String.length s.
Proof. induction s as [|a s IH]; simpl; [reflexivity | now rewrite IH]. Qed.

Lemma length_condition_of_match (ds : DataSet) (caps : captures) :
  (List.length (condition_of_match ds caps) <= 1)%nat.
Proof.
  unfold condition_of_match. destruct (group 1 caps); [|simpl; lia].
  destruct (find _ _); simpl; lia.
Qed.

Lemma length_flat_map_le (A B : Type) (f : A -> list B) (l : list A) :
  (forall a, List.length (f a) <= 1)%nat ->
  (List.length (flat_map f l) <= List.length l)%nat.
Proof.
  intros Hf. induction l as [|a l IH]; simpl; [lia|].
  rewrite length_app. specialize (Hf a). lia.
Qed.

(** X4. The matching loop of [extractConditions] ends: every match of a
    pattern covers at least three characters and no more than the text
    has, so that a pattern matches at most a third of the question's
    length many times, and the conditions are no more than the
    question has characters. *)
Theorem extracted_conditions_bounded :
  forall (query : string) (ds : DataSet),
    (forall pattern s caps len,
        In pattern patterns -> match_at pattern s = Some (caps, len) ->
        3 <= len <= String.length s)%nat
    /\ (forall pattern,
          In pattern patterns ->
          3 * List.length (exec_all pattern (toLowerCase query) 0)
          <= String.length query)%nat
    /\ (List.length (result_of (extractConditions query) ds)
        <= String.length query)%nat.
Proof.
  intros query ds.
  assert (Hmatch : forall pattern s caps len,
             In pattern patterns -> match_at pattern s = Some (caps, len) ->
             (3 <= len <= String.length s)%nat).
  { intros pattern s caps len Hin Hm. split;
      [eapply patterns_consume | eapply match_at_within]; eassumption. }
  assert (Hloop : forall pattern,
             In pattern patterns ->
             (3 * List.length (exec_all pattern (toLowerCase query) 0)
              <= String.length query)%nat).
  { intros pattern Hin.
    pose proof (@exec_all_bound pattern 3 ltac:(lia)
                  (fun s caps len Hm => proj1 (Hmatch pattern s caps len Hin Hm))
                  (toLowerCase query) 0%nat) as H.
    rewrite length_toLowerCase in H. lia. }
  split; [exact Hmatch|]. split; [exact Hloop|].
  change (result_of (extractConditions query) ds)
    with (flat_map (fun pattern =>
                      flat_map (condition_of_match ds)
                               (exec_all pattern (toLowerCase query) 0))
                   patterns).
  unfold patterns. cbn [flat_map]. rewrite !length_app. cbn [List.length].
  pose proof (Hloop pattern_comparison (or_introl eq_refl)) as H1.
  pose proof (Hloop pattern_is (or_intror (or_introl eq_refl))) as H2.
  pose proof (Hloop pattern_equals
                (or_intror (or_intror (or_introl eq_refl)))) as H3.
  pose proof (length_flat_map_le (condition_of_match ds)
                (exec_all pattern_comparison (toLowerCase query) 0)
                (length_condition_of_match ds)) as L1.
  pose proof (length_flat_map_le (condition_of_match ds)
                (exec_all pattern_is (toLowerCase query) 0)
                (length_condition_of_match ds)) as L2.
  pose proof (length_flat_map_le (condition_of_match ds)
                (exec_all pattern_equals (toLowerCase query) 0)
                (length_condition_of_match ds)) as L3.
  lia.
Qed.

End SelectionFacts.

(* ================================================================== *)
(** * Charts *)
(* ================================================================== *)

Module ChartFacts.
Import JS Types ExcelProcessor QueryProcessor Notions Tallies.
Import ObjectFacts HistogramFacts TallyFacts.
Local Open Scope string_scope.

(** X5. The distribution chart of a column, none of whose labels
    [String(value || 'Unknown')] is a name inherited from
    [Object.prototype], has one point per distinct label; a point
    counts the values that carry its label, at least one; every value
    is counted under its label, the falsy ones under "Unknown"; the
    counts add up to the number of values.  A name that is no column
    gives the text "Column ... not found.". *)
Theorem distribution_chart_counts :
  forall (ds : DataSet) (columnName : string) (chartType : ChartType),
    let r := result_of (createDistributionChart columnName chartType) ds in
    match find (fun col => String.eqb (name col) columnName) (columns ds) with
    | None => r = text_result ("Column " ++ columnName ++ " not found.")
    | Some column =>
        (forall v, In v (values column) -> inherited (category v) = false) ->
        exists ch,
          r = chart_result ("Distribution of " ++ columnName ++ ":") ch
          /\ chart_type ch = chartType
          /\ NoDup (map point_name (data ch))
          /\ (forall p, In p (data ch) ->
                point_count p
                = List.length (labelled category (point_name p) (values column))
                /\ (1 <= point_count p)%nat)
          /\ (forall v, In v (values column) ->
                In (category v) (map point_name (data ch)))
          /\ (forall v, In v (values column) -> truthy v = false ->
                In "Unknown" (map point_name (data ch)))
          /\ list_sum (map point_count (data ch)) = List.length (values column)
    end.
Proof.
  intros ds columnName chartType r. subst r.
  cbv beta iota zeta
      delta [createDistributionChart result_of bind ret this_dataset fst].
  destruct (find _ _) as [column|]; [|reflexivity].
  intros _. eexists. split; [reflexivity|]. cbn [chart_type data].
  change (fold_left _ (values column) [])
    with (tally category (values column)).
  destruct (count_points_tally category (values column))
    as (Hnd & Hp & Hall & Hsum).
  split; [reflexivity|]. split; [exact Hnd|]. split; [|split; [|split]].
  - intros p Hin. destruct (Hp p Hin) as (H1 & H2 & _). now split.
  - exact Hall.
  - intros v Hin Hf. specialize (Hall v Hin).
    assert (Hc : category v = "Unknown")
      by (unfold category, or_else; now rewrite Hf).
    now rewrite Hc in Hall.
  - exact Hsum.
Qed.

(** X5 on the regions sheet. *)
Lemma distribution_chart_counts_witness :
  exists ch,
    result_of (createDistributionChart "region" pie) Samples.regions
    = chart_result "Distribution of region:" ch
    /\ list_sum (map point_count (data ch)) = 3%nat.
Proof.
  pose proof (@distribution_chart_counts Samples.regions "region" pie) as H.
  cbv zeta in H.
  change (find (fun col => String.eqb (name col) "region")
               (columns Samples.regions))
    with (Some {| name := "region"; type := TString;
                  values := [VStr "east"; VStr "east"; VStr "west"] |}) in H.
  cbv beta iota in H.
  destruct H as (ch & Hr & _ & _ & _ & _ & _ & Hsum).
  - intros v [<-|[<-|[<-|[]]]]; reflexivity.
  - exists ch. split; [exact Hr | exact Hsum].
Defined.

(** X6. The numeric chart of a column has one point per distinct bin
    label; a point counts the coercible values of its bin, at least
    one; the bin index of a value is never above 9; the counts add up
    to the number of coercible values; a column without coercible
    values gives a chart without points. *)
Theorem numeric_chart_counts :
  forall (ds : DataSet) (columnName : string) (chartType : ChartType),
    let r := result_of (createNumericChart columnName chartType) ds in
    match find (fun col => String.eqb (name col) columnName) (columns ds) with
    | None => r = text_result ("Column " ++ columnName ++ " not found.")
    | Some column =>
        let values := coercible (values column) in
        let min := min_list values in
        let binSize := div (sub (max_list values) min) binCount in
        exists ch,
          r = chart_result ("Distribution of " ++ columnName ++ ":") ch
          /\ chart_type ch = chartType
          /\ NoDup (map point_name (data ch))
          /\ (forall p, In p (data ch) ->
                point_count p
                = List.length
                    (labelled (binLabel min binSize) (point_name p) values)
                /\ (1 <= point_count p)%nat)
          /\ (forall v, In v values ->
                In (binLabel min binSize v) (map point_name (data ch))
                /\ gt (binIndex min binSize v) (of_Z 9) = false)
          /\ list_sum (map point_count (data ch)) = List.length values
          /\ (values = [] -> data ch = [])
    end.
Proof.
  intros ds columnName chartType r. subst r.
  cbv beta iota zeta
      delta [createNumericChart result_of bind ret this_dataset fst].
  destruct (find _ _) as [column|]; [|reflexivity].
  eexists. split; [reflexivity|]. cbn [chart_type data].
  set (values := coercible (Types.values column)).
  change (histogram values)
    with (tally (binLabel (min_list values)
                          (div (sub (max_list values) (min_list values))
                               binCount))
                values).
  destruct (count_points_tally
              (binLabel (min_list values)
                        (div (sub (max_list values) (min_list values)) binCount))
              values)
    as (Hnd & Hp & Hall & Hsum).
  split; [reflexivity|]. split; [exact Hnd|]. split; [|split; [|split]].
  - intros p Hin. destruct (Hp p Hin) as (H1 & H2 & _). now split.
  - intros v Hin. split; [now apply Hall | apply binIndex_not_above_9].
  - exact Hsum.
  - intros ->. reflexivity.
Qed.

(** X7. A grouped analysis by a column whose name, like every key
    [String(row[groupByColumn] || 'Unknown')] of a row, is not a name
    inherited from [Object.prototype], splits the rows by that key: one
    bar-chart point per distinct key, each counting its rows, at least
    one, and the counts add up to the number of rows.  With another
    number column the point's value is the mean of the group's
    coercible cells of the first such column, 0 when none coerces;
    without one it is the count. *)
Theorem grouped_analysis_partitions_rows :
  forall (ds : DataSet) (groupByColumn : string),
    let r := result_of (createGroupedAnalysis groupByColumn) ds in
    match find (fun col => String.eqb (name col) groupByColumn) (columns ds) with
    | None => r = text_result ("Column " ++ groupByColumn ++ " not found.")
    | Some _ =>
        inherited groupByColumn = false ->
        (forall row, In row (rows ds) ->
                     inherited (group_key groupByColumn row) = false) ->
        exists ch,
          result_type r = chart /\ result_chart r = Some ch
          /\ chart_type ch = bar
          /\ NoDup (map point_name (data ch))
          /\ (forall p, In p (data ch) ->
                let members :=
                  labelled (group_key groupByColumn) (point_name p) (rows ds) in
                point_count p = List.length members
                /\ (1 <= point_count p)%nat
                /\ match find (fun col =>
                                 is_number_column col
                                 && negb (String.eqb (name col) groupByColumn))
                              (columns ds) with
                   | Some numericColumn =>
                       point_average p
                       = Some (group_average (name numericColumn) members)
                       /\ point_value p
                          = group_average (name numericColumn) members
                   | None =>
                       point_average p = None
                       /\ point_value p = of_nat (point_count p)
                   end)
          /\ (forall row, In row (rows ds) ->
                In (group_key groupByColumn row) (map point_name (data ch)))
          /\ list_sum (map point_count (data ch)) = List.length (rows ds)
    end.
Proof.
  intros ds groupByColumn r. subst r.
  cbv beta iota zeta
      delta [createGroupedAnalysis result_of bind ret this_dataset fst].
  destruct (find (fun col => String.eqb (name col) groupByColumn) (columns ds))
    as [column|]; [|reflexivity].
  intros _ _.
  change (fold_left _ (rows ds) [])
    with (grouping (group_key groupByColumn) (rows ds)).
  set (groups := grouping (group_key groupByColumn) (rows ds)).
  assert (Hmem : forall k members,
             In (k, members) groups ->
             members = labelled (group_key groupByColumn) k (rows ds)
             /\ members <> [])
    by (intros k members; apply In_grouping).
  assert (Hkeys : forall row, In row (rows ds) ->
                  In (group_key groupByColumn row) (keys groups))
    by (intros row; apply key_in_grouping).
  assert (Hnd : NoDup (keys groups)) by apply NoDup_keys_grouping.
  assert (Hsum : members_total groups = List.length (rows ds))
    by apply members_total_grouping.
  clearbody groups.
  destruct (find (fun col => is_number_column col && _) (columns ds))
    as [numericColumn|].
  - eexists. split; [reflexivity|]. split; [reflexivity|].
    cbn [chart_type data]. split; [reflexivity|].
    rewrite !map_map.
    split; [|split; [|split]].
    + erewrite map_ext; [exact Hnd | intros [k m]; reflexivity].
    + intros p Hin. apply in_map_iff in Hin.
      destruct Hin as ([k members] & <- & Hin).
      cbn [point_name point_count point_average point_value].
      destruct (Hmem k members Hin) as [-> Hne]. repeat split.
      destruct (labelled _ k (rows ds)); [contradiction | simpl; lia].
    + intros row Hin. erewrite map_ext; [apply Hkeys, Hin|].
      intros [k m]; reflexivity.
    + rewrite <- Hsum. unfold members_total. f_equal.
      apply map_ext. intros [k m]; reflexivity.
  - eexists. split; [reflexivity|]. split; [reflexivity|].
    cbn [chart_type data]. split; [reflexivity|].
    rewrite !map_map.
    split; [|split; [|split]].
    + erewrite map_ext; [exact Hnd | intros [k m]; reflexivity].
    + intros p Hin. apply in_map_iff in Hin.
      destruct Hin as ([k members] & <- & Hin).
      cbn [point_name point_count point_average point_value].
      destruct (Hmem k members Hin) as [-> Hne]. repeat split.
      destruct (labelled _ k (rows ds)); [contradiction | simpl; lia].
    + intros row Hin. erewrite map_ext; [apply Hkeys, Hin|].
      intros [k m]; reflexivity.
    + rewrite <- Hsum. unfold members_total. f_equal.
      apply map_ext. intros [k m]; reflexivity.
Qed.

(** X7 on the payroll sheet. *)
Lemma grouped_analysis_witness :
  exists ch,
    result_chart (result_of (createGroupedAnalysis "dept") Samples.payroll)
    = Some ch
    /\ list_sum (map point_count (data ch)) = 3%nat.
Proof.
  pose proof (@grouped_analysis_partitions_rows Samples.payroll "dept") as H.
  cbv zeta in H.
  change (find (fun col => String.eqb (name col) "dept")
               (columns Samples.payroll))
    with (Some {| name := "dept"; type := TString;
                  values := [VStr "ops"; VStr "ops"; VStr "dev"] |}) in H.
  cbv beta iota in H.
  destruct H as (ch & _ & Hr & _ & _ & _ & _ & Hsum).
  - reflexivity.
  - intros row [<-|[<-|[<-|[]]]]; reflexivity.
  - exists ch. split; [exact Hr | exact Hsum].
Defined.

(** ** Chart queries *)

Lemma createDistributionChart_charts (ds : DataSet) (col : DataColumn)
  (chartType : ChartType) :
  In col (columns ds) ->
  exists ch,
    result_chart (result_of (createDistributionChart (name col) chartType) ds)
    = Some ch
    /\ chart_type ch = chartType
    /\ chart_title ch = name col ++ " Distribution".
Proof.
  intros Hin.
  cbv beta iota zeta
      delta [createDistributionChart result_of bind ret this_dataset fst].
  destruct (find _ _) as [c|] eqn:Hf.
  - eexists. cbn [result_chart chart_result]. split; [reflexivity|].
    split; reflexivity.
  - exfalso. apply (find_none _ _ Hf) in Hin.
    now rewrite String.eqb_refl in Hin.
Qed.

Lemma createNumericChart_charts (ds : DataSet) (col : DataColumn)
  (chartType : ChartType) :
  In col (columns ds) ->
  exists ch,
    result_chart (result_of (createNumericChart (name col) chartType) ds)
    = Some ch
    /\ chart_type ch = chartType
    /\ chart_title ch = name col ++ " Distribution".
Proof.
  intros Hin.
  cbv beta iota zeta
      delta [createNumericChart result_of bind ret this_dataset fst].
  destruct (find _ _) as [c|] eqn:Hf.
  - eexists. cbn [result_chart chart_result]. split; [reflexivity|].
    split; reflexivity.
  - exfalso. apply (find_none _ _ Hf) in Hin.
    now rewrite String.eqb_refl in Hin.
Qed.

Lemma handleChartQuery_result (query : string) (ds : DataSet) :
  result_of (handleChartQuery query) ds
  = let lowerQuery := toLowerCase query in
    let chartType :=
      if includes lowerQuery "line" then line
      else if includes lowerQuery "pie" then pie
      else if includes lowerQuery "area" then area
      else bar in
    let unable :=
      text_result
        "Unable to determine what to chart. Please specify a column name." in
    match find (mentions query) (columns ds) with
    | None =>
        match find is_string_column (columns ds) with
        | Some categoricalCol =>
            result_of (createDistributionChart (name categoricalCol) chartType)
                      ds
        | None => unable
        end
    | Some xColumn =>
        if is_string_column xColumn then
          result_of (createDistributionChart (name xColumn) chartType) ds
        else if is_number_column xColumn then
          result_of (createNumericChart (name xColumn) chartType) ds
        else unable
    end.
Proof.
  cbv beta iota zeta
      delta [handleChartQuery result_of bind ret this_dataset fst].
  destruct (find (mentions query) (columns ds)) as [x|].
  - destruct (is_string_column x); [reflexivity|].
    destruct (is_number_column x); reflexivity.
  - destruct (find is_string_column (columns ds)); reflexivity.
Qed.

(** X21. A chart query takes its chart type from the words line, pie and
    area, in this order, and bar otherwise; it charts the first column
    the question mentions, or the first string column when none is
    mentioned, and only columns typed string or number: a mentioned
    boolean or date column gives the text "Unable to determine what to
    chart", as does a dataset without string column when no column is
    mentioned. *)
Theorem chart_query_charts_text_or_number_columns :
  forall (query : string) (ds : DataSet),
    let r := result_of (handleChartQuery query) ds in
    let lowerQuery := toLowerCase query in
    let unable :=
      text_result
        "Unable to determine what to chart. Please specify a column name." in
    (forall ch,
        result_chart r = Some ch ->
        chart_type ch
        = (if includes lowerQuery "line" then line
           else if includes lowerQuery "pie" then pie
           else if includes lowerQuery "area" then area
           else bar)
        /\ exists col,
             In col (columns ds)
             /\ (type col = TString \/ type col = TNumber)
             /\ chart_title ch = name col ++ " Distribution"
             /\ (forall mentioned,
                   find (mentions query) (columns ds) = Some mentioned ->
                   col = mentioned))
    /\ (forall mentioned,
          find (mentions query) (columns ds) = Some mentioned ->
          type mentioned = TBoolean \/ type mentioned = TDate ->
          r = unable)
    /\ (find (mentions query) (columns ds) = None ->
        (forall col, In col (columns ds) -> type col <> TString) ->
        r = unable).
Proof.
  intros query ds r lowerQuery unable. subst r.
  rewrite handleChartQuery_result. cbv zeta. fold lowerQuery. fold unable.
  set (chartType := if includes lowerQuery "line" then line
                    else if includes lowerQuery "pie" then pie
                    else if includes lowerQuery "area" then area
                    else bar).
  assert (Hstr : forall c, is_string_column c = true <-> type c = TString).
  { intros c. unfold is_string_column. destruct (type c); simpl;
      split; intros H; try reflexivity; discriminate H. }
  assert (Hnum : forall c, is_number_column c = true <-> type c = TNumber).
  { intros c. unfold is_number_column. destruct (type c); simpl;
      split; intros H; try reflexivity; discriminate H. }
  destruct (find (mentions query) (columns ds)) as [x|] eqn:Hx.
  - apply find_some in Hx. destruct Hx as [Hin _].
    split; [|split].
    + intros ch.
      destruct (is_string_column x) eqn:Hs;
        [|destruct (is_number_column x) eqn:Hn; [|discriminate]].
      * destruct (createDistributionChart_charts ds x chartType Hin)
          as (ch' & -> & Ht & Htitle).
        intros [= <-]. split; [exact Ht|]. exists x.
        split; [exact Hin|]. split; [left; now apply Hstr|].
        split; [exact Htitle|]. now intros m [= <-].
      * destruct (createNumericChart_charts ds x chartType Hin)
          as (ch' & -> & Ht & Htitle).
        intros [= <-]. split; [exact Ht|]. exists x.
        split; [exact Hin|]. split; [right; now apply Hnum|].
        split; [exact Htitle|]. now intros m [= <-].
    + intros m [= <-] Htype.
      destruct (is_string_column x) eqn:Hs.
      { apply Hstr in Hs. destruct Htype as [H|H]; rewrite Hs in H;
          discriminate H. }
      destruct (is_number_column x) eqn:Hn; [|reflexivity].
      apply Hnum in Hn. destruct Htype as [H|H]; rewrite Hn in H;
        discriminate H.
    + discriminate.
  - split; [|split].
    + intros ch.
      destruct (find is_string_column (columns ds)) as [c|] eqn:Hc;
        [|discriminate].
      apply find_some in Hc. destruct Hc as [Hin Hs].
      destruct (createDistributionChart_charts ds c chartType Hin)
        as (ch' & -> & Ht & Htitle).
      intros [= <-]. split; [exact Ht|]. exists c.
      split; [exact Hin|]. split; [left; now apply Hstr|].
      split; [exact Htitle|]. discriminate.
    + discriminate.
    + intros _ Hnone.
      destruct (find is_string_column (columns ds)) as [c|] eqn:Hc;
        [|reflexivity].
      apply find_some in Hc. destruct Hc as [Hin Hs].
      apply Hstr in Hs. now destruct (Hnone c Hin).
Qed.

End ChartFacts.

(* ================================================================== *)
(** * Comparison queries *)
(* ================================================================== *)

Module ComparisonFacts.
Import JS Types ExcelProcessor QueryProcessor Notions.
Import JSFacts IntentClassifier IntentFacts.
Local Open Scope string_scope.

Lemma indexOf_absent (l : list string) (x : string) :
  ~ In x l -> indexOf l x = None.
Proof.
  induction l as [|y l IH]; simpl; intros Hnot; [reflexivity|].
  destruct (String.eqb_spec y x) as [->|Hne].
  - exfalso. apply Hnot. now left.
  - rewrite IH; [reflexivity|]. intros H. apply Hnot. now right.
Qed.

Lemma handleComparisonQuery_result (query : string) (ds : DataSet) :
  result_of (handleComparisonQuery query) ds
  = let words := split " " (toLowerCase query) in
    match indexOf words "by" with
    | None =>
        text_result
          "Please specify what you want to compare and by which column."
    | Some byIndex =>
        match find (fun col =>
                      existsb (fun word => includes (toLowerCase (name col)) word)
                              (skipn (byIndex + 1) words))
                   (columns ds) with
        | None => text_result "Could not identify the column to group by."
        | Some groupByColumn =>
            result_of (createGroupedAnalysis (name groupByColumn)) ds
        end
    end.
Proof.
  cbv beta iota zeta
      delta [handleComparisonQuery result_of bind ret this_dataset fst].
  destruct (indexOf _ _); [|reflexivity].
  destruct (find _ _); reflexivity.
Qed.

(** X19. A question is routed to the comparison handler by the letters
    "by" anywhere in it, but the handler looks for the word "by"
    between spaces: without that word the answer is the request to
    specify the comparison. *)
Theorem comparison_needs_the_word_by :
  forall (query : string) (ds : DataSet),
    classify (toLowerCase query) = Comparison ->
    ~ In "by" (split " " (toLowerCase query)) ->
    result_of (processQuery query) ds
    = text_result
        "Please specify what you want to compare and by which column.".
Proof.
  intros query ds Hc Hnot. rewrite processQuery_dispatch, Hc. cbn [handler].
  rewrite handleComparisonQuery_result. cbv zeta.
  now rewrite (@indexOf_absent _ _ Hnot).
Qed.

Lemma comparison_needs_the_word_by_witness :
  result_of (processQuery "Totals on standby") Samples.payroll
  = text_result
      "Please specify what you want to compare and by which column.".
Proof.
  apply comparison_needs_the_word_by.
  - reflexivity.
  - intros [H|[H|[H|[]]]]; discriminate H.
Defined.

(** X20. The words of a comparison question are what single spaces
    separate, and a column is chosen when its name contains a word
    after "by": an empty word (two spaces in a row, or a space at the
    end) is contained in every name, so the first column of the
    dataset is grouped by. *)
Theorem comparison_empty_word_groups_first_column :
  forall (query : string) (ds : DataSet) (byIndex : nat)
         (col : DataColumn) (others : list DataColumn),
    indexOf (split " " (toLowerCase query)) "by" = Some byIndex ->
    In "" (skipn (byIndex + 1) (split " " (toLowerCase query))) ->
    columns ds = col :: others ->
    result_of (handleComparisonQuery query) ds
    = result_of (createGroupedAnalysis (name col)) ds.
Proof.
  intros query ds byIndex col others Hby Hempty Hcols.
  rewrite handleComparisonQuery_result. cbv zeta. rewrite Hby, Hcols.
  cbn [find].
  replace (existsb _ _) with true; [reflexivity|].
  symmetry. apply existsb_exists. exists "". split; [exact Hempty|].
  apply includes_empty.
Qed.

Lemma comparison_empty_word_witness :
  result_of (handleComparisonQuery "salary by  salary") Samples.payroll
  = result_of (createGroupedAnalysis "dept") Samples.payroll.
Proof.
  apply (@comparison_empty_word_groups_first_column
           "salary by  salary" Samples.payroll 1%nat
           {| name := "dept"; type := TString;
              values := [VStr "ops"; VStr "ops"; VStr "dev"] |}
           [{| name := "salary"; type := TNumber;
               values := [Samples.num 100; Samples.num 300;
                          Samples.num 250] |}]).
  - reflexivity.
  - simpl. now left.
  - reflexivity.
Defined.

End ComparisonFacts.

(* ================================================================== *)
(** * Column types of an ingested sheet *)
(* ================================================================== *)

Module ColumnTypeFacts.
Import JS Types ExcelProcessor QueryProcessor Notions.
Import ObjectFacts IngestionFacts TypeInferenceFacts.
Local Open Scope string_scope.

(** ** Ingested number columns *)

Lemma inferType_number_threshold (Date_parse : any -> number)
  (values : list any) :
  inferType Date_parse values = TNumber ->
  more_than_80_percent isNumericValue values.
Proof.
  unfold inferType.
  destruct (List.length values =? 0)%nat; [intros Hc; discriminate Hc|].
  destruct (above_80_percent _ _) eqn:Hn;
    [intros _; now apply above_80_percent_iff|].
  clear Hn.
  destruct (above_80_percent _ _); [intros Hc; discriminate Hc|].
  destruct (above_80_percent _ _); intros Hc; discriminate Hc.
Qed.

(** X10. A column that ingestion types as number holds more than 80%
    numeric values, no null or undefined value, and at least one value
    that coerces to a number: the averages of ingested number columns
    never divide by zero. *)
Theorem ingested_number_columns_have_numbers :
  forall (Date_parse : any -> number) (fileName : string)
         (jsonData : list (list any)) (ds : DataSet) (col : DataColumn),
    processFile Date_parse fileName jsonData = Resolved ds ->
    In col (columns ds) ->
    type col = TNumber ->
    more_than_80_percent isNumericValue (values col)
    /\ (1 <= List.length (coercible (values col)))%nat
    /\ (forall v, In v (values col) -> not_nullish v = true).
Proof.
  intros Date_parse fileName [|headerCells dataRows] ds col;
    [discriminate|].
  rewrite processFile_resolves. intros [= <-]. cbn [columns].
  intros Hin Htype. apply In_nth_error in Hin. destruct Hin as [i Hi].
  destruct (nth_error_inferColumnTypes _ _ _ _ Hi) as (Hv & Ht & _).
  rewrite Htype in Ht. symmetry in Ht.
  split; [|split].
  - rewrite Hv. now apply (inferType_number_threshold Date_parse).
  - destruct (number_column_has_coercible_value _ _ Ht) as (v & Hvin & Hnan).
    rewrite <- Hv in Hvin.
    assert (Hc : In (Number v) (coercible (values col))).
    { unfold coercible. apply filter_In. split; [now apply in_map|].
      now rewrite Hnan. }
    destruct (coercible (values col)); [destruct Hc | simpl; lia].
  - rewrite Hv. unfold columnValues. intros v Hvin.
    apply filter_In in Hvin. tauto.
Qed.

(** ** Booleans *)

Lemma filter_all (A : Type) (p : A -> bool) (l : list A) :
  (forall x, In x l -> p x = true) -> filter p l = l.
Proof.
  induction l as [|a l IH]; simpl; intros H; [reflexivity|].
  rewrite (H a) by now left. f_equal. apply IH. intros x Hx. apply H. now right.
Qed.

Lemma length_filter_impl (A : Type) (p q : A -> bool) (l : list A) :
  (forall x, In x l -> p x = true -> q x = true) ->
  (List.length (filter p l) <= List.length (filter q l))%nat.
Proof.
  induction l as [|a l IH]; simpl; intros H; [lia|].
  assert (IH' := IH (fun x Hx => H x (or_intror Hx))).
  destruct (p a) eqn:Hp.
  - rewrite (H a (or_introl eq_refl) Hp). simpl. lia.
  - destruct (q a); simpl; lia.
Qed.

Lemma lower_char_digit (a : ascii) (d : ascii) :
  d = "1"%char \/ d = "0"%char -> lower_char a = d -> a = d.
Proof.
  intros [-> | ->];
    destruct a as [[] [] [] [] [] [] [] []]; vm_compute;
    intros H; try discriminate H; reflexivity.
Qed.

Lemma toLowerCase_digit (s : string) (d : ascii) :
  d = "1"%char \/ d = "0"%char ->
  toLowerCase s = String d EmptyString -> s = String d EmptyString.
Proof.
  intros Hd. destruct s as [|a [|b s]]; simpl; try discriminate.
  intros [= H]. now rewrite (lower_char_digit a Hd H).
Qed.

(** A value that passes the boolean test but not the number test is a
    text reading true, false, yes or no. *)
Lemma boolean_only_values (v : any) :
  isBooleanValue v = true -> isNumericValue v = false ->
  exists s, v = VStr s
            /\ In (toLowerCase s) ["true"; "false"; "yes"; "no"].
Proof.
  destruct v as [| |b|n|s]; simpl; try discriminate.
  - destruct b; intros _ H; vm_compute in H; discriminate H.
  - intros Hb Hn. exists s. split; [reflexivity|].
    rewrite !orb_true_iff, !String.eqb_eq in Hb.
    destruct Hb as [H | [H | [H | [H | [H | [H | H]]]]]];
      try (rewrite <- H; simpl; tauto); try discriminate H.
    + apply toLowerCase_digit in H; [|now left].
      subst s. vm_compute in Hn. discriminate Hn.
    + apply toLowerCase_digit in H; [|now right].
      subst s. vm_compute in Hn. discriminate Hn.
Qed.

Lemma isNumericValue_VBool (b : bool) : isNumericValue (VBool b) = true.
Proof. destruct b; vm_compute; reflexivity. Qed.

(** X11. A column of boolean cells only is typed number, not boolean:
    [Number(true)] and [Number(false)] are numbers and the number test
    comes first, although every cell passes the boolean test. *)
Theorem boolean_cells_are_typed_number :
  forall (Date_parse : any -> number) (b : bool) (bs : list bool),
    inferType Date_parse (map VBool (b :: bs)) = TNumber
    /\ forallb isBooleanValue (map VBool (b :: bs)) = true.
Proof.
  intros Date_parse b bs. split.
  - unfold inferType.
    rewrite (@filter_all _ isNumericValue (map VBool (b :: bs))).
    + cbn [map List.length Nat.eqb]. unfold above_80_percent.
      replace (4 * S (List.length (map VBool bs))
               <? 5 * S (List.length (map VBool bs)))%nat with true;
        [reflexivity|].
      symmetry. apply Nat.ltb_lt. lia.
    + intros x Hx. apply in_map_iff in Hx. destruct Hx as (c & <- & _).
      apply isNumericValue_VBool.
  - apply forallb_forall. intros x Hx. apply in_map_iff in Hx.
    destruct Hx as (c & <- & _). reflexivity.
Qed.

(** X12. A column is typed boolean only when more than 80% of its values
    pass the boolean test and not more than 80% pass the number test;
    it then holds one of the words true, false, yes and no as a
    string, in some letter case. *)
Theorem boolean_type_needs_a_word :
  forall (Date_parse : any -> number) (values : list any),
    inferType Date_parse values = TBoolean ->
    more_than_80_percent isBooleanValue values
    /\ ~ more_than_80_percent isNumericValue values
    /\ exists s, In (VStr s) values
                 /\ In (toLowerCase s) ["true"; "false"; "yes"; "no"].
Proof.
  intros Date_parse values. unfold inferType.
  destruct (List.length values =? 0)%nat; [intros Hc; discriminate Hc|].
  destruct (above_80_percent (List.length (filter isNumericValue values)) _)
    eqn:Hn; [intros Hc; discriminate Hc|].
  destruct (above_80_percent (List.length (filter isBooleanValue values)) _)
    eqn:Hb.
  2:{ clear Hn Hb. destruct (above_80_percent _ _); intros Hc; discriminate Hc. }
  intros _. apply above_80_percent_iff in Hb.
  assert (Hnn : ~ more_than_80_percent isNumericValue values).
  { intros Hc. apply above_80_percent_iff in Hc. congruence. }
  split; [exact Hb|]. split; [exact Hnn|].
  destruct (existsb (fun v => isBooleanValue v && negb (isNumericValue v)) values)
    eqn:He.
  - apply existsb_exists in He. destruct He as (v & Hin & Hv).
    apply andb_true_iff in Hv. destruct Hv as [Hvb Hvn].
    apply negb_true_iff in Hvn.
    destruct (boolean_only_values v Hvb Hvn) as (s & -> & Hs).
    now exists s.
  - exfalso. apply Hnn. unfold more_than_80_percent in *.
    assert (Hle : (List.length (filter isBooleanValue values)
                   <= List.length (filter isNumericValue values))%nat).
    { apply length_filter_impl. intros x Hx Hxb.
      destruct (isNumericValue x) eqn:Hxn; [reflexivity|].
      assert (Hc : existsb (fun v => isBooleanValue v && negb (isNumericValue v))
                           values = true).
      { apply existsb_exists. exists x. split; [exact Hx|].
        now rewrite Hxb, Hxn. }
      congruence. }
    lia.
Qed.

Lemma boolean_type_needs_a_word_witness :
  exists s, In (VStr s) [VStr "Yes"; VStr "no"; VStr "YES"]
            /\ In (toLowerCase s) ["true"; "false"; "yes"; "no"].
Proof.
  apply (@boolean_type_needs_a_word (fun _ => NaN)
           [VStr "Yes"; VStr "no"; VStr "YES"]).
  reflexivity.
Defined.

(** ** The shapes [processFile] returns *)

Lemma inferColumnTypes_no_rows (Date_parse : any -> number)
  (headers : list string) :
  inferColumnTypes Date_parse headers []
  = map (fun header => {| name := header; type := TString; values := [] |})
        headers.
Proof.
  unfold inferColumnTypes.
  rewrite <- (map_snd_indexed headers) at 2. rewrite map_map.
  apply map_ext. intros [i h]. reflexivity.
Qed.

Lemma columnValues_all_null (rows : list (list any)) (i : nat) :
  (forall row, In row rows -> not_nullish (array_get row i) = false) ->
  columnValues rows i = [].
Proof.
  unfold columnValues. induction rows as [|row rest IH]; intros Hnull;
    [reflexivity|].
  cbn [map filter]. rewrite (Hnull row (or_introl eq_refl)).
  apply IH. intros r Hr. apply Hnull. now right.
Qed.

(** X13. [processFile] rejects a sheet without rows with "Empty Excel
    file".  For a sheet whose header cells are text: the header row
    alone gives one string column without values per header and no
    row; with data rows the headers are the column names in order,
    there is one row-record per data row and no null or undefined among
    the column values; a column whose cells are all null or missing has
    no values and is typed string. *)
Theorem processFile_shapes :
  forall (Date_parse : any -> number) (fileName : string),
    processFile Date_parse fileName []
    = Rejected "Failed to process Excel file: Empty Excel file"
    /\ (forall headers : list string,
          processFile Date_parse fileName [map VStr headers]
          = Resolved
              {| columns :=
                   map (fun header =>
                          {| name := header; type := TString; values := [] |})
                       headers;
                 rows := [];
                 fileName := fileName |})
    /\ (forall (headers : list string) dataRows,
          exists ds,
            processFile Date_parse fileName (map VStr headers :: dataRows)
            = Resolved ds
            /\ map name (columns ds) = headers
            /\ List.length (rows ds) = List.length dataRows
            /\ Types.fileName ds = fileName
            /\ (forall col v, In col (columns ds) -> In v (values col) ->
                              not_nullish v = true)
            /\ (forall i col,
                  nth_error (columns ds) i = Some col ->
                  (forall row, In row dataRows ->
                               not_nullish (array_get row i) = false) ->
                  values col = [] /\ type col = TString)).
Proof.
  intros Date_parse fileName. split; [reflexivity|]. split.
  - intros headers. rewrite processFile_resolves, as_strings_text.
    now rewrite inferColumnTypes_no_rows.
  - intros headers dataRows. eexists. split; [apply processFile_resolves|].
    rewrite as_strings_text. cbn [columns rows Types.fileName].
    split; [apply names_inferColumnTypes|].
    split; [apply length_map|]. split; [reflexivity|]. split.
    + intros col v Hcol Hv. apply In_nth_error in Hcol. destruct Hcol as [i Hi].
      destruct (nth_error_inferColumnTypes _ _ _ _ Hi) as (Hvals & _ & _).
      rewrite Hvals in Hv. unfold columnValues in Hv.
      apply filter_In in Hv. tauto.
    + intros i col Hi Hnull.
      destruct (nth_error_inferColumnTypes _ _ _ _ Hi) as (Hvals & Ht & _).
      rewrite Hvals, Ht, (columnValues_all_null dataRows i Hnull).
      split; reflexivity.
Qed.

(** ** [inferType] ignores the order *)

Lemma Permutation_length_filter (A : Type) (p : A -> bool) (l l' : list A) :
  Permutation l l' -> List.length (filter p l) = List.length (filter p l').
Proof.
  induction 1 as [|x l l' _ IH|x y l|l l' l'' _ IH1 _ IH2]; simpl.
  - reflexivity.
  - destruct (p x); simpl; now rewrite IH.
  - destruct (p x), (p y); reflexivity.
  - now rewrite IH1.
Qed.

(** X14. The type of a column does not depend on the order of its
    values. *)
Theorem inferType_ignores_order :
  forall (Date_parse : any -> number) (values values' : list any),
    Permutation values values' ->
    inferType Date_parse values = inferType Date_parse values'.
Proof.
  intros Date_parse values values' Hp. unfold inferType.
  rewrite (Permutation_length Hp).
  rewrite (Permutation_length_filter isNumericValue Hp).
  rewrite (Permutation_length_filter isBooleanValue Hp).
  rewrite (Permutation_length_filter (isDateValue Date_parse) Hp).
  reflexivity.
Qed.

Lemma inferType_ignores_order_witness :
  inferType (fun _ => NaN) [VStr "x"; VStr "1"; VStr "2"]
  = inferType (fun _ => NaN) [VStr "2"; VStr "x"; VStr "1"].
Proof.
  apply inferType_ignores_order.
  apply Permutation_sym, (Permutation_cons_app [VStr "x"; VStr "1"] []).
  rewrite app_nil_r. apply Permutation_refl.
Defined.

(** ** The threshold on doubles *)

(** X15. The comparison [count > values.length * 0.8], computed on
    doubles, decides exactly whether more than 80% of the values pass,
    for every column of at most 4096 values. *)
Theorem double_threshold_is_exact :
  forall (p : any -> bool) (values : list any),
    (Z.of_nat (List.length values) <= 4096)%Z ->
    above_80_percent_double (List.length (filter p values))
                            (List.length values) = true
    <-> more_than_80_percent p values.
Proof.
  intros p values Hlen.
  rewrite <- above_80_percent_iff.
  rewrite (@threshold_agrees_with_doubles (List.length (filter p values))
             (List.length values)); [reflexivity | | exact Hlen].
  apply length_filter_le.
Qed.

Lemma double_threshold_is_exact_witness :
  above_80_percent_double 4 5 = true
  <-> more_than_80_percent isNumericValue
        [VStr "1"; VStr "2"; VStr "3"; VStr "4"; VStr "x"].
Proof.
  apply (@double_threshold_is_exact isNumericValue
           [VStr "1"; VStr "2"; VStr "3"; VStr "4"; VStr "x"]).
  simpl. lia.
Defined.

Lemma ingested_number_columns_witness :
  let col := {| name := "qty"; type := TNumber;
                values := [VNum zero; VNum (of_Z 3)] |} in
  more_than_80_percent isNumericValue (values col)
  /\ (1 <= List.length (coercible (values col)))%nat
  /\ (forall v, In v (values col) -> not_nullish v = true).
Proof.
  intros col.
  apply (@ingested_number_columns_have_numbers (fun _ => NaN) "stock.xlsx"
           [[VStr "qty"]; [VNum zero]; [VNull]; [VNum (of_Z 3)]]
           {| columns := [col];
              rows := [[("qty", VNull)]; [("qty", VNull)];
                       [("qty", VNum (of_Z 3))]];
              fileName := "stock.xlsx" |} col).
  - reflexivity.
  - now left.
  - reflexivity.
Defined.

End ColumnTypeFacts.

(* ================================================================== *)
(** * Tables and their display *)
(* ================================================================== *)

Module TableFacts.
Import JS Types ExcelProcessor QueryProcessor Notions TableDisplay.
Import ObjectFacts IngestionFacts FilterFacts IntentClassifier IntentFacts.
Local Open Scope string_scope.

Ltac innermost_case :=
  match goal with
  | |- context [match ?x with _ => _ end] =>
      lazymatch x with
      | context [match _ with _ => _ end] => fail
      | _ => destruct x
      end
  end.

Ltac no_table :=
  cbv beta iota zeta
      delta [handleAverageQuery handleCountQuery handleMaxQuery handleMinQuery
             handleChartQuery handleComparisonQuery handleSummaryQuery
             createDistributionChart createNumericChart createGroupedAnalysis
             extractConditions applyFilters
             result_of bind ret this_dataset fst];
  repeat (innermost_case; cbv beta iota zeta);
  reflexivity.

Lemma only_filter_makes_tables (intent : Intent) (query : string)
  (ds : DataSet) :
  intent <> Filter ->
  result_table (result_of (handler intent query) ds) = None.
Proof.
  destruct intent; intros Hne; try (now destruct Hne); cbn [handler].
  - no_table.
  - no_table.
  - no_table.
  - no_table.
  - no_table.
  - no_table.
  - no_table.
Qed.

Lemma In_firstn (A : Type) (n : nat) (l : list A) (x : A) :
  In x (firstn n l) -> In x l.
Proof.
  intros Hin. rewrite <- (firstn_skipn n l). apply in_or_app. now left.
Qed.

Lemma table_row_cells (hs : list string) (row : Row) :
  List.length (table_row hs row) = List.length hs
  /\ forall cell, In cell (table_row hs row) ->
       (truthy cell = true \/ cell = VStr "")
       /\ displayCell cell = ToString cell
       /\ exists header,
            In header hs
            /\ cell = or_else (prop header row) (VStr "")
            /\ displayCell cell
               = if truthy (prop header row)
                 then ToString (prop header row) else "".
Proof.
  unfold table_row. split; [apply length_map|].
  intros cell Hin. apply in_map_iff in Hin. destruct Hin as (h & <- & Hh).
  unfold or_else. destruct (truthy (prop h row)) eqn:Ht.
  - split; [now left|].
    assert (Hd : displayCell (prop h row) = ToString (prop h row))
      by (destruct (prop h row); try reflexivity; discriminate Ht).
    split; [exact Hd|]. exists h. rewrite Ht. repeat split; assumption.
  - split; [now right|]. split; [reflexivity|].
    exists h. rewrite Ht. repeat split; assumption.
Qed.

(** X16. A query result carries a table only for a filter question; the
    table then has at least one row, every row is made from a row of
    the dataset and has one cell per header, and every cell is truthy
    or the empty string: the table display shows
    [String(cell)] in every cell, never the placeholder "-" and never
    the notice "No data to display". *)
Theorem tables_hold_no_null :
  forall (query : string) (ds : DataSet) (t : TableData),
    result_table (result_of (processQuery query) ds) = Some t ->
    classify (toLowerCase query) = Filter
    /\ table_rows t <> []
    /\ (exists shown,
          table_rows t = map (table_row (headers t)) shown
          /\ forall row, In row shown -> In row (rows ds))
    /\ (forall cells, In cells (table_rows t) ->
          List.length cells = List.length (headers t)
          /\ forall cell, In cell cells ->
               (truthy cell = true \/ cell = VStr "")
               /\ displayCell cell = ToString cell)
    /\ showsNoData t = false
    /\ displayRows t = map (map ToString) (table_rows t).
Proof.
  intros query ds t. rewrite processQuery_dispatch.
  destruct (classify (toLowerCase query)) eqn:Hc;
    try (rewrite only_filter_makes_tables by discriminate; discriminate).
  cbn [handler]. intros Ht. split; [reflexivity|].
  rewrite handleFilterQuery_result in Ht. cbv zeta in Ht.
  set (matching := result_of (applyFilters _) ds) in *.
  destruct (List.length matching =? 0)%nat eqn:Hlen; [discriminate Ht|].
  injection Ht as <-. cbn [table_rows headers].
  split.
  { destruct matching as [|row rest]; [discriminate Hlen | discriminate]. }
  split.
  { exists (firstn 10 matching). split; [reflexivity|].
    intros row Hrow. apply In_firstn in Hrow.
    unfold matching in Hrow. apply applyFilters_In in Hrow. tauto. }
  assert (Hcells : forall cells,
             In cells (map (table_row (map name (columns ds)))
                           (firstn 10 matching)) ->
             List.length cells = List.length (map name (columns ds))
             /\ forall cell, In cell cells ->
                  (truthy cell = true \/ cell = VStr "")
                  /\ displayCell cell = ToString cell).
  { intros cells Hin. apply in_map_iff in Hin. destruct Hin as (row & <- & _).
    destruct (table_row_cells (map name (columns ds)) row) as [Hl Hcells].
    split; [exact Hl|]. intros cell Hcell.
    destruct (Hcells cell Hcell) as (H1 & H2 & _). now split. }
  split; [exact Hcells|]. split.
  { unfold showsNoData. destruct matching; [discriminate Hlen | reflexivity]. }
  unfold displayRows.
  change (table_rows _)
    with (map (table_row (map name (columns ds))) (firstn 10 matching)).
  apply map_ext_in.
  intros cells Hin. apply map_ext_in. intros cell Hcell.
  now apply (Hcells cells Hin).
Qed.

Lemma tables_hold_no_null_witness :
  exists t,
    result_table (result_of (processQuery "filter where age > 30")
                            Samples.people) = Some t
    /\ table_rows t <> []
    /\ forall cells, In cells (table_rows t) ->
         List.length cells = List.length (headers t).
Proof.
  eexists. split; [vm_compute; reflexivity|].
  match goal with
  | |- ?rows <> [] /\ _ =>
      pose proof (@tables_hold_no_null "filter where age > 30" Samples.people
                    _ eq_refl) as H
  end.
  destruct H as (_ & Hne & _ & Hcells & _). split; [exact Hne|].
  intros cells Hin. apply (Hcells cells Hin).
Defined.

(** ** Empty cells under comparisons *)

(** X17. Under a header other than [__proto__] that is not repeated
    further right, a falsy cell of the sheet is null in the row-record,
    so that the conditions [>], [<], [>=] and [<=] compare 0 with the
    filter value on it, and [=] looks for the filter text inside
    "null". *)
Theorem empty_cells_compare_as_zero :
  forall (headers : list string) (row : list any) (index : nat)
         (header : string) (v : any),
    nth_error headers index = Some header ->
    (forall j, (index < j)%nat -> nth_error headers j <> Some header) ->
    header <> "__proto__" ->
    truthy (array_get row index) = false ->
    let record := rowObject headers row in
    prop header record = VNull
    /\ holds record {| column := header; operator := ">"; value := v |}
       = gt zero (Number v)
    /\ holds record {| column := header; operator := "<"; value := v |}
       = lt zero (Number v)
    /\ holds record {| column := header; operator := ">="; value := v |}
       = ge zero (Number v)
    /\ holds record {| column := header; operator := "<="; value := v |}
       = le zero (Number v)
    /\ holds record {| column := header; operator := "="; value := v |}
       = includes "null" (toLowerCase (ToString v)).
Proof.
  intros headers row index header v Hh Hlast _ Hf record.
  assert (Hp : prop header record = VNull).
  { unfold prop, record. rewrite (get_rowObject _ row Hh Hlast).
    unfold or_else. now rewrite Hf. }
  split; [exact Hp|]. now apply holds_on_null.
Qed.

Lemma empty_cells_compare_as_zero_witness :
  prop "age" (rowObject ["name"; "age"] [VStr "bob"]) = VNull
  /\ holds (rowObject ["name"; "age"] [VStr "bob"])
           {| column := "age"; operator := "<"; value := VNum (of_Z 30) |}
     = true.
Proof.
  destruct (@empty_cells_compare_as_zero ["name"; "age"] [VStr "bob"] 1%nat
              "age" (VNum (of_Z 30)) eq_refl) as (Hp & _ & Hlt & _).
  - intros [|[|[|j]]] Hj; try lia; discriminate.
  - discriminate.
  - reflexivity.
  - split; [exact Hp|]. cbv zeta in Hlt. rewrite Hlt. reflexivity.
Defined.

(** ** A filter query without a usable condition *)

Lemma filter_true (A : Type) (l : list A) : filter (fun _ => true) l = l.
Proof. induction l as [|a l IH]; simpl; [reflexivity | now rewrite IH]. Qed.

(** X18. A filter question from which no condition is extracted filters
    nothing: the answer is the table of the first ten rows of the
    whole dataset, in order, with [row[header] || ''] under every
    header that is not a name inherited from [Object.prototype], under
    the number of all rows; or "No records match your filter
    criteria." for a dataset without rows. *)
Theorem filter_without_conditions_shows_every_row :
  forall (query : string) (ds : DataSet),
    result_of (extractConditions query) ds = [] ->
    let r := result_of (handleFilterQuery query) ds in
    match rows ds with
    | [] => r = text_result "No records match your filter criteria."
    | _ :: _ =>
        result_type r = table
        /\ content r = "Found " ++ digits_of_nat (List.length (rows ds))
                         ++ " matching records:"
        /\ exists t,
            result_table r = Some t
            /\ headers t = map name (columns ds)
            /\ table_title t = "Filtered Results"
            /\ Forall2 (fun row cells =>
                          Forall2 (fun header cell =>
                                     inherited header = false ->
                                     cell = or_else (prop header row) (VStr ""))
                                  (headers t) cells)
                       (firstn 10 (rows ds)) (table_rows t)
    end.
Proof.
  intros query ds Hnone r. subst r.
  rewrite handleFilterQuery_result, Hnone.
  rewrite applyFilters_result. cbn [forallb]. rewrite filter_true.
  cbv zeta. destruct (rows ds) as [|row rest] eqn:Hrows; [reflexivity|].
  cbn [List.length Nat.eqb]. split; [reflexivity|]. split; [reflexivity|].
  eexists. split; [reflexivity|]. cbn [headers table_title table_rows].
  split; [reflexivity|]. split; [reflexivity|]. apply table_cells_by_header.
Qed.

Lemma filter_without_conditions_witness :
  exists t,
    result_table (result_of (handleFilterQuery "filter where colour = red")
                            Samples.people) = Some t
    /\ headers t = ["name"; "age"]
    /\ List.length (table_rows t) = 5%nat.
Proof.
  pose proof (@filter_without_conditions_shows_every_row
                "filter where colour = red" Samples.people) as H.
  cbv zeta in H.
  destruct H as (_ & _ & t & Ht & Hh & _ & Hcells).
  - vm_compute. reflexivity.
  - exists t. split; [exact Ht|]. split; [exact Hh|].
    symmetry. apply (Forall2_length Hcells).
Defined.

End TableFacts.

(* ================================================================== *)
(** * Summaries *)
(* ================================================================== *)

Module SummaryFacts.
Import JS Types ExcelProcessor QueryProcessor Notions DataSummary.
Import IngestionFacts IntentClassifier IntentFacts ColumnTypeFacts.
Local Open Scope string_scope.

Lemma length_unique (xs seen : list any) :
  (List.length (unique xs seen) <= List.length xs)%nat.
Proof.
  revert seen. induction xs as [|x xs IH]; intros seen; simpl; [lia|].
  destruct (existsb _ seen); simpl.
  - specialize (IH seen). lia.
  - specialize (IH (x :: seen)). lia.
Qed.

Lemma unique_empty (xs : list any) :
  List.length (unique xs []) = 0%nat <-> xs = [].
Proof.
  destruct xs as [|x xs]; simpl; [tauto|].
  split; intros H; discriminate H.
Qed.

Lemma Forall2_map_r (A B : Type) (R : A -> B -> Prop) (f : A -> B)
  (l : list A) :
  (forall a, In a l -> R a (f a)) -> Forall2 R l (map f l).
Proof.
  induction l as [|a l IH]; intros H; simpl; constructor.
  - apply H. now left.
  - apply IH. intros b Hb. apply H. now right.
Qed.

Lemma not_number_column (col : DataColumn) :
  type col <> TNumber -> ColumnType_eqb (type col) TNumber = false.
Proof. destruct (type col); intros H; try reflexivity. now destruct H. Qed.

(** X22. The summary answer has one line per column, in order; the line
    of a number column without coercible values reads "Average NaN,
    Range Infinity--Infinity"; the line of any other column gives the
    number of distinct values, which is at most the number of values
    and zero only for a column without values. *)
Theorem summary_query_lines :
  forall (ds : DataSet),
  exists lines,
    result_of handleSummaryQuery ds
    = text_result ("Data Summary for " ++ fileName ds ++ ":"
                     ++ newline ++ newline ++ join newline lines)
    /\ Forall2
         (fun col line =>
            (type col = TNumber -> coercible (values col) = [] ->
             line = name col ++ ": Average NaN, Range Infinity--Infinity")
            /\ (type col <> TNumber ->
                exists uniqueCount,
                  line = name col ++ ": " ++ digits_of_nat uniqueCount
                           ++ " unique values"
                  /\ (uniqueCount <= List.length (values col))%nat
                  /\ (uniqueCount = 0%nat <-> values col = [])))
         (columns ds) lines.
Proof.
  intros ds. eexists. split; [reflexivity|].
  apply Forall2_map_r. intros col _. split.
  - intros Ht Hc. unfold is_number_column. rewrite Ht, Hc. reflexivity.
  - intros Ht. unfold is_number_column. rewrite (not_number_column _ Ht).
    eexists. split; [reflexivity|].
    split; [apply length_unique | apply unique_empty].
Qed.

(** X23. [getDataSummary] gives the numbers of rows and of columns and
    one line per column, in order; the line of a number column without
    coercible values reads "avg=NaN, min=Infinity, max=-Infinity"; the
    line of any other column gives its type and the number of distinct
    values, at most the number of values and zero only for a column
    without values. *)
Theorem data_summary_lines :
  forall (ds : DataSet),
  exists lines,
    getDataSummary ds
    = "Dataset Summary:" ++ newline
        ++ "- Rows: " ++ digits_of_nat (List.length (rows ds)) ++ newline
        ++ "- Columns: " ++ digits_of_nat (List.length (columns ds)) ++ newline
        ++ "- Column Details:" ++ newline
        ++ join newline lines
    /\ Forall2
         (fun col line =>
            (type col = TNumber -> coercible (values col) = [] ->
             line = name col ++ " (number): avg=NaN, min=Infinity, max=-Infinity")
            /\ (type col <> TNumber ->
                exists uniqueValues,
                  line = name col ++ " (" ++ ColumnType_toString (type col)
                           ++ "): " ++ digits_of_nat uniqueValues
                           ++ " unique values"
                  /\ (uniqueValues <= List.length (values col))%nat
                  /\ (uniqueValues = 0%nat <-> values col = [])))
         (columns ds) lines.
Proof.
  intros ds. eexists. split; [reflexivity|].
  apply Forall2_map_r. intros col _. cbv beta zeta. split.
  - intros Ht Hc. rewrite Ht, Hc. reflexivity.
  - intros Ht. rewrite (not_number_column _ Ht).
    eexists. split; [reflexivity|].
    split; [apply length_unique | apply unique_empty].
Qed.

(** X24. A sheet with the header row alone, its cells text, is
    ingested, and both summaries of the dataset list every header as a
    column of 0 unique values, [getDataSummary] under "Rows: 0" and
    with the type string. *)
Theorem header_only_sheet_summary :
  forall (Date_parse : any -> number) (fileName : string)
         (headers : list string),
  exists ds,
    processFile Date_parse fileName [map VStr headers] = Resolved ds
    /\ getDataSummary ds
       = "Dataset Summary:" ++ newline
           ++ "- Rows: 0" ++ newline
           ++ "- Columns: "
           ++ digits_of_nat (List.length headers) ++ newline
           ++ "- Column Details:" ++ newline
           ++ join newline
                (map (fun header => header ++ " (string): 0 unique values")
                     headers)
    /\ forall query,
         classify (toLowerCase query) = Summary ->
         result_of (processQuery query) ds
         = text_result
             ("Data Summary for " ++ fileName ++ ":" ++ newline ++ newline
                ++ join newline
                     (map (fun header => header ++ ": 0 unique values")
                          headers)).
Proof.
  intros Date_parse fileName headers. eexists.
  split; [apply processFile_resolves|].
  rewrite as_strings_text, inferColumnTypes_no_rows. split.
  - unfold getDataSummary. cbn [columns rows List.length].
    rewrite (length_map _ headers), map_map. reflexivity.
  - intros query Hc. rewrite processQuery_dispatch, Hc. cbn [handler].
    cbv beta iota zeta
        delta [handleSummaryQuery result_of bind ret this_dataset fst].
    cbn [columns Types.fileName]. rewrite map_map. reflexivity.
Qed.

End SummaryFacts.

(* ================================================================== *)
(** * The scenarios of the specification, run on the model *)
(* ================================================================== *)

Module Scenarios.
Import JS Types ExcelProcessor QueryProcessor Samples.
Local Open Scope string_scope.

Example average_of_sales :
  result_of (processQuery "what is the average sales") sales
  = text_result "The average sales is 20.00.".
Proof. vm_compute. reflexivity. Qed.

Example pie_chart_of_region :
  result_of (processQuery "show a pie chart of region") regions
  = chart_result "Distribution of region:"
      {| chart_type := pie;
         data := [{| point_name := "east"; point_count := 2;
                     point_average := None; point_value := of_Z 2 |};
                  {| point_name := "west"; point_count := 1;
                     point_average := None; point_value := of_Z 1 |}];
         xKey := "name";
         yKey := "count";
         chart_title := "region Distribution" |}.
Proof. vm_compute. reflexivity. Qed.

Example salary_by_dept :
  result_of (processQuery "compare salary by dept") payroll
  = chart_result "Analysis by dept:"
      {| chart_type := bar;
         data := [{| point_name := "ops"; point_count := 2;
                     point_average := Some (of_Z 200);
                     point_value := of_Z 200 |};
                  {| point_name := "dev"; point_count := 1;
                     point_average := Some (of_Z 250);
                     point_value := of_Z 250 |}];
         xKey := "name";
         yKey := "average";
         chart_title := "Average salary by dept" |}.
Proof. vm_compute. reflexivity. Qed.

Example count_where_age_above_30 :
  result_of (processQuery "how many records are there where age > 30") people
  = text_result "Found 2 rows matching your criteria out of 5 total rows.".
Proof. vm_compute. reflexivity. Qed.

Example condition_age_above_30 :
  result_of (extractConditions "age > 30") people
  = [{| column := "age"; operator := ">"; value := num 30 |}]
  /\ result_of (extractConditions "height > 30") people = [].
Proof. split; vm_compute; reflexivity. Qed.

End Scenarios.

(* ================================================================== *)
(** * Further runs of the model *)
(* ================================================================== *)

Module FurtherScenarios.
Import JS Types ExcelProcessor QueryProcessor Samples MoreSamples.
Import DataSummary TableDisplay Tallies.
Local Open Scope string_scope.

Example data_summary_of_payroll :
  getDataSummary payroll
  = "Dataset Summary:" ++ newline
      ++ "- Rows: 3" ++ newline
      ++ "- Columns: 2" ++ newline
      ++ "- Column Details:" ++ newline
      ++ "dept (string): 2 unique values" ++ newline
      ++ "salary (number): avg=216.67, min=100, max=300".
Proof. vm_compute. reflexivity. Qed.

Example summary_of_payroll :
  result_of (processQuery "tell me about it") payroll
  = text_result ("Data Summary for payroll.xlsx:" ++ newline ++ newline
                   ++ "dept: 2 unique values" ++ newline
                   ++ "salary: Average 216.67, Range 100-300").
Proof. vm_compute. reflexivity. Qed.

Example highest_and_lowest_salary :
  result_of (processQuery "what is the highest salary") payroll
  = text_result "The maximum salary is 300."
  /\ result_of (processQuery "and the lowest salary") payroll
     = text_result "The minimum salary is 100.".
Proof. split; vm_compute; reflexivity. Qed.

Example displayed_rows_above_30 :
  option_map displayRows
    (result_table (result_of (processQuery "filter where age > 30") people))
  = Some [["bob"; "31"]; ["dee"; "47"]].
Proof. vm_compute. reflexivity. Qed.

Example tasks_are_ingested :
  map (fun col => (name col, type col)) (columns tasks)
  = [("task", TString); ("done", TBoolean)].
Proof. vm_compute. reflexivity. Qed.

Example boolean_column_is_not_charted :
  result_of (processQuery "show done") tasks
  = text_result
      "Unable to determine what to chart. Please specify a column name."
  /\ result_type (result_of (processQuery "show it") tasks) = chart.
Proof. split; vm_compute; reflexivity. Qed.

Example tally_of_categories :
  tally category [VStr "a"; VNull; VStr "a"; VNum zero]
  = [("a", 2%nat); ("Unknown", 2%nat)].
Proof. vm_compute. reflexivity. Qed.

End FurtherScenarios.
